(** * System Monitor panel: snapshot gathering and report rendering

    A shallow embedding of [src/system-monitor/system-monitor-panel_copy.ts]:
    the probes awaited by [_getHtmlForWebview], the [input] record it
    assembles, the sections of the report it renders, and the life cycle of
    the panel ([createOrShow], [revive], [dispose]).

    ECMAScript numbers are IEEE 754 binary64 values ([spec_float] with
    [prec = 53] and [emax = 1024]); [Number::toString] and
    [Number.prototype.toFixed] follow the language specification and work on
    the exact value of the float. *)

From Stdlib Require Import ZArith List String Ascii Bool Lia.
From Stdlib Require Import Floats.SpecFloat.
From ExtLib Require Import Structures.Monad.
Import ListNotations.

#[local] Set Warnings "-register-all".

Local Open Scope string_scope.
Local Open Scope Z_scope.

(* ===================================================================== *)
(** * ECMAScript numbers *)
(* ===================================================================== *)

Module JS.

Definition number : Type := spec_float.

Definition prec : Z := 53.
Definition emax : Z := 1024.

(** An integer literal of the source ([100], [1024], [1000]). *)
Definition lit (z : Z) : number := binary_normalize prec emax z 0 false.

Definition div (x y : number) : number := SFdiv prec emax x y.
Definition mul (x y : number) : number := SFmul prec emax x y.
Definition sub (x y : number) : number := SFsub prec emax x y.
Definition add (x y : number) : number := SFadd prec emax x y.

(** ** Decimal digits *)

Definition digit_char (d : Z) : ascii := ascii_of_nat (48 + Z.to_nat (d mod 10)).

Fixpoint digits_from (fuel : nat) (n : Z) (acc : string) : string :=
  match fuel with
  | O => acc
  | S fuel' =>
      let acc' := String (digit_char n) acc in
      if n <? 10 then acc' else digits_from fuel' (n / 10) acc'
  end.

(** The decimal representation of a non-negative integer, without leading
    zeros; a decimal numeral is never longer than the binary one. *)
Definition decimal (n : Z) : string :=
  digits_from (S (Z.to_nat (Z.log2 n))) n "".

Fixpoint zeros (k : nat) : string :=
  match k with
  | O => ""
  | S k' => String "0" (zeros k')
  end.

(** [take k s] and [drop k s]: the first [k] characters of [s] and the
    rest. *)
Fixpoint take (k : nat) (s : string) : string :=
  match k, s with
  | S k', String c s' => String c (take k' s')
  | _, _ => ""
  end.

Fixpoint drop (k : nat) (s : string) : string :=
  match k, s with
  | S k', String _ s' => drop k' s'
  | _, _ => s
  end.

Definition is_digit (c : ascii) : bool :=
  (48 <=? nat_of_ascii c)%nat && (nat_of_ascii c <=? 57)%nat.

Fixpoint all_digits (s : string) : bool :=
  match s with
  | EmptyString => true
  | String c s' => is_digit c && all_digits s'
  end.

(** ** Exact comparisons of a binary and a decimal quantity *)

(** [a * 2^e2] against [b * 10^p10], for integers [a], [b]. *)
Definition cmp_scaled (a e2 b p10 : Z) : comparison :=
  (a * 2 ^ Z.max e2 0 * 10 ^ Z.max (- p10) 0)
  ?= (b * 10 ^ Z.max p10 0 * 2 ^ Z.max (- e2) 0).

(** [floor (a * 2^e2 / 10^p10)]. *)
Definition floor_scaled (a e2 p10 : Z) : Z :=
  (a * 2 ^ Z.max e2 0 * 10 ^ Z.max (- p10) 0)
  / (10 ^ Z.max p10 0 * 2 ^ Z.max (- e2) 0).

Fixpoint log10_up (fuel : nat) (m e j : Z) : Z :=
  match fuel with
  | O => j
  | S fuel' =>
      match cmp_scaled m e 1 (j + 1) with
      | Lt => j
      | _ => log10_up fuel' m e (j + 1)
      end
  end.

(** The [j] with [10^j <= m * 2^e < 10^(j+1)]. *)
Definition log10_floor (m e : Z) : Z :=
  log10_up 4 m e ((Z.log2 m + e) * 30103 / 100000 - 1).

(** ** Number::toString, radix 10 *)

(** The interval of reals that round to the float [m * 2^e], in units of
    [2^(e-2)]: the midpoints to the neighbouring floats.  The float below
    a power of two is half as far away. *)
Definition round_lo (m e : Z) : Z :=
  if (m =? 2 ^ (prec - 1)) && (3 - emax - prec <? e) then 4 * m - 1 else 4 * m - 2.
Definition round_hi (m : Z) : Z := 4 * m + 2.

(** Whether [s * 10^p] reads back as the float [m * 2^e]: midpoints round
    to the even significand. *)
Definition reads_back (m e s p : Z) : bool :=
  match cmp_scaled (round_lo m e) (e - 2) s p, cmp_scaled (round_hi m) (e - 2) s p with
  | Lt, Gt => true
  | Eq, Gt | Lt, Eq => Z.even m
  | _, _ => false
  end.

(** The [k]-digit candidates next to [m * 2^e]; the closer one first, the
    even one on a tie. *)
Definition candidates (m e j : Z) (k : Z) : list (Z * Z) :=
  let p := j - k + 1 in
  let lo := floor_scaled m e p in
  let hi := lo + 1 in
  let norm s := if s =? 10 ^ k then (s / 10, p + 1) else (s, p) in
  match cmp_scaled (2 * m) e (lo + hi) p with
  | Lt => [norm lo; norm hi]
  | Gt => [norm hi; norm lo]
  | Eq => if Z.even lo then [norm lo; norm hi] else [norm hi; norm lo]
  end.

Fixpoint shortest (fuel : nat) (m e j k : Z) : Z * Z * Z :=
  match fuel with
  | O => (m, e, k)
  | S fuel' =>
      match filter (fun sp => reads_back m e (fst sp) (snd sp)) (candidates m e j k) with
      | (s, p) :: _ => (s, p + k, k)
      | [] => shortest fuel' m e j (k + 1)
      end
  end.

(** Integers [s], [n], [k] with [10^(k-1) <= s < 10^k], [s * 10^(n-k)]
    reading back as the float, and [k] least (at most 17 for binary64). *)
Definition shortest_digits (m e : Z) : Z * Z * Z :=
  shortest 17 m e (log10_floor m e) 1.

Definition format_digits (s n k : Z) : string :=
  let ds := decimal s in
  if (k <=? n) && (n <=? 21) then ds ++ zeros (Z.to_nat (n - k))
  else if (0 <? n) && (n <=? 21) then
    take (Z.to_nat n) ds ++ "." ++ drop (Z.to_nat n) ds
  else if (-6 <? n) && (n <=? 0) then "0." ++ zeros (Z.to_nat (- n)) ++ ds
  else
    let ex := (if 0 <=? n - 1 then "+" else "-") ++ decimal (Z.abs (n - 1)) in
    if k =? 1 then ds ++ "e" ++ ex
    else take 1 ds ++ "." ++ drop 1 ds ++ "e" ++ ex.

Definition Number_toString (x : number) : string :=
  match x with
  | S754_nan => "NaN"
  | S754_zero _ => "0"
  | S754_infinity s => if s then "-Infinity" else "Infinity"
  | S754_finite s m e =>
      let '(d, n, k) := shortest_digits (Zpos m) e in
      (if s then "-" else "") ++ format_digits d n k
  end.

(** ** Number.prototype.toFixed *)

(** The integer [n] for which [n / 10^f - m * 2^e] is closest to zero, the
    larger one when two are equally close. *)
Definition nearest_scaled (f : nat) (m e : Z) : Z :=
  let num := m * 10 ^ Z.of_nat f in
  if 0 <=? e then num * 2 ^ e
  else (2 * num + 2 ^ (- e)) / (2 * 2 ^ (- e)).

Definition fixed_digits (f : nat) (n : Z) : string :=
  let ds := decimal n in
  let ds := zeros (S f - String.length ds) ++ ds in
  let k := String.length ds in
  match f with
  | O => ds
  | _ => take (k - f) ds ++ "." ++ drop (k - f) ds
  end.

Definition toFixed (f : nat) (x : number) : string :=
  match x with
  | S754_nan | S754_infinity _ => Number_toString x
  | S754_zero _ => fixed_digits f 0
  | S754_finite s m e =>
      match cmp_scaled (Zpos m) e 1 21 with
      | Lt =>
        (if s then "-" else "") ++ fixed_digits f (nearest_scaled f (Zpos m) e)
      | _ => Number_toString x
      end
  end.

(** ** Math.floor *)

Definition Math_floor (x : number) : number :=
  match x with
  | S754_finite s m e =>
      if 0 <=? e then x
      else
        let q := Zpos m / 2 ^ (- e) in
        let exact := Zpos m mod 2 ^ (- e) =? 0 in
        if s then binary_normalize prec emax (- (if exact then q else q + 1)) 0 true
        else binary_normalize prec emax q 0 false
  | _ => x
  end.

(** ** Values interpolated into the template

    The leaves of the probes' results are typed [any] in the source; a leaf
    is only ever converted to a string. *)

Inductive value : Type :=
| JUndefined
| JNull
| JBool (b : bool)
| JNum (x : number)
| JStr (s : string).

Definition ToString (v : value) : string :=
  match v with
  | JUndefined => "undefined"
  | JNull => "null"
  | JBool b => if b then "true" else "false"
  | JNum x => Number_toString x
  | JStr s => s
  end.

(** [a[i]]: an index past the end of the array reads [undefined]. *)
Definition index (a : list value) (i : nat) : value :=
  match nth_error a i with
  | Some v => v
  | None => JUndefined
  end.

(** ** Array.prototype.map and Array.prototype.join *)

Fixpoint map_from {A B : Type} (f : A -> nat -> B) (i : nat) (a : list A) : list B :=
  match a with
  | [] => []
  | x :: a' => f x i :: map_from f (S i) a'
  end.

Definition Array_map {A B : Type} (f : A -> nat -> B) (a : list A) : list B :=
  map_from f 0%nat a.

End JS.

(* ===================================================================== *)
(** * The document *)
(* ===================================================================== *)

(** The template literal of [_getHtmlForWebview] as a tree: one [Elem] per
    tag, with its attributes, and one [Text] per run of text that an
    interpolation produces.  White space between tags is not kept. *)

Module Html.

Inductive html : Type :=
| Text (s : string)
| Elem (tag : string) (attrs : list (string * string)) (kids : list html).

Definition el (tag cls : string) (kids : list html) : html :=
  Elem tag [("class", cls)] kids.

Definition tr (kids : list html) : html := Elem "tr" [] kids.
Definition td (kids : list html) : html := Elem "td" [] kids.
Definition tbody (kids : list html) : html := Elem "tbody" [] kids.
Definition table (kids : list html) : html := el "table" "table table-hover table-sm" kids.

(** A template array converted to a string: [Array.prototype.join] puts
    the separator between the elements; an array interpolated as it is
    ([${a.map(...)}]) is joined with a comma. *)
Fixpoint join (sep : string) (rows : list html) : list html :=
  match rows with
  | [] => []
  | [r] => [r]
  | r :: rows' => r :: (if String.eqb sep "" then [] else [Text sep]) ++ join sep rows'
  end.

Definition Array_toString (rows : list html) : list html := join "," rows.

(** The rows of a rendered fragment: its [tr] elements, in order. *)
Definition is_row (h : html) : bool :=
  match h with
  | Elem tag _ _ => String.eqb tag "tr"
  | Text _ => false
  end.

Definition rows_of (kids : list html) : list html := filter is_row kids.

End Html.

(* ===================================================================== *)
(** * What the probes return *)
(* ===================================================================== *)

(** The parts of the [systeminformation] results that the template reads.
    Fields that enter an arithmetic expression are numbers; every other
    leaf is a [JS.value]. *)

Module Data.

Import JS.

Record OsData := {
  os_platform : value; os_distro : value; os_release : value;
  os_codename : value; os_kernel : value; os_arch : value;
  os_hostname : value; os_logofile : value }.

Record VersionData := {
  v_kernel : value; v_openssl : value; v_node : value; v_v8 : value;
  v_npm : value; v_yarn : value; v_pm2 : value; v_gulp : value;
  v_grunt : value; v_git : value; v_tsc : value; v_mysql : value;
  v_redis : value; v_mongodb : value; v_nginx : value; v_php : value }.

Record SystemData := {
  sys_manufacturer : value; sys_model : value; sys_version : value;
  sys_serial : value; sys_uuid : value; sys_sku : value }.

Record BaseboardData := {
  bb_manufacturer : value; bb_model : value; bb_version : value;
  bb_serial : value; bb_assetTag : value }.

Record BiosData := {
  bios_vendor : value; bios_version : value; bios_releaseDate : value;
  bios_revision : value }.

Record CpuCacheData := { l1d : number; l1i : number; l2 : number; l3 : number }.

Record CpuData := {
  cpu_manufacturer : value; cpu_brand : value; cpu_vendor : value;
  cpu_family : value; cpu_model : value; cpu_stepping : value;
  cpu_revision : value; cpu_voltage : value; cpu_speed : value;
  cpu_speedmin : value; cpu_speedmax : value; cpu_cores : value;
  cpu_cache : CpuCacheData; cpu_flags : value }.

Record GraphicsControllerData := {
  gpu_model : value; gpu_vendor : value; gpu_bus : value; gpu_vram : value;
  gpu_vramDynamic : value }.

Record GraphicsDisplayData := {
  d_model : value; d_main : value; d_builtin : value; d_connection : value;
  d_resolutionx : value; d_resolutiony : value; d_sizex : value;
  d_sizey : value; d_pixeldepth : value }.

Record GraphicsData := {
  controllers : list GraphicsControllerData;
  displays : list GraphicsDisplayData }.

Record MemLayoutData := {
  ml_size : number; ml_bank : value; ml_type : value; ml_clockSpeed : value;
  ml_formFactor : value; ml_manufacturer : value; ml_partNum : value;
  ml_serialNum : value; ml_voltageConfigured : value; ml_voltageMin : value;
  ml_voltageMax : value }.

Record DiskLayoutData := {
  dl_type : value; dl_name : value; dl_vendor : value; dl_size : number;
  dl_bytesPerSector : value; dl_totalCylinders : value; dl_totalHeads : value;
  dl_totalSectors : value; dl_totalTracks : value;
  dl_tracksPerCylinder : value; dl_sectorsPerTrack : value;
  dl_firmwareRevision : value; dl_serialNum : value;
  dl_interfaceType : value; dl_smartStatus : value }.

Record StaticData := {
  os : OsData; versions : VersionData; system : SystemData;
  baseboard : BaseboardData; bios : BiosData; cpu : CpuData;
  graphics : GraphicsData; memLayout : list MemLayoutData;
  diskLayout : list DiskLayoutData }.

Record TimeData := { uptime : JS.number; timezone : value; timezoneName : value }.

Record CurrentLoadCpuData := { load : number }.

Record CurrentLoadData := { avgLoad : value; cpus : list CurrentLoadCpuData }.

Record CpuCurrentSpeedData := { speed_cores : list value }.

Record CpuTemperatureData := { temp_cores : list value }.

Record ProcessesData := {
  all : value; running : value; sleeping : value; blocked : value;
  unknown : value }.

Record MemData := {
  total : number; free : number; used : number; active : number;
  buffcache : number; swaptotal : number; swapused : number;
  swapfree : number }.

Record FsSizeData := {
  fs_fs : value; fs_type : value; fs_size : number; fs_used : number;
  fs_available : value; fs_use : value; fs_mount : value }.

(** An element of [input.fsSize]: the probe's entry with the three
    formatted sizes added. *)
Record Storage := {
  prettySize : string; prettyUsed : string; prettyFree : string;
  entry : FsSizeData }.

(** The object [input] that [_getHtmlForWebview] assembles. *)
Record Input := {
  staticData : StaticData;
  locale : value;
  listeningIp : value;
  time : TimeData;
  prettyUptime : string;
  prettyCurrent : string;
  avgload : number * number * number;
  currentLoad : CurrentLoadData;
  processes : ProcessesData;
  memoryUsage : MemData;
  fsSize : option (list Storage);
  cpuCurrentspeed : CpuCurrentSpeedData;
  cpuTemp : CpuTemperatureData }.

End Data.

(* ===================================================================== *)
(** * Gathering the snapshot *)
(* ===================================================================== *)

Module Aggregator.

Import JS Data.
Import MonadNotation.
Local Open Scope monad_scope.

(** The calls that [_getHtmlForWebview] awaits, in the order of the
    source. *)
Inductive probe : Type :=
| getStaticData | osLocale | publicIp_v4 | si_time | si_currentLoad
| si_cpuCurrentSpeed | si_cpuTemperature | si_processes | si_mem | si_fsSize.

Definition probes : list probe :=
  [getStaticData; osLocale; publicIp_v4; si_time; si_currentLoad;
   si_cpuCurrentSpeed; si_cpuTemperature; si_processes; si_mem; si_fsSize].

Definition answer (p : probe) : Type :=
  match p with
  | getStaticData => StaticData
  | osLocale => value
  | publicIp_v4 => value
  | si_time => TimeData
  | si_currentLoad => CurrentLoadData
  | si_cpuCurrentSpeed => CpuCurrentSpeedData
  | si_cpuTemperature => CpuTemperatureData
  | si_processes => ProcessesData
  | si_mem => MemData
  | si_fsSize => list FsSizeData
  end.

Definition probe_eqb (p q : probe) : bool :=
  match p, q with
  | getStaticData, getStaticData | osLocale, osLocale
  | publicIp_v4, publicIp_v4 | si_time, si_time
  | si_currentLoad, si_currentLoad | si_cpuCurrentSpeed, si_cpuCurrentSpeed
  | si_cpuTemperature, si_cpuTemperature | si_processes, si_processes
  | si_mem, si_mem | si_fsSize, si_fsSize => true
  | _, _ => false
  end.

(** How the promise of a call ends: fulfilled with a value, rejected with
    a reason, or never settled. *)
Inductive outcome (T : Type) : Type :=
| Fulfilled (v : T)
| Rejected (reason : string)
| Pending.
Arguments Fulfilled {T} v.
Arguments Rejected {T} reason.
Arguments Pending {T}.

(** The machine the extension runs on: what each call does there, the load
    averages of [os.loadavg()] and the local time that
    [new Date(Date.now()).toLocaleString()] prints. *)
Record host := {
  h_getStaticData : outcome StaticData;
  h_osLocale : outcome value;
  h_publicIp_v4 : outcome value;
  h_time : outcome TimeData;
  h_currentLoad : outcome CurrentLoadData;
  h_cpuCurrentSpeed : outcome CpuCurrentSpeedData;
  h_cpuTemperature : outcome CpuTemperatureData;
  h_processes : outcome ProcessesData;
  h_mem : outcome MemData;
  h_fsSize : outcome (list FsSizeData);
  h_loadavg : number * number * number;
  h_localTime : string }.

Definition settle (h : host) (p : probe) : outcome (answer p) :=
  match p with
  | getStaticData => h_getStaticData h
  | osLocale => h_osLocale h
  | publicIp_v4 => h_publicIp_v4 h
  | si_time => h_time h
  | si_currentLoad => h_currentLoad h
  | si_cpuCurrentSpeed => h_cpuCurrentSpeed h
  | si_cpuTemperature => h_cpuTemperature h
  | si_processes => h_processes h
  | si_mem => h_mem h
  | si_fsSize => h_fsSize h
  end.

(** ** The body of an async function

    A computation either returns, or awaits a call and continues with its
    value, or reads the host synchronously. *)
Inductive Async (A : Type) : Type :=
| Resolve (a : A)
| Await (p : probe) (k : answer p -> Async A)
| Os_loadavg (k : number * number * number -> Async A)
| Date_now (k : string -> Async A).
Arguments Resolve {A} a.
Arguments Await {A} p k.
Arguments Os_loadavg {A} k.
Arguments Date_now {A} k.

Fixpoint Async_bind {A B : Type} (m : Async A) (f : A -> Async B) : Async B :=
  match m with
  | Resolve a => f a
  | Await p k => Await p (fun v => Async_bind (k v) f)
  | Os_loadavg k => Os_loadavg (fun v => Async_bind (k v) f)
  | Date_now k => Date_now (fun v => Async_bind (k v) f)
  end.

#[export] Instance Monad_Async : Monad Async :=
  {| ret := @Resolve; bind := @Async_bind |}.

Definition await (p : probe) : Async (answer p) := Await p Resolve.
Definition loadavg : Async (number * number * number) := Os_loadavg Resolve.
Definition localTime : Async string := Date_now Resolve.

(** ** Running it on a host *)

Inductive event : Type :=
| Launch (p : probe)
| Settle (p : probe).

(** What becomes of the promise of the async function. *)
Inductive result (A : Type) : Type :=
| Done (a : A)
| Failed (reason : string)
| Hung.
Arguments Done {A} a.
Arguments Failed {A} reason.
Arguments Hung {A}.

Definition map_result {A B : Type} (f : A -> B) (r : result A) : result B :=
  match r with
  | Done a => Done (f a)
  | Failed reason => Failed reason
  | Hung => Hung
  end.

(** [await] on a rejected promise throws; nothing in the function catches,
    so its own promise is rejected with the same reason.  [await] on a
    promise that never settles never resumes the function. *)
Fixpoint run {A : Type} (h : host) (m : Async A) : list event * result A :=
  match m with
  | Resolve a => ([], Done a)
  | Await p k =>
      match settle h p with
      | Fulfilled v =>
          let '(tr, r) := run h (k v) in (Launch p :: Settle p :: tr, r)
      | Rejected reason => ([Launch p; Settle p], Failed reason)
      | Pending => ([Launch p], Hung)
      end
  | Os_loadavg k => run h (k (h_loadavg h))
  | Date_now k => run h (k (h_localTime h))
  end.

Definition launched (tr : list event) (p : probe) : bool :=
  existsb (fun e => match e with Launch q => probe_eqb p q | Settle _ => false end) tr.

Definition settled (tr : list event) (p : probe) : bool :=
  existsb (fun e => match e with Settle q => probe_eqb p q | Launch _ => false end) tr.

Definition fulfilled {T : Type} (o : outcome T) : bool :=
  match o with
  | Fulfilled _ => true
  | Rejected _ | Pending => false
  end.

(** The place of a call in the function: [await]s are numbered from 0. *)
Definition rank (p : probe) : nat :=
  match p with
  | getStaticData => 0 | osLocale => 1 | publicIp_v4 => 2 | si_time => 3
  | si_currentLoad => 4 | si_cpuCurrentSpeed => 5 | si_cpuTemperature => 6
  | si_processes => 7 | si_mem => 8 | si_fsSize => 9
  end.

Definition precedes (q p : probe) : bool := (rank q <? rank p)%nat.

(** A call after another in one [await] each: the second starts when the
    first has settled. *)
Definition sequential (ps : list probe) : list event :=
  flat_map (fun p => [Launch p; Settle p]) ps.

(** ** The npm packages the function calls

    [pretty-ms] (with [verbose: true]) and [pretty-bytes] are not part of
    the repository; they are taken as functions from numbers to strings. *)
Class Packages := {
  prettyMs : number -> string;
  prettyBytes : number -> string }.

(** [parseFloat] of a number converts it to a string and reads it back;
    the shortest digits that [Number::toString] prints read back as the
    same number, and [-0] prints as ["0"]. *)
Definition parseFloat (x : number) : number :=
  match x with
  | S754_zero _ => S754_zero false
  | _ => x
  end.

Section GetInput.
Context `{Packages}.

Definition storage_of (x : FsSizeData) : Storage :=
  let sizeInt := fs_size x in
  {| prettySize := prettyBytes sizeInt;
     prettyUsed := prettyBytes (fs_used x);
     prettyFree := prettyBytes (sub sizeInt (fs_used x));
     entry := x |}.

(** The first part of [_getHtmlForWebview], up to [input = { ... }]. *)
Definition getInput : Async Input :=
  staticData <- await getStaticData ;;
  locale <- await osLocale ;;
  listeningIp <- await publicIp_v4 ;;
  time <- await si_time ;;
  let prettyUptime := prettyMs (mul (Math_floor (parseFloat (uptime time))) (lit 1000)) in
  prettyCurrent <- localTime ;;
  avgload <- loadavg ;;
  currentLoad <- await si_currentLoad ;;
  cpuCurrentspeed <- await si_cpuCurrentSpeed ;;
  cpuTemp <- await si_cpuTemperature ;;
  processes <- await si_processes ;;
  memoryUsage <- await si_mem ;;
  fsSizes <- await si_fsSize ;;
  let fsSize := map storage_of fsSizes in
  ret {| staticData := staticData; locale := locale; listeningIp := listeningIp;
         time := time; prettyUptime := prettyUptime;
         prettyCurrent := prettyCurrent; avgload := avgload;
         currentLoad := currentLoad; processes := processes;
         memoryUsage := memoryUsage; fsSize := Some fsSize;
         cpuCurrentspeed := cpuCurrentspeed; cpuTemp := cpuTemp |}.

(** The [input] assembled on a host where every call is fulfilled. *)
Definition assembled (h : host) (sd : StaticData) (lo ip : value) (t : TimeData)
    (cl : CurrentLoadData) (sp : CpuCurrentSpeedData) (te : CpuTemperatureData)
    (pr : ProcessesData) (me : MemData) (fsz : list FsSizeData) : Input :=
  {| staticData := sd; locale := lo; listeningIp := ip; time := t;
     prettyUptime := prettyMs (mul (Math_floor (parseFloat (uptime t))) (lit 1000));
     prettyCurrent := h_localTime h; avgload := h_loadavg h;
     currentLoad := cl; processes := pr; memoryUsage := me;
     fsSize := Some (map storage_of fsz);
     cpuCurrentspeed := sp; cpuTemp := te |}.

End GetInput.

End Aggregator.

(* ===================================================================== *)
(** * Rendering the report *)
(* ===================================================================== *)

(** The second part of [_getHtmlForWebview]: the body of the document, as
    the template literal builds it from [input].  A run of white space
    inside a text is kept as one space. *)

Module Render.

Import JS Data Html.

Definition th (label : string) : html := Elem "th" [("scope", "col")] [Text label].
Definition th_wide (label width : string) : html :=
  Elem "th" [("scope", "col"); ("style", "width:" ++ width ++ ";")] [Text label].

(** A row of a key/value table: [<tr><td>label</td><td>${v}</td></tr>]. *)
Definition row (label text : string) : html := tr [td [Text label]; td [Text text]].

Definition card (title : string) (table_kids : list html) : html :=
  el "div" "card text-white shadow-sm"
    [el "h6" "card-header" [Text title];
     el "div" "card-body" [el "div" "table-responsive" [table table_kids]]].

Definition progress_bar (cls : string) (width : string) : html :=
  Elem "div" [("class", cls); ("role", "progressbar");
              ("style", "width: " ++ width ++ "%;")] [].

Definition striped : string := "progress-bar progress-bar-striped progress-bar-animated".

(** [a / b * 100], as the progress bars print it and as the text next to
    them prints it with [toFixed(2)]. *)
Definition ratio100 (a b : number) : number := mul (div a b) (lit 100).
Definition percent (a b : number) : string := toFixed 2 (ratio100 a b).

(** [(x / 1024 / 1024 / 1024).toFixed(2)] and [(x / 1024 / 1024).toFixed(2)]. *)
Definition gibi (x : number) : string :=
  toFixed 2 (div (div (div x (lit 1024)) (lit 1024)) (lit 1024)).
Definition mebi (x : number) : string :=
  toFixed 2 (div (div x (lit 1024)) (lit 1024)).

(** ** System Vital *)

Definition averageLoadCell (input : Input) : html :=
  let '(a0, a1, a2) := avgload input in
  let avg := ToString (avgLoad (currentLoad input)) in
  td [el "div" "float-left"
        [Text (toFixed 2 a0 ++ " " ++ toFixed 2 a1 ++ " " ++ toFixed 2 a2)];
      Elem "div" [("class", "float-right"); ("style", "width:50%;")]
        [el "div" "progress"
           [Elem "div" [("class", striped); ("role", "progressbar");
                        ("style", "width: " ++ avg ++ "%;");
                        ("aria-valuenow", avg); ("aria-valuemin", "0");
                        ("aria-valuemax", "100")] []];
         el "div" "text-center" [Text (avg ++ "%")]]].

Definition processesText (p : ProcessesData) : string :=
  ToString (all p) ++ " (" ++ ToString (running p) ++ " running, "
  ++ ToString (sleeping p) ++ " sleeping, " ++ ToString (blocked p)
  ++ " blocked, " ++ ToString (unknown p) ++ " unknown)".

Definition systemVital (input : Input) : html :=
  let sd := staticData input in
  card "System Vital"
    [tbody
       [row "Canonical Hostname" (ToString (os_hostname (os sd)));
        row "Listening IP" (ToString (listeningIp input));
        row "Kernel Version" (ToString (v_kernel (versions sd)));
        row "Distro Name" (ToString (os_distro (os sd)));
        row "Uptime" (prettyUptime input);
        tr [td [Text "Average load"]; averageLoadCell input];
        row "System Language" (ToString (locale input));
        row "Local time" (prettyCurrent input);
        row "Time zone" (ToString (timezone (time input)));
        row "Time zone name" (ToString (timezoneName (time input)));
        row "Processes" (processesText (processes input))]].

(** ** CPU Usage *)

Definition coreRow (input : Input) (cpu : CurrentLoadCpuData) (index : nat) : html :=
  tr [td [Text ("Core " ++ decimal (Z.of_nat (index + 1)))];
      td [el "div" "progress" [progress_bar striped (Number_toString (load cpu))];
          el "div" "text-center" [Text (toFixed 2 (load cpu) ++ "%")]];
      td [Text (ToString (JS.index (speed_cores (cpuCurrentspeed input)) index) ++ " Ghz")];
      td [Text (ToString (JS.index (temp_cores (cpuTemp input)) index))]].

Definition cpuUsage (input : Input) : html :=
  card "CPU Usage"
    [Elem "thead" [] [th "Core"; th_wide "Load" "60%"; th "Speed"; th "Temp"];
     tbody (Array_toString (Array_map (coreRow input) (cpus (currentLoad input))))].

(** ** Memory Usage *)

Definition physicalRow (m : MemData) : html :=
  tr [td [Text "Physical"];
      td [el "div" "progress"
            [progress_bar striped (Number_toString (ratio100 (active m) (total m)));
             progress_bar ("progress-bar bg-warning progress-bar-striped progress-bar-animated")
               (Number_toString (ratio100 (buffcache m) (total m)))];
          el "div" "text-center"
            [Text (percent (used m) (total m) ++ "% (active: "
                   ++ percent (active m) (total m) ++ "%, buffcache: "
                   ++ percent (buffcache m) (total m) ++ "%)")]];
      td [Text (gibi (free m) ++ " GB")];
      td [Text (gibi (used m) ++ " GB")];
      td [Text (gibi (total m) ++ " GB")]].

Definition swapRow (m : MemData) : html :=
  tr [td [Text "SWAP"];
      td [el "div" "progress"
            [progress_bar striped (Number_toString (ratio100 (swapused m) (swaptotal m)))];
          el "div" "text-center" [Text (percent (swapused m) (swaptotal m) ++ "%")]];
      td [Text (gibi (swapfree m) ++ " GB")];
      td [Text (gibi (swapused m) ++ " GB")];
      td [Text (gibi (swaptotal m) ++ " GB")]].

Definition memoryUsageCard (input : Input) : html :=
  card "Memory Usage"
    [Elem "thead" []
       [tr [th "Type"; th_wide "Usage" "50%"; th "Free"; th "Used"; th "Total"]];
     tbody [physicalRow (memoryUsage input); swapRow (memoryUsage input)]].

(** ** Storage Usage *)

Definition storageRow (storage : Storage) : html :=
  let x := entry storage in
  tr [td [Text (ToString (fs_mount x))];
      td [Text (ToString (fs_type x))];
      td [Text (ToString (fs_fs x))];
      td [el "div" "progress"
            [progress_bar striped (Number_toString (ratio100 (fs_used x) (fs_size x)))];
          el "div" "text-center" [Text (percent (fs_used x) (fs_size x) ++ "%")]];
      td [Text (prettyFree storage)];
      td [Text (prettyUsed storage)];
      td [Text (prettySize storage)]].

(** [${input.fsSize?.map(...)}]: without the array the interpolation prints
    [undefined]. *)
Definition storageRows (fsSize : option (list Storage)) : list html :=
  match fsSize with
  | Some a => Array_toString (map storageRow a)
  | None => [Text "undefined"]
  end.

Definition storageUsage (input : Input) : html :=
  card "Storage Usage"
    [Elem "thead" []
       [tr [th "Mount"; th "Type"; th "Fs";
            Elem "th" [("scope", "col"); ("style", "width:50%")] [Text "Usage"];
            th "Free"; th "Used"; th "Total"]];
     tbody (storageRows (fsSize input))].

(** ** The identity of the machine *)

Definition operatingSystem (o : OsData) : html :=
  card "Operating system"
    [tbody
       [row "Platform" (ToString (os_platform o));
        row "Distro" (ToString (os_distro o));
        row "Release" (ToString (os_release o));
        row "Codename" (ToString (os_codename o));
        row "Kernel" (ToString (os_kernel o));
        row "Arch" (ToString (os_arch o));
        row "Hostname" (ToString (os_hostname o));
        row "Logofile" (ToString (os_logofile o))]].

Definition systemCard (s : SystemData) : html :=
  card "System"
    [tbody
       [row "Manufacturer" (ToString (sys_manufacturer s));
        row "Model" (ToString (sys_model s));
        row "Version" (ToString (sys_version s));
        row "Serial" (ToString (sys_serial s));
        row "UUID" (ToString (sys_uuid s));
        row "SKU" (ToString (sys_sku s))]].

Definition baseboardCard (b : BaseboardData) : html :=
  card "Baseboard"
    [tbody
       [row "Manufacturer" (ToString (bb_manufacturer b));
        row "Model" (ToString (bb_model b));
        row "Version" (ToString (bb_version b));
        row "Serial" (ToString (bb_serial b));
        row "AssetTag" (ToString (bb_assetTag b))]].

Definition biosCard (b : BiosData) : html :=
  card "Bios"
    [tbody
       [row "Vendor" (ToString (bios_vendor b));
        row "Version" (ToString (bios_version b));
        row "ReleaseDate" (ToString (bios_releaseDate b));
        row "Revision" (ToString (bios_revision b))]].

Definition cacheTable (c : CpuCacheData) : html :=
  table
    [tbody
       [row "L1D" (mebi (l1d c) ++ " MB");
        row "L1I" (mebi (l1i c) ++ " MB");
        row "L2" (mebi (l2 c) ++ " MB");
        row "L3" (mebi (l3 c) ++ " MB")]].

Definition cpuCard (c : CpuData) : html :=
  card "CPU"
    [tbody
       [row "Manufacturer" (ToString (cpu_manufacturer c));
        row "Brand" (ToString (cpu_brand c));
        row "Vendor" (ToString (cpu_vendor c));
        row "Family" (ToString (cpu_family c));
        row "Model" (ToString (cpu_model c));
        row "Stepping" (ToString (cpu_stepping c));
        row "Revision" (ToString (cpu_revision c));
        row "Voltage" (ToString (cpu_voltage c));
        row "Speed" (ToString (cpu_speed c) ++ " Ghz");
        row "Speedmin" (ToString (cpu_speedmin c) ++ " Ghz");
        row "Speedmax" (ToString (cpu_speedmax c) ++ " Ghz");
        row "Cores" (ToString (cpu_cores c));
        tr [td [Text "Cache"]; td [cacheTable (cpu_cache c)]];
        row "flags" (ToString (cpu_flags c))]].

(** ** The lists: one row per element, holding its number and a table *)

Definition numbered (number : string) (rows : list html) : html :=
  tr [td [Text number]; td [table [tbody rows]]].

Definition gpuRow (gpu : GraphicsControllerData) (index : nat) : html :=
  numbered (decimal (Z.of_nat index))
    [row "Model" (ToString (gpu_model gpu));
     row "Vendor" (ToString (gpu_vendor gpu));
     row "Bus" (ToString (gpu_bus gpu));
     row "Vram" (ToString (gpu_vram gpu) ++ " MB");
     row "VramDynamic" (ToString (gpu_vramDynamic gpu))].

Definition displayRow (display : GraphicsDisplayData) (index : nat) : html :=
  numbered (decimal (Z.of_nat (index + 1)))
    [row "Model" (ToString (d_model display));
     row "main" (ToString (d_main display));
     row "builtin" (ToString (d_builtin display));
     row "connection" (ToString (d_connection display));
     row "resolutionx" (ToString (d_resolutionx display));
     row "resolutiony" (ToString (d_resolutiony display));
     row "sizex" (ToString (d_sizex display));
     row "sizey" (ToString (d_sizey display));
     row "pixeldepth" (ToString (d_pixeldepth display))].

Definition memRow (mem : MemLayoutData) (index : nat) : html :=
  numbered (decimal (Z.of_nat (index + 1)))
    [row "size" (gibi (ml_size mem) ++ " GB");
     row "bank" (ToString (ml_bank mem));
     row "type" (ToString (ml_type mem));
     row "clockSpeed" (ToString (ml_clockSpeed mem));
     row "formFactor" (ToString (ml_formFactor mem));
     row "manufacturer" (ToString (ml_manufacturer mem));
     row "partNum" (ToString (ml_partNum mem));
     row "serialNum" (ToString (ml_serialNum mem));
     row "voltageConfigured" (ToString (ml_voltageConfigured mem));
     row "voltageMin" (ToString (ml_voltageMin mem));
     row "voltageMax" (ToString (ml_voltageMax mem))].

Definition diskRow (disk : DiskLayoutData) (index : nat) : html :=
  numbered (decimal (Z.of_nat (index + 1)))
    [row "type" (ToString (dl_type disk));
     row "name" (ToString (dl_name disk));
     row "vendor" (ToString (dl_vendor disk));
     row "size" (gibi (dl_size disk) ++ " GB");
     row "bytesPerSector" (ToString (dl_bytesPerSector disk));
     row "totalCylinders" (ToString (dl_totalCylinders disk));
     row "totalHeads" (ToString (dl_totalHeads disk));
     row "totalSectors" (ToString (dl_totalSectors disk));
     row "totalTracks" (ToString (dl_totalTracks disk));
     row "tracksPerCylinder" (ToString (dl_tracksPerCylinder disk));
     row "sectorsPerTrack" (ToString (dl_sectorsPerTrack disk));
     row "firmwareRevision" (ToString (dl_firmwareRevision disk));
     row "serialNum" (ToString (dl_serialNum disk));
     row "interfaceType" (ToString (dl_interfaceType disk));
     row "smartStatus" (ToString (dl_smartStatus disk))].

(** The controllers are joined with [join("")]; the other three arrays are
    interpolated as they are. *)
Definition gpuRows (a : list GraphicsControllerData) : list html :=
  join "" (Array_map gpuRow a).
Definition displayRows (a : list GraphicsDisplayData) : list html :=
  Array_toString (Array_map displayRow a).
Definition memRows (a : list MemLayoutData) : list html :=
  Array_toString (Array_map memRow a).
Definition diskRows (a : list DiskLayoutData) : list html :=
  Array_toString (Array_map diskRow a).

Definition versionsCard (v : VersionData) : html :=
  card "Versions"
    [tbody
       [row "kernel" (ToString (v_kernel v));
        row "openssl" (ToString (v_openssl v));
        row "node" (ToString (v_node v));
        row "v8" (ToString (v_v8 v));
        row "npm" (ToString (v_npm v));
        row "yarn" (ToString (v_yarn v));
        row "pm2" (ToString (v_pm2 v));
        row "gulp" (ToString (v_gulp v));
        row "grunt" (ToString (v_grunt v));
        row "git" (ToString (v_git v));
        row "tsc" (ToString (v_tsc v));
        row "mysql" (ToString (v_mysql v));
        row "redis" (ToString (v_redis v));
        row "mongodb" (ToString (v_mongodb v));
        row "nginx" (ToString (v_nginx v));
        row "php" (ToString (v_php v))]].

(** ** The body of the document *)

Definition identityCards (sd : StaticData) : list html :=
  [operatingSystem (os sd);
   systemCard (system sd);
   baseboardCard (baseboard sd);
   biosCard (bios sd);
   cpuCard (cpu sd);
   card "GPU" [tbody (gpuRows (controllers (graphics sd)))];
   card "Display" [tbody (displayRows (displays (graphics sd)))];
   card "memLayout" [tbody (memRows (memLayout sd))];
   card "diskLayout" [tbody (diskRows (diskLayout sd))];
   versionsCard (versions sd)].

Definition render (input : Input) : html :=
  Elem "body" []
    [Elem "div" [("class", "container"); ("id", "app")]
       [el "nav" "navbar navbar-dark bg-dark rounded shadow-sm mb-3"
          [Elem "a" [("class", "navbar-brand"); ("href", "/")]
             [Text "System Information"]];
        el "div" "row justify-content-center mb-3"
          [el "div" "col-12 col-lg-6 mb-3" [systemVital input];
           el "div" "col-12 col-lg-6 mb-3" [cpuUsage input];
           el "div" "col-12 mb-3" [memoryUsageCard input];
           el "div" "col-12 mb-3" [storageUsage input];
           Elem "hr" [] [];
           el "div" "row justify-content-center"
             [el "div" "col-12"
                [el "div" "card-columns" (identityCards (staticData input))]]]]].

(** The element reached from [h] by taking, at each step, the child with
    the given number. *)
Fixpoint at_path (path : list nat) (h : html) : option html :=
  match path with
  | [] => Some h
  | i :: path' =>
      match h with
      | Text _ => None
      | Elem _ _ kids =>
          match nth_error kids i with
          | Some k => at_path path' k
          | None => None
          end
      end
  end.

(** Where the four cards of the first row are in the body. *)
Definition systemVital_path : list nat := [0; 1; 0; 0]%nat.
Definition cpuUsage_path : list nat := [0; 1; 1; 0]%nat.
Definition memoryUsage_path : list nat := [0; 1; 2; 0]%nat.
Definition storageUsage_path : list nat := [0; 1; 3; 0]%nat.

(** The title in the header of a card. *)
Definition title_of (c : html) : option string :=
  match c with
  | Elem _ _ (Elem _ _ [Text t] :: _) => Some t
  | _ => None
  end.

(** The children of the [tbody] of a card. *)
Definition body_of (c : html) : option (list html) :=
  match c with
  | Elem _ _ [_; Elem _ _ [Elem _ _ [Elem _ _ kids]]] =>
      match filter (fun k => match k with
                             | Elem tag _ _ => String.eqb tag "tbody"
                             | Text _ => false
                             end) kids with
      | [Elem _ _ rows] => Some rows
      | _ => None
      end
  | _ => None
  end.

(** Where the cards of the second row are: the [k]-th of [identityCards]. *)
Definition identity_path (k : nat) : list nat := [0; 1; 5; 0; 0; k]%nat.

(** From a card to the cell [j] of the row [i] of the body of its table,
    when the table has a head. *)
Definition cell_path (i j : nat) : list nat := [1; 0; 0; 1; i; j]%nat.

(** [kids] holds one row for each element of [a], in the order of [a]:
    the row of the element number [i] is [rowfn] of that element and
    [i]. *)
Definition one_row_each {A : Type} (rowfn : A -> nat -> html) (a : list A)
    (kids : list html) : Prop :=
  List.length (rows_of kids) = List.length a
  /\ forall i x, nth_error a i = Some x -> nth_error (rows_of kids) i = Some (rowfn x i).

(** The layout of a document: its elements and the names of their
    attributes, without the texts and the values. *)
Fixpoint shape (h : html) : html :=
  match h with
  | Text _ => Text ""
  | Elem tag attrs kids => Elem tag (map (fun a => (fst a, "")) attrs) (map shape kids)
  end.

(** What the layout depends on: how many elements the lists have. *)
Definition sizes (input : Input) : list nat :=
  [List.length (cpus (currentLoad input));
   List.length (controllers (graphics (staticData input)));
   List.length (displays (graphics (staticData input)));
   List.length (memLayout (staticData input));
   List.length (diskLayout (staticData input));
   match fsSize input with Some a => S (List.length a) | None => O end].

End Render.

(* ===================================================================== *)
(** * The panel *)
(* ===================================================================== *)

Module Panel.

Import JS Data Html Aggregator.
Import MonadNotation.
Local Open Scope monad_scope.

Section Webview.
Context `{Packages}.

(** [_getHtmlForWebview]: gather [input], then build the document. *)
Definition _getHtmlForWebview : Async html :=
  input <- getInput ;;
  ret (Render.render input).

(** [_update]: [this._getHtmlForWebview(webview).then(html => ...)] assigns
    the html of the webview once the promise is fulfilled; there is no
    handler for a rejection. *)
Definition _update (h : host) (webview_html : option html) : option html :=
  match snd (run h _getHtmlForWebview) with
  | Done doc => Some doc
  | Failed _ | Hung => webview_html
  end.

End Webview.

(** ** The static field [currentPanel]

    Instances of [SystemMonitorPanel] are numbered in the order of their
    construction. *)
Record state := {
  currentPanel : option nat;
  constructed : nat;
  revealed : list nat;
  disposed : list nat }.

Definition initial : state :=
  {| currentPanel := None; constructed := 0; revealed := []; disposed := [] |}.

(** [new SystemMonitorPanel(panel, extensionUri)] assigned to
    [currentPanel]. *)
Definition construct (st : state) : state :=
  {| currentPanel := Some (constructed st);
     constructed := S (constructed st);
     revealed := revealed st;
     disposed := disposed st |}.

Definition createOrShow (st : state) : state :=
  match currentPanel st with
  | Some p =>
      {| currentPanel := currentPanel st; constructed := constructed st;
         revealed := p :: revealed st; disposed := disposed st |}
  | None => construct st
  end.

Definition revive (st : state) : state := construct st.

(** [dispose] of the instance [this]: the static field is cleared
    whichever instance is disposed.  Disposing the webview panel runs the
    handler of [onDidDispose], which calls [dispose] once more and finds
    the field cleared already. *)
Definition dispose (this : nat) (st : state) : state :=
  {| currentPanel := None; constructed := constructed st;
     revealed := revealed st; disposed := this :: disposed st |}.

Inductive call : Type :=
| CreateOrShow
| Revive
| Dispose (this : nat).

(** Only an instance that exists can be disposed. *)
Definition step (st : state) (c : call) : state :=
  match c with
  | CreateOrShow => createOrShow st
  | Revive => revive st
  | Dispose this => if (this <? constructed st)%nat then dispose this st else st
  end.

Definition exec (calls : list call) : state := fold_left step calls initial.

(** The instances that [currentPanel] refers to. *)
Definition tracked (st : state) : list nat :=
  match currentPanel st with
  | Some p => [p]
  | None => []
  end.

End Panel.

(* ===================================================================== *)
(** * Machines to run the model on *)
(* ===================================================================== *)

Module Sample.

Import JS Data Aggregator.

(** Stand-ins for the two npm packages: they print the number and a unit.
    No statement below depends on what they print. *)
#[export] Instance packages : Packages :=
  {| prettyMs := fun x => Number_toString x ++ " ms";
     prettyBytes := fun x => Number_toString x ++ " B" |}.

Definition GiB : Z := 1024 * 1024 * 1024.

Definition theOs : OsData :=
  {| os_platform := JStr "linux"; os_distro := JStr "Ubuntu";
     os_release := JStr "20.04"; os_codename := JStr "focal";
     os_kernel := JStr "5.4.0"; os_arch := JStr "x64";
     os_hostname := JStr "devbox"; os_logofile := JStr "ubuntu" |}.

Definition theVersions : VersionData :=
  {| v_kernel := JStr "5.4.0"; v_openssl := JStr "1.1.1"; v_node := JStr "14.16.0";
     v_v8 := JStr "8.4.371"; v_npm := JStr "6.14.11"; v_yarn := JStr "";
     v_pm2 := JStr ""; v_gulp := JStr ""; v_grunt := JStr "";
     v_git := JStr "2.25.1"; v_tsc := JStr "4.1.3"; v_mysql := JStr "";
     v_redis := JStr ""; v_mongodb := JStr ""; v_nginx := JStr "";
     v_php := JStr "" |}.

Definition theSystem : SystemData :=
  {| sys_manufacturer := JStr "LENOVO"; sys_model := JStr "20QD";
     sys_version := JStr "ThinkPad"; sys_serial := JStr "-";
     sys_uuid := JStr "-"; sys_sku := JStr "-" |}.

Definition theBaseboard : BaseboardData :=
  {| bb_manufacturer := JStr "LENOVO"; bb_model := JStr "20QD";
     bb_version := JStr "1"; bb_serial := JStr "-"; bb_assetTag := JStr "-" |}.

Definition theBios : BiosData :=
  {| bios_vendor := JStr "LENOVO"; bios_version := JStr "N2HET";
     bios_releaseDate := JStr "2020-05-11"; bios_revision := JStr "1.30" |}.

Definition theCpu : CpuData :=
  {| cpu_manufacturer := JStr "Intel"; cpu_brand := JStr "Core i7";
     cpu_vendor := JStr "GenuineIntel"; cpu_family := JStr "6";
     cpu_model := JStr "142"; cpu_stepping := JStr "12";
     cpu_revision := JStr ""; cpu_voltage := JStr "";
     cpu_speed := JNum (div (lit 18) (lit 10));
     cpu_speedmin := JNum (div (lit 4) (lit 10));
     cpu_speedmax := JNum (div (lit 46) (lit 10));
     cpu_cores := JNum (lit 2);
     cpu_cache := {| l1d := lit 32768; l1i := lit 32768; l2 := lit 262144;
                     l3 := lit 8388608 |};
     cpu_flags := JStr "fpu vme de" |}.

Definition gpu0 : GraphicsControllerData :=
  {| gpu_model := JStr "UHD Graphics 620"; gpu_vendor := JStr "Intel";
     gpu_bus := JStr "Onboard"; gpu_vram := JNum (lit 256);
     gpu_vramDynamic := JBool false |}.

Definition gpu1 : GraphicsControllerData :=
  {| gpu_model := JStr "GeForce MX250"; gpu_vendor := JStr "NVIDIA";
     gpu_bus := JStr "PCIe"; gpu_vram := JNum (lit 2048);
     gpu_vramDynamic := JBool false |}.

Definition display0 : GraphicsDisplayData :=
  {| d_model := JStr "LCD"; d_main := JBool true; d_builtin := JBool true;
     d_connection := JStr "eDP"; d_resolutionx := JNum (lit 1920);
     d_resolutiony := JNum (lit 1080); d_sizex := JNum (lit 31);
     d_sizey := JNum (lit 17); d_pixeldepth := JNum (lit 24) |}.

Definition dimm (bank : string) : MemLayoutData :=
  {| ml_size := lit (8 * GiB); ml_bank := JStr bank; ml_type := JStr "DDR4";
     ml_clockSpeed := JNum (lit 2667); ml_formFactor := JStr "SODIMM";
     ml_manufacturer := JStr "Samsung"; ml_partNum := JStr "M471";
     ml_serialNum := JStr "-"; ml_voltageConfigured := JNum (div (lit 12) (lit 10));
     ml_voltageMin := JNum (div (lit 12) (lit 10));
     ml_voltageMax := JNum (div (lit 12) (lit 10)) |}.

Definition disk0 : DiskLayoutData :=
  {| dl_type := JStr "NVMe"; dl_name := JStr "SAMSUNG MZVLB512"; dl_vendor := JStr "Samsung";
     dl_size := lit (512 * 1000 * 1000 * 1000); dl_bytesPerSector := JNull;
     dl_totalCylinders := JNull; dl_totalHeads := JNull; dl_totalSectors := JNull;
     dl_totalTracks := JNull; dl_tracksPerCylinder := JNull;
     dl_sectorsPerTrack := JNull; dl_firmwareRevision := JStr "4M2QEXF7";
     dl_serialNum := JStr "-"; dl_interfaceType := JStr "PCIe";
     dl_smartStatus := JStr "unknown" |}.

Definition theStatic : StaticData :=
  {| os := theOs; versions := theVersions; system := theSystem;
     baseboard := theBaseboard; bios := theBios; cpu := theCpu;
     graphics := {| controllers := [gpu0; gpu1]; displays := [display0] |};
     memLayout := [dimm "BANK 0"; dimm "BANK 2"];
     diskLayout := [disk0] |}.

Definition theTime : TimeData :=
  {| uptime := div (lit 937215) (lit 10); timezone := JStr "GMT+0100";
     timezoneName := JStr "Central European Standard Time" |}.

Definition theLoad : CurrentLoadData :=
  {| avgLoad := JNum (div (lit 42) (lit 100));
     cpus := [ {| load := div (lit 125) (lit 10) |}; {| load := lit 3 |} ] |}.

Definition theProcesses : ProcessesData :=
  {| all := JNum (lit 312); running := JNum (lit 2); sleeping := JNum (lit 200);
     blocked := JNum (lit 0); unknown := JNum (lit 0) |}.

(** 8 GiB used of 16 GiB, and no swap configured. *)
Definition theMem : MemData :=
  {| total := lit (16 * GiB); free := lit (8 * GiB); used := lit (8 * GiB);
     active := lit (4 * GiB); buffcache := lit (2 * GiB);
     swaptotal := lit 0; swapused := lit 0; swapfree := lit 0 |}.

Definition rootFs : FsSizeData :=
  {| fs_fs := JStr "/dev/nvme0n1p2"; fs_type := JStr "ext4";
     fs_size := lit (400 * GiB); fs_used := lit (100 * GiB);
     fs_available := JNum (lit (300 * GiB)); fs_use := JNum (lit 25);
     fs_mount := JStr "/" |}.

Definition bootFs : FsSizeData :=
  {| fs_fs := JStr "/dev/nvme0n1p1"; fs_type := JStr "vfat";
     fs_size := lit (512 * 1024 * 1024); fs_used := lit (8 * 1024 * 1024);
     fs_available := JNum (lit (504 * 1024 * 1024)); fs_use := JNum (div (lit 16) (lit 10));
     fs_mount := JStr "/boot/efi" |}.

Definition theSpeeds : CpuCurrentSpeedData :=
  {| speed_cores := [JNum (div (lit 24) (lit 10)); JNum (div (lit 18) (lit 10))] |}.

Definition theTemperatures : CpuTemperatureData :=
  {| temp_cores := [JNum (lit 51); JNum (lit 49)] |}.

(** A machine on which every call succeeds. *)
Definition healthy : host :=
  {| h_getStaticData := Fulfilled theStatic;
     h_osLocale := Fulfilled (JStr "en-US");
     h_publicIp_v4 := Fulfilled (JStr "203.0.113.7");
     h_time := Fulfilled theTime;
     h_currentLoad := Fulfilled theLoad;
     h_cpuCurrentSpeed := Fulfilled theSpeeds;
     h_cpuTemperature := Fulfilled theTemperatures;
     h_processes := Fulfilled theProcesses;
     h_mem := Fulfilled theMem;
     h_fsSize := Fulfilled [rootFs; bootFs];
     h_loadavg := (div (lit 42) (lit 100), div (lit 5) (lit 10), lit 1);
     h_localTime := "11/3/2026, 9:41:00 AM" |}.

(** The same machine with one call ending differently. *)
Definition with_osLocale (o : outcome value) (h : host) : host :=
  {| h_getStaticData := h_getStaticData h; h_osLocale := o;
     h_publicIp_v4 := h_publicIp_v4 h; h_time := h_time h;
     h_currentLoad := h_currentLoad h; h_cpuCurrentSpeed := h_cpuCurrentSpeed h;
     h_cpuTemperature := h_cpuTemperature h; h_processes := h_processes h;
     h_mem := h_mem h; h_fsSize := h_fsSize h; h_loadavg := h_loadavg h;
     h_localTime := h_localTime h |}.

Definition with_publicIp (o : outcome value) (h : host) : host :=
  {| h_getStaticData := h_getStaticData h; h_osLocale := h_osLocale h;
     h_publicIp_v4 := o; h_time := h_time h;
     h_currentLoad := h_currentLoad h; h_cpuCurrentSpeed := h_cpuCurrentSpeed h;
     h_cpuTemperature := h_cpuTemperature h; h_processes := h_processes h;
     h_mem := h_mem h; h_fsSize := h_fsSize h; h_loadavg := h_loadavg h;
     h_localTime := h_localTime h |}.

Definition with_getStaticData (o : outcome StaticData) (h : host) : host :=
  {| h_getStaticData := o; h_osLocale := h_osLocale h;
     h_publicIp_v4 := h_publicIp_v4 h; h_time := h_time h;
     h_currentLoad := h_currentLoad h; h_cpuCurrentSpeed := h_cpuCurrentSpeed h;
     h_cpuTemperature := h_cpuTemperature h; h_processes := h_processes h;
     h_mem := h_mem h; h_fsSize := h_fsSize h; h_loadavg := h_loadavg h;
     h_localTime := h_localTime h |}.

Definition with_fsSize (o : outcome (list FsSizeData)) (h : host) : host :=
  {| h_getStaticData := h_getStaticData h; h_osLocale := h_osLocale h;
     h_publicIp_v4 := h_publicIp_v4 h; h_time := h_time h;
     h_currentLoad := h_currentLoad h; h_cpuCurrentSpeed := h_cpuCurrentSpeed h;
     h_cpuTemperature := h_cpuTemperature h; h_processes := h_processes h;
     h_mem := h_mem h; h_fsSize := o; h_loadavg := h_loadavg h;
     h_localTime := h_localTime h |}.

(** A virtual machine that reports no per-core clock and no sensors. *)
Definition with_no_sensors (h : host) : host :=
  {| h_getStaticData := h_getStaticData h; h_osLocale := h_osLocale h;
     h_publicIp_v4 := h_publicIp_v4 h; h_time := h_time h;
     h_currentLoad := h_currentLoad h;
     h_cpuCurrentSpeed := Fulfilled {| speed_cores := [] |};
     h_cpuTemperature := Fulfilled {| temp_cores := [] |};
     h_processes := h_processes h;
     h_mem := h_mem h; h_fsSize := h_fsSize h; h_loadavg := h_loadavg h;
     h_localTime := h_localTime h |}.

(** The machines used below. *)
Definition locale_fails : host :=
  with_osLocale (Rejected "spawn locale ENOENT") healthy.
Definition ip_times_out : host :=
  with_publicIp (Rejected "Request timed out") healthy.
Definition ip_hangs : host := with_publicIp Pending healthy.
Definition static_hangs : host := with_getStaticData Pending healthy.
Definition no_filesystems : host := with_fsSize (Fulfilled []) healthy.
Definition no_sensors : host := with_no_sensors healthy.

(** The [input] assembled on two of them. *)
Definition healthy_input : Input :=
  assembled healthy theStatic (JStr "en-US") (JStr "203.0.113.7") theTime
    theLoad theSpeeds theTemperatures theProcesses theMem [rootFs; bootFs].

Definition no_sensors_input : Input :=
  assembled no_sensors theStatic (JStr "en-US") (JStr "203.0.113.7") theTime
    theLoad {| speed_cores := [] |} {| temp_cores := [] |} theProcesses theMem
    [rootFs; bootFs].

End Sample.

(* ===================================================================== *)
(** * The nonce *)
(* ===================================================================== *)

Module Nonce.

Import JS.

Definition possible : string :=
  "ABCDEFGHIJKLMNOPQRSTUVWXYZabcdefghijklmnopqrstuvwxyz0123456789".

(** [ToIntegerOrInfinity]: the number without its fraction; [NaN] counts
    as 0, an infinity has no integer. *)
Definition ToInteger (x : number) : option Z :=
  match x with
  | S754_nan | S754_zero _ => Some 0
  | S754_infinity _ => None
  | S754_finite s m e =>
      let a := if 0 <=? e then Zpos m * 2 ^ e else Zpos m / 2 ^ (- e) in
      Some (if s then - a else a)
  end.

(** [String.prototype.charAt]: the character at the position, as a
    string; the empty string when the position is outside the string. *)
Definition charAt (s : string) (pos : number) : string :=
  match ToInteger pos with
  | Some i =>
      if i <? 0 then ""
      else
        match String.get (Z.to_nat i) s with
        | Some c => String c ""
        | None => ""
        end
  | None => ""
  end.

(** What [Math.random()] may return: a number that is at least 0 and less
    than 1. *)
Definition in_unit_interval (r : number) : bool :=
  match r with
  | S754_zero false => true
  | S754_finite false m e =>
      bounded prec emax m e
      && match cmp_scaled (Zpos m) e 1 0 with Lt => true | _ => false end
  | _ => false
  end.

(** The loop of [getNonce], [random i] being the result of the call of
    [Math.random()] in the iteration [i]. *)
Fixpoint getNonce_from (random : nat -> number) (count i : nat) (text : string) : string :=
  match count with
  | O => text
  | S count' =>
      getNonce_from random count' (S i)
        (text ++ charAt possible
                   (Math_floor (mul (random i) (lit (Z.of_nat (String.length possible))))))
  end.

Definition getNonce (random : nat -> number) : string :=
  getNonce_from random 32 0 "".

Definition alphanumeric (c : ascii) : bool :=
  let n := nat_of_ascii c in
  ((48 <=? n) && (n <=? 57) || (65 <=? n) && (n <=? 90) || (97 <=? n) && (n <=? 122))%nat.

Fixpoint all_alphanumeric (s : string) : bool :=
  match s with
  | EmptyString => true
  | String c s' => alphanumeric c && all_alphanumeric s'
  end.

End Nonce.

(* ===================================================================== *)
(** * Disposing a panel, and the panels that are open *)
(* ===================================================================== *)

Module Lifecycle.

Import Panel.

(** [Array.prototype.pop]: the last element, and the array without it;
    [undefined] from an empty array. *)
Definition pop {A : Type} (a : list A) : option A * list A :=
  match rev a with
  | [] => (None, a)
  | x :: _ => (Some x, removelast a)
  end.

(** The loop at the end of [dispose], on the array [_disposables]; [log]
    collects the disposables whose [dispose] has been called, in the order
    of the calls.  The loop is given a number of iterations it may use. *)
Fixpoint dispose_loop (fuel : nat) (_disposables log : list nat)
    : option (list nat * list nat) :=
  match fuel with
  | O => None
  | S fuel' =>
      if (List.length _disposables =? 0)%nat then Some (_disposables, log)
      else
        let '(x, rest) := pop _disposables in
        dispose_loop fuel' rest
          (match x with
           | Some d => log ++ [d]
           | None => log
           end)%list
  end.

(** An instance is open when it has been constructed and [dispose] has not
    been called on it. *)
Definition is_open (st : state) (i : nat) : bool :=
  (i <? constructed st)%nat && negb (existsb (Nat.eqb i) (disposed st)).

Definition open_instances (st : state) : list nat :=
  filter (is_open st) (seq 0 (constructed st)).

(** A sequence of calls without [revive] in which [dispose] is only
    called on an instance that is open. *)
Fixpoint orderly (st : state) (calls : list call) : bool :=
  match calls with
  | [] => true
  | c :: calls' =>
      match c with
      | CreateOrShow => true
      | Revive => false
      | Dispose this => is_open st this
      end && orderly (step st c) calls'
  end.

(** What every orderly call keeps: the open instances are the tracked
    one, and only constructed instances have been disposed. *)
Definition tidy (st : state) : Prop :=
  open_instances st = tracked st
  /\ forall i, In i (disposed st) -> (i < constructed st)%nat.

End Lifecycle.

(* ===================================================================== *)
(** * The tree view and the activation of the extension *)
(* ===================================================================== *)

Module Extension.

Record Command := {
  command : string;
  title : string;
  arguments : list string }.

Inductive TreeItemCollapsibleState : Type :=
| CollapsibleNone
| Collapsed
| Expanded.

(** A [MonitorItem], without its icons. *)
Record MonitorItem := {
  label : string;
  version : string;
  collapsibleState : TreeItemCollapsibleState;
  item_command : option Command;
  tooltip : string;
  description : string }.

(** The constructor of [MonitorItem]. *)
Definition new_MonitorItem (label version : string)
    (collapsibleState : TreeItemCollapsibleState) (command : option Command)
    : MonitorItem :=
  {| label := label; version := version; collapsibleState := collapsibleState;
     item_command := command;
     tooltip := label ++ "-" ++ version;
     description := version |}.

Definition getTreeItem (element : MonitorItem) : MonitorItem := element.

Definition getChildren (element : option MonitorItem) : list MonitorItem :=
  [new_MonitorItem "View System Information" "" CollapsibleNone
     (Some {| command := "systemMonitor.start";
              title := "Start System Monitor";
              arguments := ["memory"] |})].

(** What [activate] registers with the editor: the views that have a data
    provider, the commands with their callbacks, the view types that have
    a serializer, and the disposables pushed to [context.subscriptions]. *)
Inductive callback : Type :=
| StartPanel.

Record shell := {
  treeDataProviders : list string;
  commands : list (string * callback);
  serializers : list string;
  subscriptions : list string }.

Definition empty_shell : shell :=
  {| treeDataProviders := []; commands := []; serializers := []; subscriptions := [] |}.

Definition viewType : string := "systemMonitor".

(** [activate]; [has_serializers] tells whether the editor provides
    [registerWebviewPanelSerializer]. *)
Definition activate (has_serializers : bool) (sh : shell) : shell :=
  {| treeDataProviders := "systemMonitor" :: treeDataProviders sh;
     commands := ("systemMonitor.start", StartPanel) :: commands sh;
     serializers := if has_serializers then viewType :: serializers sh else serializers sh;
     subscriptions := "systemMonitor.start" :: subscriptions sh |}.

Fixpoint lookup (id : string) (cs : list (string * callback)) : option callback :=
  match cs with
  | [] => None
  | (id', cb) :: cs' => if String.eqb id id' then Some cb else lookup id cs'
  end.

(** Running a command: the callback of [systemMonitor.start] calls
    [createOrShow] and ignores the arguments; an id that is not registered
    runs nothing. *)
Definition executeCommand (sh : shell) (id : string) (args : list string)
    (st : Panel.state) : option Panel.state :=
  match lookup id (commands sh) with
  | Some StartPanel => Some (Panel.createOrShow st)
  | None => None
  end.

(** A click on an item of the tree runs its command, if it has one. *)
Definition click (sh : shell) (item : MonitorItem) (st : Panel.state)
    : option Panel.state :=
  match item_command item with
  | Some c => executeCommand sh (command c) (arguments c) st
  | None => Some st
  end.

End Extension.

(* ===================================================================== *)
(** * Counting in the document *)
(* ===================================================================== *)

Module Layout.

Import Html Data Aggregator.

(** The text nodes among [kids] that hold exactly [t]. *)
Definition is_text (t : string) (h : html) : bool :=
  match h with
  | Text s => String.eqb s t
  | Elem _ _ _ => false
  end.

Definition count_text (t : string) (kids : list html) : nat :=
  List.length (filter (is_text t) kids).

(** Two entries of the file-system probe that agree on all but
    [available] and [use]. *)
Definition same_but_available (x y : FsSizeData) : Prop :=
  fs_fs x = fs_fs y /\ fs_type x = fs_type y /\ fs_size x = fs_size y
  /\ fs_used x = fs_used y /\ fs_mount x = fs_mount y.

End Layout.

(* ===================================================================== *)
(** * The uptime *)
(* ===================================================================== *)

Module Uptime.

Import JS.

(** The whole seconds in a number of seconds that is not negative. *)
Definition whole_seconds (x : number) : Z :=
  match x with
  | S754_finite false m e => if 0 <=? e then Zpos m * 2 ^ e else Zpos m / 2 ^ (- e)
  | _ => 0
  end.

(** An uptime that [os.uptime()] can report: a number of seconds that is
    at least 0 and less than [2^43]. *)
Definition plausible (x : number) : bool :=
  match x with
  | S754_zero false => true
  | S754_finite false m e =>
      bounded prec emax m e
      && match cmp_scaled (Zpos m) e (2 ^ 43) 0 with Lt => true | _ => false end
  | _ => false
  end.

End Uptime.

(* ===================================================================== *)
(** * Reading the document back *)
(* ===================================================================== *)

(** What a reader of the report finds in it: the texts of the cells of a
    row, the rows of a table inside a row, the number of tables; and, for
    each record of the probes, the lines that the template writes for it,
    in the order of the source. *)

Module Reading.

Import JS Data Html Render.

Definition tagged (tag : string) (h : html) : bool :=
  match h with
  | Elem t _ _ => String.eqb t tag
  | Text _ => false
  end.

(** The texts inside an element, in the order of the document. *)
Fixpoint texts_of (h : html) : list string :=
  match h with
  | Text s => [s]
  | Elem _ _ kids => flat_map texts_of kids
  end.

(** The cells of a row [<tr><td>..</td>...</tr>]: for each cell, its
    texts. *)
Definition cells_of (r : html) : option (list (list string)) :=
  match r with
  | Elem tag _ kids =>
      if (String.eqb tag "tr" && forallb (tagged "td") kids)%bool
      then Some (map texts_of kids)
      else None
  | Text _ => None
  end.

(** The number of [<table>] elements in an element. *)
Fixpoint tables_in (h : html) : nat :=
  match h with
  | Text _ => 0
  | Elem tag _ kids =>
      ((if String.eqb tag "table" then 1 else 0) + list_sum (map tables_in kids))%nat
  end.

(** A row [<tr><td>n</td><td><table><tbody>rows</tbody></table></td></tr>]:
    the text [n] and the cells of each of the [rows]. *)
Definition entry_of (r : html) : option (string * list (option (list (list string)))) :=
  match r with
  | Elem tag _ [Elem c1 _ [Text n]; Elem c2 _ [Elem t _ [Elem b _ rows]]] =>
      if (String.eqb tag "tr" && String.eqb c1 "td" && String.eqb c2 "td"
          && String.eqb t "table" && String.eqb b "tbody")%bool
      then Some (n, map cells_of rows)
      else None
  | _ => None
  end.

(** The children of the body of the table of the card at [path]. *)
Definition card_body (path : list nat) (doc : html) : option (list html) :=
  match at_path path doc with
  | Some c => body_of c
  | None => None
  end.

Definition card_cells (path : list nat) (doc : html)
    : option (list (option (list (list string)))) :=
  option_map (map cells_of) (card_body path doc).

(** [body] holds one row for each element of [a], in the order of [a];
    the row of the element number [i] has the cells [cells] of that
    element and [i]. *)
Definition one_line_each {A : Type} (cells : A -> nat -> list (list string))
    (a : list A) (body : list html) : Prop :=
  List.length (rows_of body) = List.length a
  /\ forall i x, nth_error a i = Some x ->
       exists r, nth_error (rows_of body) i = Some r
                 /\ cells_of r = Some (cells x i).

(** [body] holds one row for each element of [a], in the order of [a],
    and as many tables as [a] has elements; the row of the element number
    [i] holds the text [number i] and exactly one table, whose rows are
    the [lines] of that element. *)
Definition one_table_each {A : Type} (number : nat -> string)
    (lines : A -> list (list (list string))) (a : list A) (body : list html) : Prop :=
  List.length (rows_of body) = List.length a
  /\ list_sum (map tables_in body) = List.length a
  /\ forall i x, nth_error a i = Some x ->
       exists r, nth_error (rows_of body) i = Some r
                 /\ tables_in r = 1%nat
                 /\ entry_of r = Some (number i, map Some (lines x)).

(** ** The lines of each record

    A line [<tr><td>label</td><td>${v}</td></tr>] has two cells of one
    text each. *)
Definition line (label text : string) : list (list string) := [[label]; [text]].

Definition vital_lines (input : Input) : list (list (list string)) :=
  let sd := staticData input in
  let '(a0, a1, a2) := avgload input in
  [line "Canonical Hostname" (ToString (os_hostname (os sd)));
   line "Listening IP" (ToString (listeningIp input));
   line "Kernel Version" (ToString (v_kernel (versions sd)));
   line "Distro Name" (ToString (os_distro (os sd)));
   line "Uptime" (prettyUptime input);
   [["Average load"];
    [toFixed 2 a0 ++ " " ++ toFixed 2 a1 ++ " " ++ toFixed 2 a2;
     ToString (avgLoad (currentLoad input)) ++ "%"]];
   line "System Language" (ToString (locale input));
   line "Local time" (prettyCurrent input);
   line "Time zone" (ToString (timezone (time input)));
   line "Time zone name" (ToString (timezoneName (time input)));
   line "Processes"
     (ToString (all (processes input)) ++ " ("
      ++ ToString (running (processes input)) ++ " running, "
      ++ ToString (sleeping (processes input)) ++ " sleeping, "
      ++ ToString (blocked (processes input)) ++ " blocked, "
      ++ ToString (unknown (processes input)) ++ " unknown)")].

Definition os_lines (o : OsData) : list (list (list string)) :=
  [line "Platform" (ToString (os_platform o));
   line "Distro" (ToString (os_distro o));
   line "Release" (ToString (os_release o));
   line "Codename" (ToString (os_codename o));
   line "Kernel" (ToString (os_kernel o));
   line "Arch" (ToString (os_arch o));
   line "Hostname" (ToString (os_hostname o));
   line "Logofile" (ToString (os_logofile o))].

Definition system_lines (s : SystemData) : list (list (list string)) :=
  [line "Manufacturer" (ToString (sys_manufacturer s));
   line "Model" (ToString (sys_model s));
   line "Version" (ToString (sys_version s));
   line "Serial" (ToString (sys_serial s));
   line "UUID" (ToString (sys_uuid s));
   line "SKU" (ToString (sys_sku s))].

Definition baseboard_lines (b : BaseboardData) : list (list (list string)) :=
  [line "Manufacturer" (ToString (bb_manufacturer b));
   line "Model" (ToString (bb_model b));
   line "Version" (ToString (bb_version b));
   line "Serial" (ToString (bb_serial b));
   line "AssetTag" (ToString (bb_assetTag b))].

Definition bios_lines (b : BiosData) : list (list (list string)) :=
  [line "Vendor" (ToString (bios_vendor b));
   line "Version" (ToString (bios_version b));
   line "ReleaseDate" (ToString (bios_releaseDate b));
   line "Revision" (ToString (bios_revision b))].

(** The line of the cache holds a table of four lines: its second cell
    has their eight texts. *)
Definition cpu_lines (c : CpuData) : list (list (list string)) :=
  [line "Manufacturer" (ToString (cpu_manufacturer c));
   line "Brand" (ToString (cpu_brand c));
   line "Vendor" (ToString (cpu_vendor c));
   line "Family" (ToString (cpu_family c));
   line "Model" (ToString (cpu_model c));
   line "Stepping" (ToString (cpu_stepping c));
   line "Revision" (ToString (cpu_revision c));
   line "Voltage" (ToString (cpu_voltage c));
   line "Speed" (ToString (cpu_speed c) ++ " Ghz");
   line "Speedmin" (ToString (cpu_speedmin c) ++ " Ghz");
   line "Speedmax" (ToString (cpu_speedmax c) ++ " Ghz");
   line "Cores" (ToString (cpu_cores c));
   [["Cache"];
    ["L1D"; mebi (l1d (cpu_cache c)) ++ " MB";
     "L1I"; mebi (l1i (cpu_cache c)) ++ " MB";
     "L2"; mebi (l2 (cpu_cache c)) ++ " MB";
     "L3"; mebi (l3 (cpu_cache c)) ++ " MB"]];
   line "flags" (ToString (cpu_flags c))].

Definition versions_lines (v : VersionData) : list (list (list string)) :=
  [line "kernel" (ToString (v_kernel v));
   line "openssl" (ToString (v_openssl v));
   line "node" (ToString (v_node v));
   line "v8" (ToString (v_v8 v));
   line "npm" (ToString (v_npm v));
   line "yarn" (ToString (v_yarn v));
   line "pm2" (ToString (v_pm2 v));
   line "gulp" (ToString (v_gulp v));
   line "grunt" (ToString (v_grunt v));
   line "git" (ToString (v_git v));
   line "tsc" (ToString (v_tsc v));
   line "mysql" (ToString (v_mysql v));
   line "redis" (ToString (v_redis v));
   line "mongodb" (ToString (v_mongodb v));
   line "nginx" (ToString (v_nginx v));
   line "php" (ToString (v_php v))].

Definition gpu_lines (gpu : GraphicsControllerData) : list (list (list string)) :=
  [line "Model" (ToString (gpu_model gpu));
   line "Vendor" (ToString (gpu_vendor gpu));
   line "Bus" (ToString (gpu_bus gpu));
   line "Vram" (ToString (gpu_vram gpu) ++ " MB");
   line "VramDynamic" (ToString (gpu_vramDynamic gpu))].

Definition display_lines (display : GraphicsDisplayData) : list (list (list string)) :=
  [line "Model" (ToString (d_model display));
   line "main" (ToString (d_main display));
   line "builtin" (ToString (d_builtin display));
   line "connection" (ToString (d_connection display));
   line "resolutionx" (ToString (d_resolutionx display));
   line "resolutiony" (ToString (d_resolutiony display));
   line "sizex" (ToString (d_sizex display));
   line "sizey" (ToString (d_sizey display));
   line "pixeldepth" (ToString (d_pixeldepth display))].

Definition mem_lines (mem : MemLayoutData) : list (list (list string)) :=
  [line "size" (gibi (ml_size mem) ++ " GB");
   line "bank" (ToString (ml_bank mem));
   line "type" (ToString (ml_type mem));
   line "clockSpeed" (ToString (ml_clockSpeed mem));
   line "formFactor" (ToString (ml_formFactor mem));
   line "manufacturer" (ToString (ml_manufacturer mem));
   line "partNum" (ToString (ml_partNum mem));
   line "serialNum" (ToString (ml_serialNum mem));
   line "voltageConfigured" (ToString (ml_voltageConfigured mem));
   line "voltageMin" (ToString (ml_voltageMin mem));
   line "voltageMax" (ToString (ml_voltageMax mem))].

Definition disk_lines (disk : DiskLayoutData) : list (list (list string)) :=
  [line "type" (ToString (dl_type disk));
   line "name" (ToString (dl_name disk));
   line "vendor" (ToString (dl_vendor disk));
   line "size" (gibi (dl_size disk) ++ " GB");
   line "bytesPerSector" (ToString (dl_bytesPerSector disk));
   line "totalCylinders" (ToString (dl_totalCylinders disk));
   line "totalHeads" (ToString (dl_totalHeads disk));
   line "totalSectors" (ToString (dl_totalSectors disk));
   line "totalTracks" (ToString (dl_totalTracks disk));
   line "tracksPerCylinder" (ToString (dl_tracksPerCylinder disk));
   line "sectorsPerTrack" (ToString (dl_sectorsPerTrack disk));
   line "firmwareRevision" (ToString (dl_firmwareRevision disk));
   line "serialNum" (ToString (dl_serialNum disk));
   line "interfaceType" (ToString (dl_interfaceType disk));
   line "smartStatus" (ToString (dl_smartStatus disk))].

(** The seven cells of the row of a file system. *)
Definition storage_cells (storage : Storage) : list (list string) :=
  let x := entry storage in
  [[ToString (fs_mount x)];
   [ToString (fs_type x)];
   [ToString (fs_fs x)];
   [toFixed 2 (mul (div (fs_used x) (fs_size x)) (lit 100)) ++ "%"];
   [prettyFree storage];
   [prettyUsed storage];
   [prettySize storage]].

(** The four cells of the row of the core number [index], counted
    from 0. *)
Definition core_cells (input : Input) (cpu : CurrentLoadCpuData) (index : nat)
    : list (list string) :=
  [["Core " ++ decimal (Z.of_nat (index + 1))];
   [toFixed 2 (load cpu) ++ "%"];
   [ToString (JS.index (speed_cores (cpuCurrentspeed input)) index) ++ " Ghz"];
   [ToString (JS.index (temp_cores (cpuTemp input)) index)]].

(** The numbers of the rows: the controllers are counted from 0, the
    displays, the memory modules and the disks from 1. *)
Definition from_zero (i : nat) : string := decimal (Z.of_nat i).
Definition from_one (i : nat) : string := decimal (Z.of_nat (i + 1)).

End Reading.

(* ===================================================================== *)
(** * Properties of the numbers *)
(* ===================================================================== *)

Section Numbers.

Import JS.

(** ** What the language prints *)

Example Number_toString_examples :
  map Number_toString
    [lit 0; lit (-5); div (lit 1) (lit 10); div (lit 1) (lit 3);
     add (div (lit 1) (lit 10)) (div (lit 2) (lit 10));
     mul (div (lit 1) (lit 3)) (lit 100); div (lit 1) (lit 10000000);
     lit (10 ^ 21); lit (2 ^ 53); div (lit 0) (lit 0); div (lit (-1)) (lit 0)]
  = ["0"; "-5"; "0.1"; "0.3333333333333333"; "0.30000000000000004";
     "33.33333333333333"; "1e-7"; "1e+21"; "9007199254740992"; "NaN";
     "-Infinity"].
Proof. vm_compute. reflexivity. Qed.

Example toFixed_examples :
  map (toFixed 2)
    [lit 0; lit 1; div (lit 1) (lit 8); div (lit 1005) (lit 1000);
     div (lit 1) (lit 3); div (lit (-1)) (lit 1000); lit (10 ^ 20);
     lit (10 ^ 21); div (lit 0) (lit 0)]
  = ["0.00"; "1.00"; "0.13"; "1.00"; "0.33"; "-0.00";
     "100000000000000000000.00"; "1e+21"; "NaN"].
Proof. vm_compute. reflexivity. Qed.

(** ** Integers below [2^53] and their division by 1024 are exact *)

Lemma digits2_pos_bounds (m : positive) :
  2 ^ (Zpos (digits2_pos m) - 1) <= Zpos m < 2 ^ Zpos (digits2_pos m).
Proof.
  induction m as [m IH | m IH | ]; cbn [digits2_pos].
  - rewrite Pos2Z.inj_succ.
    replace (Z.succ (Z.pos (digits2_pos m)) - 1) with (Z.succ (Z.pos (digits2_pos m) - 1)) by lia.
    rewrite !Z.pow_succ_r by lia. lia.
  - rewrite Pos2Z.inj_succ.
    replace (Z.succ (Z.pos (digits2_pos m)) - 1) with (Z.succ (Z.pos (digits2_pos m) - 1)) by lia.
    rewrite !Z.pow_succ_r by lia. lia.
  - simpl. lia.
Qed.

Lemma shr_fexp_normal (m : positive) (e : Z) :
  Zpos (digits2_pos m) = prec -> 3 - emax - prec <= e ->
  shr_fexp prec emax (Zpos m) e loc_Exact
  = ({| shr_m := Zpos m; shr_r := false; shr_s := false |}, e).
Proof.
  intros Hd He. unfold shr_fexp. cbn [Zdigits2 shr_record_of_loc]. rewrite Hd.
  replace (fexp prec emax (prec + e) - e) with 0
    by (unfold fexp, SpecFloat.emin, prec, emax in *; lia).
  reflexivity.
Qed.

Lemma round_normal (s : bool) (m : positive) (e : Z) :
  Zpos (digits2_pos m) = prec -> 3 - emax - prec <= e <= emax - prec ->
  binary_round_aux prec emax s (Zpos m) e loc_Exact = S754_finite s m e.
Proof.
  intros Hd He. unfold binary_round_aux.
  rewrite (shr_fexp_normal m e Hd) by lia.
  cbn [shr_m loc_of_shr_record round_nearest_even].
  rewrite (shr_fexp_normal m e Hd) by lia.
  cbn [shr_m].
  destruct (Z.leb_spec e (emax - prec)); [reflexivity | lia].
Qed.

Lemma div_eucl_exact (q b : Z) : 0 < b -> Z.div_eucl (q * b) b = (q, 0).
Proof.
  intros Hb.
  assert (E : Z.div_eucl (q * b) b = ((q * b) / b, (q * b) mod b)).
  { unfold Z.div, Z.modulo. destruct (Z.div_eucl (q * b) b). reflexivity. }
  rewrite E, Z.div_mul, Z.mod_mul by lia. reflexivity.
Qed.

Lemma lit_1024 : lit 1024 = S754_finite false 4503599627370496 (-42).
Proof. reflexivity. Qed.

Lemma div_1024 (s : bool) (m : positive) (e : Z) :
  Zpos (digits2_pos m) = prec -> -1000 <= e <= 900 ->
  div (S754_finite s m e) (lit 1024) = S754_finite s m (e - 10).
Proof.
  intros Hd He. rewrite lit_1024. unfold div, SFdiv, SFdiv_core_binary.
  cbn [Zdigits2]. rewrite Hd.
  change (Z.pos (digits2_pos 4503599627370496)) with 53.
  replace (Z.min (fexp prec emax (prec + e - (53 + -42))) (e - -42)) with (e - 11)
    by (unfold fexp, SpecFloat.emin, prec, emax; lia).
  replace (e - -42 - (e - 11)) with 53 by lia.
  rewrite Z.shiftl_mul_pow2 by lia.
  replace (Z.pos m * 2 ^ 53) with (Z.pos m~0 * 4503599627370496) by lia.
  rewrite div_eucl_exact by lia.
  change (new_location 4503599627370496 0) with loc_Exact.
  unfold binary_round_aux.
  assert (E1 : shr_fexp prec emax (Z.pos m~0) (e - 11) loc_Exact
               = ({| shr_m := Zpos m; shr_r := false; shr_s := false |}, e - 10)).
  { unfold shr_fexp. cbn [Zdigits2 digits2_pos shr_record_of_loc].
    rewrite Pos2Z.inj_succ, Hd.
    replace (fexp prec emax (Z.succ prec + (e - 11)) - (e - 11)) with 1
      by (unfold fexp, SpecFloat.emin, prec, emax; lia).
    unfold shr. cbn [iter_pos shr_1 orb]. f_equal. lia. }
  rewrite E1. cbn [shr_m loc_of_shr_record round_nearest_even].
  rewrite (shr_fexp_normal m (e - 10) Hd) by (unfold prec, emax; lia).
  cbn [shr_m xorb]. rewrite xorb_false_r.
  destruct (Z.leb_spec (e - 10) (emax - prec)); [reflexivity | unfold prec, emax in *; lia].
Qed.

Lemma iter_xO_spec (p k : positive) :
  Zpos (Pos.iter xO p k) = Zpos p * 2 ^ Zpos k
  /\ Zpos (digits2_pos (Pos.iter xO p k)) = Zpos (digits2_pos p) + Zpos k.
Proof.
  induction k as [| k [IH1 IH2]] using Pos.peano_ind.
  - simpl. split; lia.
  - rewrite Pos.iter_succ. cbn [digits2_pos].
    rewrite Pos2Z.inj_xO, !Pos2Z.inj_succ, IH1, IH2, Z.pow_succ_r by lia.
    split; lia.
Qed.

Lemma lit_normal (n : Z) :
  0 < n < 2 ^ 53 ->
  exists m e, lit n = S754_finite false m e
              /\ Zpos (digits2_pos m) = prec
              /\ -52 <= e <= 0
              /\ Zpos m = n * 2 ^ (- e).
Proof.
  intros Hn. destruct n as [| p | p]; try lia.
  pose proof (digits2_pos_bounds p) as Hb.
  assert (Hd : Zpos (digits2_pos p) <= 53).
  { destruct (Z.le_gt_cases (Zpos (digits2_pos p)) 53) as [L | G]; [exact L | exfalso].
    assert (2 ^ 53 <= 2 ^ (Zpos (digits2_pos p) - 1)) by (apply Z.pow_le_mono_r; lia).
    lia. }
  unfold lit, binary_normalize, binary_round.
  replace (fexp prec emax (Z.pos (digits2_pos p) + 0)) with (Zpos (digits2_pos p) - 53)
    by (unfold fexp, SpecFloat.emin, prec, emax; lia).
  unfold shl_align.
  destruct (Z.pos (digits2_pos p) - 53 - 0) as [| k | k] eqn:Ek; try lia.
  - exists p, 0. rewrite round_normal by (unfold prec, emax; lia).
    repeat split; try lia. unfold prec; lia.
  - destruct (iter_xO_spec p k) as [Hv Hdig].
    exists (Pos.iter xO p k), (Zpos (digits2_pos p) - 53).
    rewrite round_normal by (unfold prec, emax; lia).
    repeat split; try lia.
    + unfold prec; lia.
    + rewrite Hv. f_equal. f_equal. lia.
Qed.

(** ** The digits that [toFixed] prints *)

Lemma digit_char_is_digit (d : Z) : is_digit (digit_char d) = true.
Proof.
  unfold is_digit, digit_char.
  assert (Hd : 0 <= d mod 10 < 10) by (apply Z.mod_pos_bound; lia).
  rewrite nat_ascii_embedding by lia.
  apply andb_true_iff. split; apply Nat.leb_le; lia.
Qed.

Lemma digits_from_spec (fuel : nat) (n : Z) (acc : string) :
  all_digits acc = true ->
  all_digits (digits_from fuel n acc) = true
  /\ (String.length acc <= String.length (digits_from fuel n acc))%nat
  /\ (fuel <> O -> String.length acc < String.length (digits_from fuel n acc))%nat.
Proof.
  revert n acc. induction fuel as [| fuel IH]; intros n acc Hacc; cbn [digits_from].
  - repeat split; [exact Hacc | lia | congruence].
  - assert (Hacc' : all_digits (String (digit_char n) acc) = true)
      by (cbn [all_digits]; now rewrite digit_char_is_digit).
    destruct (n <? 10)%Z.
    + repeat split; [exact Hacc' | cbn [String.length]; lia | cbn [String.length]; lia].
    + destruct (IH (n / 10) _ Hacc') as (A & B & _). cbn [String.length] in B.
      repeat split; [exact A | lia | lia].
Qed.

Lemma decimal_spec (n : Z) :
  all_digits (decimal n) = true /\ (1 <= String.length (decimal n))%nat.
Proof.
  unfold decimal.
  destruct (digits_from_spec (S (Z.to_nat (Z.log2 n))) n "" eq_refl) as (A & _ & C).
  split; [exact A | ]. specialize (C ltac:(discriminate)). change (String.length "") with 0%nat in C. lia.
Qed.

Lemma length_append (a b : string) :
  String.length (a ++ b) = (String.length a + String.length b)%nat.
Proof. induction a as [| c a IH]; simpl; [reflexivity | now rewrite IH]. Qed.

Lemma all_digits_append (a b : string) :
  all_digits (a ++ b) = all_digits a && all_digits b.
Proof.
  induction a as [| c a IH]; simpl; [reflexivity | ].
  now rewrite IH, andb_assoc.
Qed.

Lemma zeros_spec (k : nat) : all_digits (zeros k) = true /\ String.length (zeros k) = k.
Proof. induction k as [| k [A B]]; simpl; [split; reflexivity | ]. now rewrite A, B. Qed.

Lemma take_drop (k : nat) (s : string) :
  take k s ++ drop k s = s
  /\ String.length (take k s) = Nat.min k (String.length s).
Proof.
  revert s. induction k as [| k IH]; intros s.
  - destruct s; split; reflexivity.
  - destruct s as [| c s]; [split; reflexivity | ].
    destruct (IH s) as [A B]. simpl. now rewrite A, B.
Qed.

Lemma fixed_digits_two_decimals (n : Z) :
  exists ip d1 d2,
    fixed_digits 2 n = ip ++ "." ++ String d1 (String d2 "")
    /\ ip <> "" /\ all_digits ip = true
    /\ is_digit d1 = true /\ is_digit d2 = true.
Proof.
  unfold fixed_digits.
  destruct (decimal_spec n) as [Hd Hl].
  set (ds := zeros (3 - String.length (decimal n)) ++ decimal n).
  assert (Hall : all_digits ds = true).
  { unfold ds. rewrite all_digits_append, Hd. now destruct (zeros_spec (3 - String.length (decimal n))) as [-> _]. }
  assert (Hlen : (3 <= String.length ds)%nat).
  { unfold ds. rewrite length_append.
    destruct (zeros_spec (3 - String.length (decimal n))) as [_ ->]. lia. }
  destruct (take_drop (String.length ds - 2) ds) as [Hsplit Htake].
  set (ip := take (String.length ds - 2) ds) in *.
  set (fr := drop (String.length ds - 2) ds) in *.
  assert (Hfr : String.length fr = 2%nat).
  { pose proof (f_equal String.length Hsplit) as E. rewrite length_append in E. lia. }
  rewrite <- Hsplit, all_digits_append in Hall. apply andb_true_iff in Hall.
  destruct Hall as [Hip Hfrd].
  destruct fr as [| d1 [| d2 [| d3 fr]]]; try discriminate Hfr.
  simpl in Hfrd. apply andb_true_iff in Hfrd. destruct Hfrd as [H1 H2].
  apply andb_true_iff in H2. destruct H2 as [H2 _].
  exists ip, d1, d2. repeat split; try assumption.
  intros E. rewrite E in Htake. simpl in Htake. lia.
Qed.

End Numbers.

(* ===================================================================== *)
(** * Properties of the gathering *)
(* ===================================================================== *)

Section Gathering.

Import JS Data Html Aggregator Panel.
Context `{Packages}.

Lemma run_bind_ret {A B : Type} (h : host) (f : A -> B) (m : Async A) :
  run h (Async_bind m (fun a => Resolve (f a)))
  = (fst (run h m), map_result f (snd (run h m))).
Proof.
  induction m as [a | p k IH | k IH | k IH]; simpl.
  - reflexivity.
  - destruct (settle h p) as [v | reason | ]; try reflexivity.
    rewrite IH. destruct (run h (k v)); reflexivity.
  - apply IH.
  - apply IH.
Qed.

Lemma run_getHtml (h : host) :
  run h _getHtmlForWebview
  = (fst (run h getInput), map_result Render.render (snd (run h getInput))).
Proof. apply run_bind_ret. Qed.

(** Splitting a host into the outcomes of its calls, and using what is
    known about the calls before [p]. *)
Ltac earlier Hbefore q :=
  let F := fresh in
  pose proof (Hbefore q eq_refl) as F; simpl in F;
  match type of F with
  | fulfilled ?o = true => destruct o; try discriminate F
  end; clear F.

Ltac earlier_all Hbefore :=
  repeat match goal with
         | |- _ => progress (first
             [ earlier Hbefore getStaticData | earlier Hbefore osLocale
             | earlier Hbefore publicIp_v4 | earlier Hbefore si_time
             | earlier Hbefore si_currentLoad | earlier Hbefore si_cpuCurrentSpeed
             | earlier Hbefore si_cpuTemperature | earlier Hbefore si_processes
             | earlier Hbefore si_mem | earlier Hbefore si_fsSize ])
         end.

Lemma rejected_ends_run (h : host) (p : probe) (reason : string) :
  settle h p = Rejected reason ->
  (forall q, precedes q p = true -> fulfilled (settle h q) = true) ->
  run h getInput
  = ((sequential (filter (fun q => precedes q p) probes) ++ [Launch p; Settle p])%list,
     Failed reason).
Proof.
  intros Hrej Hbefore.
  destruct h as [o0 o1 o2 o3 o4 o5 o6 o7 o8 o9 la lt].
  destruct p; simpl in Hrej; subst; earlier_all Hbefore; reflexivity.
Qed.

Lemma pending_ends_run (h : host) (p : probe) :
  settle h p = Pending ->
  (forall q, precedes q p = true -> fulfilled (settle h q) = true) ->
  run h getInput
  = ((sequential (filter (fun q => precedes q p) probes) ++ [Launch p])%list, Hung).
Proof.
  intros Hpen Hbefore.
  destruct h as [o0 o1 o2 o3 o4 o5 o6 o7 o8 o9 la lt].
  destruct p; simpl in Hpen; subst; earlier_all Hbefore; reflexivity.
Qed.

Lemma all_fulfilled_run (h : host) :
  (forall q, fulfilled (settle h q) = true) ->
  exists sd lo ip t cl sp te pr me fsz,
    h_getStaticData h = Fulfilled sd /\ h_osLocale h = Fulfilled lo
    /\ h_publicIp_v4 h = Fulfilled ip /\ h_time h = Fulfilled t
    /\ h_currentLoad h = Fulfilled cl /\ h_cpuCurrentSpeed h = Fulfilled sp
    /\ h_cpuTemperature h = Fulfilled te /\ h_processes h = Fulfilled pr
    /\ h_mem h = Fulfilled me /\ h_fsSize h = Fulfilled fsz
    /\ run h getInput
       = (sequential probes, Done (assembled h sd lo ip t cl sp te pr me fsz)).
Proof.
  intros Hall.
  assert (Hbefore : forall q, true = true -> fulfilled (settle h q) = true)
    by (intros q _; apply Hall).
  destruct h as [o0 o1 o2 o3 o4 o5 o6 o7 o8 o9 la lt].
  earlier_all Hbefore.
  do 10 eexists. repeat (split; [reflexivity | ]). reflexivity.
Qed.

Ltac first_bad p :=
  exists p; split;
  [ intros q Hq; destruct q; try discriminate Hq; reflexivity
  | first [ left; eexists; reflexivity | right; reflexivity ] ].

(** One case per way the run can end: every call fulfilled, or a first
    call that is rejected or never settles. *)
Lemma run_cases (h : host) :
  (forall q, fulfilled (settle h q) = true)
  \/ exists p,
       (forall q, precedes q p = true -> fulfilled (settle h q) = true)
       /\ ((exists reason, settle h p = Rejected reason) \/ settle h p = Pending).
Proof.
  destruct (forallb (fun q => fulfilled (settle h q)) probes) eqn:Hall.
  - left. intros q. rewrite forallb_forall in Hall. apply Hall.
    destruct q; simpl; tauto.
  - right.
    destruct h as [o0 o1 o2 o3 o4 o5 o6 o7 o8 o9 la lt]. simpl in Hall.
    destruct o0; [ | first_bad getStaticData ..].
    destruct o1; [ | first_bad osLocale ..].
    destruct o2; [ | first_bad publicIp_v4 ..].
    destruct o3; [ | first_bad si_time ..].
    destruct o4; [ | first_bad si_currentLoad ..].
    destruct o5; [ | first_bad si_cpuCurrentSpeed ..].
    destruct o6; [ | first_bad si_cpuTemperature ..].
    destruct o7; [ | first_bad si_processes ..].
    destruct o8; [ | first_bad si_mem ..].
    destruct o9; [ discriminate Hall | first_bad si_fsSize ..].
Qed.

Lemma launched_sequential_prefix (p q : probe) :
  launched (sequential (filter (fun r => precedes r p) probes) ++ [Launch p]) q = true ->
  precedes p q = false.
Proof. destruct p, q; simpl; intros E; try reflexivity; discriminate E. Qed.

Lemma launched_app_settle (tr : list event) (p q : probe) :
  launched (tr ++ [Launch p; Settle p]) q = launched (tr ++ [Launch p]) q.
Proof.
  unfold launched. rewrite !existsb_app. simpl. now rewrite !orb_false_r.
Qed.

(** C1, as the code has it: a call whose promise is rejected, all calls
    awaited before it being fulfilled, ends the gathering.  The promise of
    [_getHtmlForWebview] is rejected with the same reason, no [input] is
    assembled, no call after the rejected one is launched, and [_update]
    leaves the html of the webview as it was. *)
Theorem rejection_propagates (h : host) (p : probe) (reason : string) :
  settle h p = Rejected reason ->
  (forall q, precedes q p = true -> fulfilled (settle h q) = true) ->
  snd (run h getInput) = Failed reason
  /\ snd (run h _getHtmlForWebview) = Failed reason
  /\ (forall q, precedes p q = true -> launched (fst (run h getInput)) q = false)
  /\ (forall w, _update h w = w).
Proof.
  intros Hrej Hbefore.
  pose proof (rejected_ends_run h p reason Hrej Hbefore) as E.
  assert (Hhtml : snd (run h _getHtmlForWebview) = Failed reason)
    by (rewrite run_getHtml, E; reflexivity).
  repeat split.
  - rewrite E. reflexivity.
  - exact Hhtml.
  - intros q Hq. rewrite E. cbn [fst]. rewrite launched_app_settle.
    destruct (launched _ q) eqn:L; [ | reflexivity].
    apply launched_sequential_prefix in L. congruence.
  - intros w. unfold _update. rewrite Hhtml. reflexivity.
Qed.

(** C3, as the code has it: the external address is awaited third, in line
    with the other calls.  With the two calls before it fulfilled: a
    rejection rejects the whole function after three launches, a promise
    that never settles leaves it pending, and in both cases the webview
    keeps its html; a fulfilled promise puts its value, converted to a
    string, in the input that is rendered. *)
Theorem external_ip_awaited_in_line (h : host) (sd : StaticData) (lo : value) :
  h_getStaticData h = Fulfilled sd ->
  h_osLocale h = Fulfilled lo ->
  match h_publicIp_v4 h with
  | Rejected reason =>
      run h _getHtmlForWebview
      = (sequential [getStaticData; osLocale; publicIp_v4], Failed reason)
      /\ forall w, _update h w = w
  | Pending =>
      run h _getHtmlForWebview
      = ((sequential [getStaticData; osLocale] ++ [Launch publicIp_v4])%list, Hung)
      /\ forall w, _update h w = w
  | Fulfilled ip =>
      forall doc, snd (run h _getHtmlForWebview) = Done doc ->
      exists input,
        snd (run h getInput) = Done input /\ doc = Render.render input
        /\ listeningIp input = ip
        /\ Render.at_path (Render.systemVital_path ++ [1; 0; 0; 0; 1]%nat)%list doc
           = Some (Render.row "Listening IP" (ToString ip))
  end.
Proof.
  intros Hsd Hlo.
  assert (Hbefore : forall q, precedes q publicIp_v4 = true ->
                              fulfilled (settle h q) = true).
  { intros q Hq. destruct q; try discriminate Hq; simpl.
    - now rewrite Hsd.
    - now rewrite Hlo. }
  destruct (h_publicIp_v4 h) as [ip | reason | ] eqn:Hip.
  - intros doc Hdoc. rewrite run_getHtml in Hdoc. cbn [snd] in Hdoc.
    destruct (snd (run h getInput)) as [input | | ] eqn:Hin; try discriminate Hdoc.
    exists input.
    assert (Hl : listeningIp input = ip).
    2: { repeat split; [now injection Hdoc | exact Hl | ].
         injection Hdoc as <-. rewrite <- Hl. reflexivity. }
    { destruct h as [o0 o1 o2 o3 o4 o5 o6 o7 o8 o9 la lt].
      simpl in Hsd, Hlo, Hip. subst.
      destruct o3; try discriminate Hin. destruct o4; try discriminate Hin.
      destruct o5; try discriminate Hin. destruct o6; try discriminate Hin.
      destruct o7; try discriminate Hin. destruct o8; try discriminate Hin.
      destruct o9; try discriminate Hin.
      simpl in Hin. injection Hin as <-. reflexivity. }
  - pose proof (rejected_ends_run h publicIp_v4 reason Hip Hbefore) as E.
    assert (E' : run h _getHtmlForWebview
                 = (sequential [getStaticData; osLocale; publicIp_v4], Failed reason))
      by (rewrite run_getHtml, E; reflexivity).
    split; [exact E' | ]. intros w. unfold _update. now rewrite E'.
  - pose proof (pending_ends_run h publicIp_v4 Hip Hbefore) as E.
    assert (E' : run h _getHtmlForWebview
                 = ((sequential [getStaticData; osLocale] ++ [Launch publicIp_v4])%list, Hung))
      by (rewrite run_getHtml, E; reflexivity).
    split; [exact E' | ]. intros w. unfold _update. now rewrite E'.
Qed.

Lemma precedes_before_first (p p' q : probe) :
  precedes q p' = true -> precedes p p' = false -> precedes q p = true.
Proof.
  unfold precedes. rewrite !Nat.ltb_lt, Nat.ltb_ge. lia.
Qed.

Lemma settled_sequential_prefix (p q : probe) (rest : list event) :
  precedes q p = true ->
  settled (sequential (filter (fun r => precedes r p) probes) ++ rest) q = true.
Proof. destruct p, q; simpl; intros E; try reflexivity; discriminate E. Qed.

Lemma earlier_calls_fulfilled (h : host) (p q : probe) :
  launched (fst (run h getInput)) p = true -> precedes q p = true ->
  fulfilled (settle h q) = true.
Proof.
  destruct (run_cases h) as [Hall | [p0 [Hbefore Hbad]]]; [intros _ _; apply Hall | ].
  intros L Hq.
  assert (L' : launched (sequential (filter (fun r => precedes r p0) probes)
                         ++ [Launch p0]) p = true).
  { destruct Hbad as [[reason Hrej] | Hpen].
    - rewrite (rejected_ends_run h p0 reason Hrej Hbefore) in L. cbn [fst] in L.
      now rewrite launched_app_settle in L.
    - now rewrite (pending_ends_run h p0 Hpen Hbefore) in L. }
  apply launched_sequential_prefix in L'.
  apply Hbefore, (precedes_before_first p0 p q Hq L').
Qed.

(** Whatever the host, the events of a run are the first events, one at
    least, of the run in which every call is fulfilled. *)
Lemma trace_is_prefix (h : host) :
  exists n, (0 < n)%nat /\ fst (run h getInput) = firstn n (sequential probes).
Proof.
  destruct (run_cases h) as [Hall | [p [Hbefore [[reason Hrej] | Hpen]]]].
  - destruct (all_fulfilled_run h Hall)
      as (sd & lo & ip & t & cl & sp & te & pr & me & fsz & E).
    do 10 apply proj2 in E. rewrite E. exists 20%nat. split; [lia | reflexivity].
  - rewrite (rejected_ends_run h p reason Hrej Hbefore).
    exists (2 * rank p + 2)%nat. split; [lia | destruct p; reflexivity].
  - rewrite (pending_ends_run h p Hpen Hbefore).
    exists (2 * rank p + 1)%nat. split; [lia | destruct p; reflexivity].
Qed.

Lemma split_of_prefix {A : Type} (n : nat) (l pre post : list A) (x : A) :
  firstn n l = (pre ++ x :: post)%list ->
  exists post', l = (pre ++ x :: post')%list.
Proof.
  intros E. exists (post ++ skipn n l)%list.
  rewrite <- (firstn_skipn n l) at 1. rewrite E, <- app_assoc. reflexivity.
Qed.

(** In the full sequence, what comes before the launch of a call is the
    launch and the settlement of each call before it. *)
Lemma launch_in_sequence (pre post : list event) (p : probe) :
  sequential probes = (pre ++ Launch p :: post)%list ->
  pre = sequential (filter (fun q => precedes q p) probes).
Proof.
  intros E.
  assert (Hn : nth_error (sequential probes) (List.length pre) = Some (Launch p)).
  { rewrite E, nth_error_app2, Nat.sub_diag by lia. reflexivity. }
  assert (Hp : pre = firstn (List.length pre) (sequential probes)).
  { rewrite E, firstn_app, Nat.sub_diag, firstn_all. cbn [firstn].
    now rewrite app_nil_r. }
  remember (List.length pre) as n eqn:En. clear En E post.
  do 20 (destruct n as [| n];
         [ cbn in Hn; try discriminate Hn; injection Hn as <-; subst pre; reflexivity | ]).
  destruct n; discriminate Hn.
Qed.

Lemma in_flight_settled (p q : probe) :
  launched (sequential (filter (fun r => precedes r p) probes)) q = true ->
  settled (sequential (filter (fun r => precedes r p) probes)) q = true.
Proof. destruct p, q; intros L; try reflexivity; discriminate L. Qed.

(** C4, as the code has it: the calls are awaited one by one.  Whatever
    becomes of the run, its events are the first events of the sequence
    launch, settlement, launch, settlement, ... of the ten calls in the
    order of the source.  At the launch of a call the events that have
    happened are the launch and then the settlement of each call before it
    in the function: every such call has been fulfilled and has settled
    before the launch, and no call that was launched is still unsettled.
    And [input] is assembled only after all ten calls have been launched
    and have settled. *)
Theorem calls_awaited_one_by_one (h : host) :
  (exists n, (0 < n)%nat /\ fst (run h getInput) = firstn n (sequential probes))
  /\ (forall pre post p,
        fst (run h getInput) = (pre ++ Launch p :: post)%list ->
        pre = sequential (filter (fun q => precedes q p) probes)
        /\ (forall q, precedes q p = true ->
              fulfilled (settle h q) = true /\ settled pre q = true)
        /\ (forall q, launched pre q = true -> settled pre q = true))
  /\ (forall input, snd (run h getInput) = Done input ->
        fst (run h getInput) = sequential probes
        /\ forall p, launched (fst (run h getInput)) p = true
                     /\ settled (fst (run h getInput)) p = true).
Proof.
  split; [apply trace_is_prefix | ]. split.
  - intros pre post p E.
    assert (L : launched (fst (run h getInput)) p = true).
    { rewrite E. unfold launched. rewrite existsb_app. cbn [existsb].
      assert (R : probe_eqb p p = true) by (destruct p; reflexivity).
      rewrite R. now rewrite orb_true_r. }
    destruct (trace_is_prefix h) as (n & _ & En). rewrite En in E.
    destruct (split_of_prefix n _ pre post _ E) as [post' E'].
    pose proof (launch_in_sequence pre post' p E') as Hpre.
    split; [exact Hpre | ]. split.
    + intros q Hq. split.
      * exact (earlier_calls_fulfilled h p q L Hq).
      * rewrite Hpre, <- (app_nil_r (sequential _)).
        apply settled_sequential_prefix, Hq.
    + intros q. rewrite Hpre. apply in_flight_settled.
  - intros input Hd.
    destruct (run_cases h) as [Hall | [p [Hbefore [[reason Hrej] | Hpen]]]].
    + destruct (all_fulfilled_run h Hall)
        as (sd & lo & ip & t & cl & sp & te & pr & me & fsz & E).
      do 10 apply proj2 in E. rewrite E. cbn [fst]. split; [reflexivity | ].
      intros p'. destruct p'; split; reflexivity.
    + rewrite (rejected_ends_run h p reason Hrej Hbefore) in Hd. discriminate Hd.
    + rewrite (pending_ends_run h p Hpen Hbefore) in Hd. discriminate Hd.
Qed.

Lemma storage_card_of_input (input : Input) :
  Render.at_path Render.storageUsage_path (Render.render input)
  = Some (Render.storageUsage input)
  /\ Render.title_of (Render.storageUsage input) = Some "Storage Usage"
  /\ Render.body_of (Render.storageUsage input)
     = Some (Render.storageRows (fsSize input)).
Proof. repeat split. Qed.

(** C8: on a host whose calls are all fulfilled and whose file-system list
    is empty, the document is produced; its Storage Usage card is in its
    place, with its header, and the body of its table has no rows. *)
Theorem empty_filesystem_list_renders (h : host) :
  (forall q, fulfilled (settle h q) = true) ->
  h_fsSize h = Fulfilled [] ->
  exists input c,
    snd (run h getInput) = Done input
    /\ fsSize input = Some []
    /\ snd (run h _getHtmlForWebview) = Done (Render.render input)
    /\ Render.at_path Render.storageUsage_path (Render.render input) = Some c
    /\ Render.title_of c = Some "Storage Usage"
    /\ Render.body_of c = Some [].
Proof.
  intros Hall Hfs.
  destruct (all_fulfilled_run h Hall)
    as (sd & lo & ip & t & cl & sp & te & pr & me & fsz & E).
  do 9 apply proj2 in E. destruct E as [Hfs' E].
  rewrite Hfs in Hfs'. injection Hfs' as <-.
  exists (assembled h sd lo ip t cl sp te pr me []), (Render.storageUsage (assembled h sd lo ip t cl sp te pr me [])).
  repeat split.
  - now rewrite E.
  - now rewrite run_getHtml, E.
Qed.

End Gathering.

(* ===================================================================== *)
(** * Properties of the rendering *)
(* ===================================================================== *)

Section Rendering.

Import JS Data Html Render Reading.

Lemma rows_of_join (sep : string) (rows : list html) :
  forallb is_row rows = true -> rows_of (join sep rows) = rows.
Proof.
  induction rows as [| r rows IH]; intros Hrows; [reflexivity | ].
  simpl in Hrows. apply andb_true_iff in Hrows. destruct Hrows as [Hr Hrows].
  destruct rows as [| r' rows'].
  - simpl. now rewrite Hr.
  - change (join sep (r :: r' :: rows'))
      with (r :: ((if String.eqb sep "" then [] else [Text sep]) ++ join sep (r' :: rows'))%list).
    unfold rows_of in *. cbn [filter]. rewrite Hr. f_equal.
    rewrite filter_app, IH by exact Hrows.
    destruct (String.eqb sep ""); reflexivity.
Qed.

Lemma map_from_length {A B : Type} (f : A -> nat -> B) (a : list A) (i : nat) :
  List.length (map_from f i a) = List.length a.
Proof.
  revert i. induction a as [| x a IH]; intros i; simpl; [reflexivity | ].
  now rewrite IH.
Qed.

Lemma nth_error_map_from {A B : Type} (f : A -> nat -> B) (a : list A) (i j : nat) (x : A) :
  nth_error a j = Some x -> nth_error (map_from f i a) j = Some (f x (i + j)%nat).
Proof.
  revert i j. induction a as [| y a IH]; intros i j Hx.
  - destruct j; discriminate Hx.
  - destruct j as [| j]; simpl in *.
    + injection Hx as ->. now rewrite Nat.add_0_r.
    + rewrite (IH (S i) j Hx). f_equal. f_equal. lia.
Qed.

Lemma forallb_map_from {A B : Type} (P : B -> bool) (f : A -> nat -> B)
    (a : list A) (i : nat) :
  (forall x k, P (f x k) = true) -> forallb P (map_from f i a) = true.
Proof.
  intros Hf. revert i. induction a as [| x a IH]; intros i; simpl; [reflexivity | ].
  now rewrite Hf, IH.
Qed.

Lemma map_from_const {A B : Type} (f : A -> B) (a : list A) (i : nat) :
  map_from (fun x _ => f x) i a = map f a.
Proof.
  revert i. induction a as [| x a IH]; intros i; simpl; [reflexivity | ].
  now rewrite IH.
Qed.

(** An array of rows, mapped with its indices and joined: one row each. *)
Lemma joined_rows_one_each {A : Type} (rowfn : A -> nat -> html) (sep : string)
    (a : list A) :
  (forall x k, is_row (rowfn x k) = true) ->
  one_row_each rowfn a (join sep (Array_map rowfn a)).
Proof.
  intros Hrow. unfold one_row_each, Array_map.
  rewrite rows_of_join by (apply forallb_map_from, Hrow). split.
  - apply map_from_length.
  - intros i x Hx. now rewrite (nth_error_map_from rowfn a 0 i x Hx).
Qed.

Lemma list_sum_head (x : nat) (l : list nat) : list_sum (x :: l) = (x + list_sum l)%nat.
Proof. reflexivity. Qed.

Lemma tables_join (sep : string) (rows : list html) :
  list_sum (map tables_in (join sep rows)) = list_sum (map tables_in rows).
Proof.
  induction rows as [| r rows IH]; [reflexivity | ].
  destruct rows as [| r' rows']; [reflexivity | ].
  change (join sep (r :: r' :: rows'))
    with (r :: ((if String.eqb sep "" then [] else [Text sep]) ++ join sep (r' :: rows'))%list).
  remember (r' :: rows') as rest eqn:Erest in *. clear Erest.
  cbn [map]. rewrite !list_sum_head, map_app, list_sum_app, IH.
  destruct (String.eqb sep ""); reflexivity.
Qed.

Lemma tables_map_from {A : Type} (f : A -> nat -> html) (a : list A) (i : nat) :
  (forall x k, tables_in (f x k) = 1%nat) ->
  list_sum (map tables_in (map_from f i a)) = List.length a.
Proof.
  intros Hf. revert i. induction a as [| x a IH]; intros i; [reflexivity | ].
  cbn [map_from map List.length]. now rewrite list_sum_head, Hf, IH.
Qed.

(** An array of rows that each hold a number and one table, mapped with
    its indices and joined. *)
Lemma joined_one_table_each {A : Type} (rowfn : A -> nat -> html)
    (number : nat -> string) (lines : A -> list (list (list string)))
    (sep : string) (a : list A) :
  (forall x k, is_row (rowfn x k) = true) ->
  (forall x k, tables_in (rowfn x k) = 1%nat) ->
  (forall x k, entry_of (rowfn x k) = Some (number k, map Some (lines x))) ->
  one_table_each number lines a (join sep (Array_map rowfn a)).
Proof.
  intros Hrow Ht He.
  destruct (joined_rows_one_each rowfn sep a Hrow) as [Hlen Hnth].
  split; [exact Hlen | ]. split.
  - rewrite tables_join. apply tables_map_from, Ht.
  - intros i x Hx. exists (rowfn x i).
    split; [apply Hnth, Hx | ]. split; [apply Ht | apply He].
Qed.

Lemma joined_one_line_each {A : Type} (rowfn : A -> nat -> html)
    (cells : A -> nat -> list (list string)) (sep : string) (a : list A) :
  (forall x k, is_row (rowfn x k) = true) ->
  (forall x k, cells_of (rowfn x k) = Some (cells x k)) ->
  one_line_each cells a (join sep (Array_map rowfn a)).
Proof.
  intros Hrow Hc.
  destruct (joined_rows_one_each rowfn sep a Hrow) as [Hlen Hnth].
  split; [exact Hlen | ].
  intros i x Hx. exists (rowfn x i). split; [apply Hnth, Hx | apply Hc].
Qed.

(** The four cards of numbered tables and the Storage Usage card, read
    back from the document. *)
Lemma gpu_card_read (input : Input) :
  exists body,
    card_body (identity_path 5) (render input) = Some body
    /\ one_table_each from_zero gpu_lines
         (controllers (graphics (staticData input))) body.
Proof.
  eexists. split; [reflexivity | ].
  apply (joined_one_table_each gpuRow); reflexivity.
Qed.

Lemma display_card_read (input : Input) :
  exists body,
    card_body (identity_path 6) (render input) = Some body
    /\ one_table_each from_one display_lines
         (displays (graphics (staticData input))) body.
Proof.
  eexists. split; [reflexivity | ].
  apply (joined_one_table_each displayRow); reflexivity.
Qed.

Lemma mem_card_read (input : Input) :
  exists body,
    card_body (identity_path 7) (render input) = Some body
    /\ one_table_each from_one mem_lines (memLayout (staticData input)) body.
Proof.
  eexists. split; [reflexivity | ].
  apply (joined_one_table_each memRow); reflexivity.
Qed.

Lemma disk_card_read (input : Input) :
  exists body,
    card_body (identity_path 8) (render input) = Some body
    /\ one_table_each from_one disk_lines (diskLayout (staticData input)) body.
Proof.
  eexists. split; [reflexivity | ].
  apply (joined_one_table_each diskRow); reflexivity.
Qed.

Lemma storage_card_read (input : Input) (fss : list Storage) :
  fsSize input = Some fss ->
  exists body,
    card_body storageUsage_path (render input) = Some body
    /\ one_line_each (fun s _ => storage_cells s) fss body.
Proof.
  intros Hfs. exists (storageRows (Some fss)). split.
  - unfold card_body, render, storageUsage. rewrite Hfs. reflexivity.
  - unfold storageRows, Array_toString. rewrite <- (map_from_const storageRow fss 0).
    apply (joined_one_line_each (fun s _ => storageRow s)); reflexivity.
Qed.


Lemma shape_joined_rows {A A' : Type} (f : A -> nat -> html) (f' : A' -> nat -> html)
    (sep : string) (a : list A) (a' : list A') (i i' : nat) :
  (forall x k x' k', shape (f x k) = shape (f' x' k')) ->
  List.length a = List.length a' ->
  map shape (join sep (map_from f i a)) = map shape (join sep (map_from f' i' a')).
Proof.
  intros Hf. revert a' i i'.
  induction a as [| x a IH]; intros [| x' a'] i i' Hlen; try discriminate Hlen.
  - reflexivity.
  - injection Hlen as Hlen. specialize (IH a' (S i) (S i') Hlen).
    destruct a as [| y a]; destruct a' as [| y' a']; try discriminate Hlen.
    + simpl. now rewrite (Hf x i x' i').
    + change (map_from f i (x :: y :: a)) with (f x i :: map_from f (S i) (y :: a)).
      change (map_from f' i' (x' :: y' :: a')) with (f' x' i' :: map_from f' (S i') (y' :: a')).
      remember (map_from f (S i) (y :: a)) as l eqn:El.
      remember (map_from f' (S i') (y' :: a')) as l' eqn:El'.
      destruct l as [| r l]; [discriminate El | ].
      destruct l' as [| r' l']; [discriminate El' | ].
      change (join sep (f x i :: r :: l))
        with (f x i :: ((if String.eqb sep "" then [] else [Text sep]) ++ join sep (r :: l))%list).
      change (join sep (f' x' i' :: r' :: l'))
        with (f' x' i' :: ((if String.eqb sep "" then [] else [Text sep]) ++ join sep (r' :: l'))%list).
      cbn [map]. rewrite !map_app, IH, (Hf x i x' i'). reflexivity.
Qed.

Lemma shape_storageRows (a a' : option (list Storage)) :
  match a with Some l => S (List.length l) | None => O end
  = match a' with Some l => S (List.length l) | None => O end ->
  map shape (storageRows a) = map shape (storageRows a').
Proof.
  destruct a as [l | ], a' as [l' | ]; intros E; try discriminate E; [ | reflexivity].
  injection E as E. unfold storageRows, Array_toString.
  rewrite <- (map_from_const storageRow l 0), <- (map_from_const storageRow l' 0).
  apply shape_joined_rows; [reflexivity | exact E].
Qed.

(** The elements that the template writes depend on the lengths of the
    lists only: no row, cell or table of the template appears or
    disappears with the values.  A value is one text of the tree, inserted
    as it is; markup inside a value is not looked at. *)
Lemma layout_is_stable (input input' : Input) :
  sizes input = sizes input' -> shape (render input) = shape (render input').
Proof.
  unfold sizes. intros E.
  injection E as Ecpu Egpu Edisplay Emem Edisk Efs.
  unfold render, identityCards, cpuUsage, storageUsage, card, table, el, tbody.
  destruct (avgload input) as [[a0 a1] a2] eqn:Eavg.
  destruct (avgload input') as [[b0 b1] b2] eqn:Eavg'.
  unfold systemVital, averageLoadCell, card, table, el, tbody. rewrite Eavg, Eavg'.
  cbn [shape map fst].
  unfold gpuRows, displayRows, memRows, diskRows, Array_toString, Array_map.
  rewrite (shape_joined_rows (coreRow input) (coreRow input') ","
             (cpus (currentLoad input)) (cpus (currentLoad input')) 0 0
             ltac:(reflexivity) Ecpu).
  rewrite (shape_storageRows (fsSize input) (fsSize input') Efs).
  rewrite (shape_joined_rows gpuRow gpuRow "" _ _ 0 0 ltac:(reflexivity) Egpu).
  rewrite (shape_joined_rows displayRow displayRow "," _ _ 0 0 ltac:(reflexivity) Edisplay).
  rewrite (shape_joined_rows memRow memRow "," _ _ 0 0 ltac:(reflexivity) Emem).
  rewrite (shape_joined_rows diskRow diskRow "," _ _ 0 0 ltac:(reflexivity) Edisk).
  reflexivity.
Qed.

Lemma core_rows_read (input : Input) :
  exists body,
    card_body cpuUsage_path (render input) = Some body
    /\ one_line_each (core_cells input) (cpus (currentLoad input)) body.
Proof.
  eexists. split; [reflexivity | ].
  apply (joined_one_line_each (coreRow input)); reflexivity.
Qed.

Lemma vital_card_read (input : Input) :
  card_cells systemVital_path (render input) = Some (map Some (vital_lines input)).
Proof.
  unfold card_cells, card_body, render, systemVital, averageLoadCell, vital_lines.
  destruct (avgload input) as [[a0 a1] a2]. reflexivity.
Qed.




Lemma gibi_exact (n : Z) :
  0 <= n < 2 ^ 53 ->
  gibi (lit n) = fixed_digits 2 ((200 * n + 2 ^ 30) / 2 ^ 31).
Proof.
  intros Hn. destruct (Z.eq_dec n 0) as [-> | Hpos]; [reflexivity | ].
  destruct (lit_normal n ltac:(lia)) as (m & e & El & Hd & He & Hm).
  unfold gibi. rewrite El.
  rewrite !div_1024 by (try exact Hd; lia).
  replace (e - 10 - 10 - 10) with (e - 30) by lia.
  pose proof (digits2_pos_bounds m) as Hb. rewrite Hd in Hb. unfold prec in Hb.
  unfold toFixed.
  assert (Hlt : cmp_scaled (Z.pos m) (e - 30) 1 21 = Lt).
  { unfold cmp_scaled.
    rewrite (Z.max_r (e - 30) 0), (Z.max_l (- (e - 30)) 0) by lia.
    change (Z.max (- (21)) 0) with 0. change (Z.max 21 0) with 21.
    apply Z.compare_lt_iff.
    assert (1 <= 2 ^ (- (e - 30))) by (apply Z.pow_le_mono_r with (b := 0) (c := - (e - 30)); lia).
    change (2 ^ 0) with 1. change (10 ^ 0) with 1.
    assert (2 ^ 53 < 10 ^ 21) by reflexivity. nia. }
  rewrite Hlt. cbn [append]. f_equal.
  unfold nearest_scaled.
  destruct (Z.leb_spec 0 (e - 30)); [lia | ].
  rewrite Hm.
  replace (- (e - 30)) with (30 + - e) by lia.
  rewrite Z.pow_add_r by lia.
  change (10 ^ Z.of_nat 2) with 100.
  replace (2 * (n * 2 ^ (- e) * 100) + 2 ^ 30 * 2 ^ (- e))
    with ((200 * n + 2 ^ 30) * 2 ^ (- e)) by ring.
  replace (2 * (2 ^ 30 * 2 ^ (- e))) with (2 ^ 31 * 2 ^ (- e)) by (change (2 ^ 31) with (2 * 2 ^ 30); ring).
  apply Z.div_mul_cancel_r.
  - discriminate.
  - assert (0 < 2 ^ (- e)) by (apply Z.pow_pos_nonneg; lia). lia.
Qed.

Lemma append_assoc (a b c : string) : (a ++ b) ++ c = a ++ b ++ c.
Proof. induction a as [| x a IH]; simpl; [reflexivity | now rewrite IH]. Qed.


End Rendering.

(* ===================================================================== *)
(** * The rendering on the sample machines *)
(* ===================================================================== *)

Section RenderingRuns.

Import JS Data Html Render Reading Aggregator Panel Sample.









End RenderingRuns.


(* ===================================================================== *)
(** * The gathering on the sample machines *)
(* ===================================================================== *)

Section GatheringRuns.

Import JS Data Html Aggregator Panel Sample.

Lemma others_fulfilled (h : host) (p : probe) :
  forallb (fun q => probe_eqb q p || fulfilled (settle h q)) probes = true ->
  forall q, q <> p -> fulfilled (settle h q) = true.
Proof.
  intros Hall q Hq. rewrite forallb_forall in Hall.
  assert (Hin : In q probes) by (destruct q; simpl; tauto).
  specialize (Hall q Hin). apply orb_true_iff in Hall. destruct Hall as [E | E].
  - exfalso. apply Hq. destruct q, p; try discriminate E; reflexivity.
  - exact E.
Qed.

(** C1, as stated, fails: on a machine where only [osLocale] is rejected,
    no [input] is assembled; the function is rejected after two launches. *)
Lemma rejected_locale_aborts_snapshot :
  settle Sample.locale_fails osLocale = Rejected "spawn locale ENOENT"
  /\ (forall q, q <> osLocale -> fulfilled (settle Sample.locale_fails q) = true)
  /\ run Sample.locale_fails getInput
     = (sequential [getStaticData; osLocale], Failed "spawn locale ENOENT")
  /\ forall input, snd (run Sample.locale_fails getInput) <> Done input.
Proof.
  repeat split.
  - apply others_fulfilled. reflexivity.
  - intros input. discriminate.
Qed.

Lemma rejection_propagates_witness :
  settle Sample.locale_fails osLocale = Rejected "spawn locale ENOENT"
  /\ snd (run Sample.locale_fails getInput) = Failed "spawn locale ENOENT"
  /\ snd (run Sample.locale_fails _getHtmlForWebview) = Failed "spawn locale ENOENT"
  /\ (forall q, precedes osLocale q = true ->
        launched (fst (run Sample.locale_fails getInput)) q = false)
  /\ (forall w, _update Sample.locale_fails w = w).
Proof.
  split; [reflexivity | ].
  apply (@rejection_propagates Sample.packages Sample.locale_fails osLocale).
  - reflexivity.
  - intros q Hq. destruct q; try discriminate Hq. reflexivity.
Defined.

(** C3, as stated, fails: when the external address cannot be fetched the
    other calls being fine, the function is rejected, the four calls after
    it are never launched and the webview gets no html; when the call
    never settles, neither does the function. *)
Lemma external_ip_failure_fails_report :
  (forall q, q <> publicIp_v4 -> fulfilled (settle Sample.ip_times_out q) = true)
  /\ run Sample.ip_times_out _getHtmlForWebview
     = (sequential [getStaticData; osLocale; publicIp_v4], Failed "Request timed out")
  /\ _update Sample.ip_times_out None = None
  /\ launched (fst (run Sample.ip_times_out _getHtmlForWebview)) si_mem = false
  /\ run Sample.ip_hangs _getHtmlForWebview
     = ((sequential [getStaticData; osLocale] ++ [Launch publicIp_v4])%list, Hung).
Proof.
  repeat split. apply others_fulfilled. reflexivity.
Qed.

Lemma external_ip_awaited_in_line_witness :
  h_getStaticData Sample.ip_times_out = Fulfilled Sample.theStatic
  /\ h_osLocale Sample.ip_times_out = Fulfilled (JStr "en-US")
  /\ run Sample.ip_times_out _getHtmlForWebview
     = (sequential [getStaticData; osLocale; publicIp_v4], Failed "Request timed out")
  /\ forall w, _update Sample.ip_times_out w = w.
Proof.
  split; [reflexivity | split; [reflexivity | ] ].
  exact (@external_ip_awaited_in_line Sample.packages Sample.ip_times_out
           Sample.theStatic (JStr "en-US") eq_refl eq_refl).
Defined.

(** C4, as stated, fails: the launch of a call waits for the result of the
    call before it.  While [getStaticData] has not settled, [osLocale],
    which would succeed, is not launched; and on a machine where all
    succeed every launch but the first comes after another call has
    settled. *)
Lemma later_calls_wait_for_earlier :
  run Sample.static_hangs getInput = ([Launch getStaticData], Hung)
  /\ fulfilled (settle Sample.static_hangs osLocale) = true
  /\ launched (fst (run Sample.static_hangs getInput)) osLocale = false
  /\ firstn 4 (fst (run Sample.healthy getInput))
     = [Launch getStaticData; Settle getStaticData; Launch osLocale; Settle osLocale].
Proof. repeat split. Qed.

Lemma calls_awaited_one_by_one_witness :
  fst (run Sample.ip_times_out getInput)
  = (sequential [getStaticData; osLocale]
     ++ Launch publicIp_v4 :: [Settle publicIp_v4])%list
  /\ precedes osLocale publicIp_v4 = true
  /\ fulfilled (settle Sample.ip_times_out osLocale) = true
  /\ settled (sequential [getStaticData; osLocale]) osLocale = true.
Proof.
  split; [reflexivity | split; [reflexivity | ] ].
  exact (proj1 (proj2 (proj1 (proj2
           (@calls_awaited_one_by_one Sample.packages Sample.ip_times_out))
           (sequential [getStaticData; osLocale]) [Settle publicIp_v4]
           publicIp_v4 eq_refl))
           osLocale eq_refl).
Defined.

Lemma empty_filesystem_list_renders_witness :
  h_fsSize Sample.no_filesystems = Fulfilled []
  /\ exists input c,
       snd (run Sample.no_filesystems getInput) = Done input
       /\ fsSize input = Some []
       /\ snd (run Sample.no_filesystems _getHtmlForWebview) = Done (Render.render input)
       /\ Render.at_path Render.storageUsage_path (Render.render input) = Some c
       /\ Render.title_of c = Some "Storage Usage"
       /\ Render.body_of c = Some [].
Proof.
  split; [reflexivity | ].
  apply (@empty_filesystem_list_renders Sample.packages Sample.no_filesystems).
  - intros q. destruct q; reflexivity.
  - reflexivity.
Defined.

End GatheringRuns.
(* ===================================================================== *)
(** * The panel is tracked in one static field *)
(* ===================================================================== *)

Section Singleton.

Import Panel.

Lemma exec_snoc (calls : list call) (c : call) :
  exec (calls ++ [c]) = step (exec calls) c.
Proof. unfold exec. now rewrite fold_left_app. Qed.

(** The tracked instance is one that has been constructed. *)
Lemma tracked_is_constructed (calls : list call) (p : nat) :
  currentPanel (exec calls) = Some p -> (p < constructed (exec calls))%nat.
Proof.
  revert p. induction calls as [| c calls IH] using rev_ind; intros p Hp.
  - discriminate Hp.
  - rewrite exec_snoc in *. destruct c as [ | | this]; simpl in *.
    + unfold createOrShow in *.
      destruct (currentPanel (exec calls)) as [q | ] eqn:Hq; simpl in *.
      * apply IH. exact Hp.
      * injection Hp as <-. lia.
    + injection Hp as <-. lia.
    + destruct (this <? constructed (exec calls))%nat; simpl in *.
      * discriminate Hp.
      * apply IH, Hp.
Qed.

(** C10: after any sequence of calls at most one instance is tracked, and
    it is one that has been constructed.  [createOrShow] with a tracked
    instance reveals it and constructs nothing; without one it constructs a
    new instance and tracks it.  [dispose] clears the field, so that the
    next [createOrShow] constructs an instance that did not exist before. *)
Theorem panel_is_singleton (calls : list call) :
  (List.length (tracked (exec calls)) <= 1)%nat
  /\ (forall p, currentPanel (exec calls) = Some p ->
        (p < constructed (exec calls))%nat
        /\ currentPanel (createOrShow (exec calls)) = Some p
        /\ constructed (createOrShow (exec calls)) = constructed (exec calls)
        /\ disposed (createOrShow (exec calls)) = disposed (exec calls)
        /\ revealed (createOrShow (exec calls)) = p :: revealed (exec calls))
  /\ (currentPanel (exec calls) = None ->
        currentPanel (createOrShow (exec calls)) = Some (constructed (exec calls))
        /\ constructed (createOrShow (exec calls)) = S (constructed (exec calls)))
  /\ (forall this,
        currentPanel (dispose this (exec calls)) = None
        /\ tracked (dispose this (exec calls)) = []
        /\ currentPanel (createOrShow (dispose this (exec calls)))
           = Some (constructed (exec calls))
        /\ constructed (createOrShow (dispose this (exec calls)))
           = S (constructed (exec calls))).
Proof.
  split; [ | split; [ | split] ].
  - unfold tracked. destruct (currentPanel (exec calls)); simpl; lia.
  - intros p Hp. split; [apply tracked_is_constructed, Hp | ].
    unfold createOrShow. rewrite Hp. simpl. repeat split.
  - intros Hnone. unfold createOrShow. rewrite Hnone. split; reflexivity.
  - intros this. repeat split.
Qed.

Lemma panel_is_singleton_witness :
  currentPanel (exec [CreateOrShow; Revive; Dispose 0%nat]) = None
  /\ currentPanel (createOrShow (exec [CreateOrShow; Revive; Dispose 0%nat])) = Some 2%nat
  /\ constructed (createOrShow (exec [CreateOrShow; Revive; Dispose 0%nat])) = 3%nat.
Proof.
  split; [reflexivity | ].
  exact (proj1 (proj2 (proj2 (panel_is_singleton [CreateOrShow; Revive; Dispose 0%nat])))
           eq_refl).
Defined.

End Singleton.

(* ===================================================================== *)
(** * Further properties of the numbers *)
(* ===================================================================== *)

Section FurtherNumbers.

Import JS Data Html Render Nonce.

(** ** Rounding after a multiplication *)

Lemma iter_pos_nat {A : Type} (f : A -> A) (p : positive) (x : A) :
  iter_pos f p x = Nat.iter (Pos.to_nat p) f x.
Proof.
  revert x. induction p as [p IH | p IH | ]; intros x; cbn [iter_pos].
  - rewrite !IH, <- Nat.iter_add, <- Nat.iter_succ_r. f_equal. lia.
  - rewrite !IH, <- Nat.iter_add. f_equal. lia.
  - reflexivity.
Qed.

Lemma shr_1_spec (M : Z) (r s : bool) :
  0 <= M ->
  shr_m (shr_1 {| shr_m := M; shr_r := r; shr_s := s |}) = M / 2
  /\ shr_r (shr_1 {| shr_m := M; shr_r := r; shr_s := s |}) = Z.odd M.
Proof.
  intros HM. destruct M as [| [p | p | ] | p]; try lia; cbn [shr_1 shr_m shr_r].
  - split; reflexivity.
  - split; [ | reflexivity]. rewrite Pos2Z.inj_xI. apply Z.div_unique with (r := 1); lia.
  - split; [ | reflexivity]. rewrite Pos2Z.inj_xO. apply Z.div_unique with (r := 0); lia.
  - split; reflexivity.
Qed.

(** After [k] shifts the significand is the quotient by [2^k], and the
    round bit is set only if the remainder is at least half of [2^k]. *)
Lemma shr_iter_spec (P : Z) (k : nat) :
  0 <= P ->
  let rec := Nat.iter k shr_1 {| shr_m := P; shr_r := false; shr_s := false |} in
  shr_m rec = P / 2 ^ Z.of_nat k
  /\ (shr_r rec = true -> 2 ^ Z.of_nat k <= 2 * (P mod 2 ^ Z.of_nat k)).
Proof.
  intros HP. induction k as [| k IH]; cbv zeta in *.
  - cbn [Nat.iter shr_m shr_r]. split; [now rewrite Z.div_1_r | discriminate].
  - rewrite Nat.iter_succ.
    destruct (Nat.iter k shr_1 _) as [M r s]. cbn [shr_m shr_r] in IH.
    destruct IH as [IHm _].
    assert (HM : 0 <= M) by (subst M; apply Z.div_pos; [lia | apply Z.pow_pos_nonneg; lia]).
    destruct (shr_1_spec M r s HM) as [Em Er]. rewrite Em, Er.
    rewrite Nat2Z.inj_succ, Z.pow_succ_r by lia.
    set (X := 2 ^ Z.of_nat k) in *.
    assert (HX : 0 < X) by (apply Z.pow_pos_nonneg; lia).
    split.
    + subst M. rewrite Z.div_div by lia. f_equal. lia.
    + intros Hodd.
      pose proof (Z.div_mod P X ltac:(lia)) as E1.
      pose proof (Z.mod_pos_bound P X HX) as B1.
      pose proof (Z.div_mod P (2 * X) ltac:(lia)) as E2.
      pose proof (Z.mod_pos_bound P (2 * X) ltac:(lia)) as B2.
      rewrite <- IHm in E1.
      assert (Hq : P / (2 * X) = M / 2) by (subst M; rewrite Z.div_div by lia; f_equal; lia).
      rewrite Hq in E2.
      pose proof (Zdiv2_odd_eqn M) as E3. rewrite Hodd, Z.div2_div in E3.
      nia.
Qed.

Lemma shr_bound (m E n : Z) :
  0 <= m ->
  let res := shr {| shr_m := m; shr_r := false; shr_s := false |} E n in
  shr_m (fst res) = m / 2 ^ Z.max n 0
  /\ snd res = E + Z.max n 0
  /\ (shr_r (fst res) = true -> 0 < n /\ 2 ^ n <= 2 * (m mod 2 ^ n)).
Proof.
  intros Hm. destruct n as [| p | p]; cbn [shr fst snd shr_m shr_r].
  - rewrite Z.div_1_r. repeat split; try lia; discriminate.
  - rewrite iter_pos_nat.
    destruct (shr_iter_spec m (Pos.to_nat p) Hm) as [A B].
    rewrite positive_nat_Z in A, B.
    rewrite Z.max_l by lia. repeat split; try assumption; try lia. apply B, H.
  - rewrite Z.max_r by lia. change (2 ^ 0) with 1. rewrite Z.div_1_r.
    repeat split; try lia; discriminate.
Qed.

Lemma round_nearest_even_bound (rec : shr_record) :
  0 <= shr_m rec ->
  shr_m rec <= round_nearest_even (shr_m rec) (loc_of_shr_record rec)
            <= shr_m rec + (if shr_r rec then 1 else 0).
Proof.
  destruct rec as [M [|] [|]]; cbn [shr_m shr_r loc_of_shr_record round_nearest_even];
    intros HM; try destruct (Z.even M); lia.
Qed.

(** Rounding a positive significand [P] at exponent [E]: the result is
    zero, or a float (an infinity when its exponent is too large) that
    exceeds [P * 2^E] by at most half a unit of the first shift. *)
Lemma round_aux_bound (P : positive) (E : Z) :
  let n := fexp prec emax (Zpos (digits2_pos P) + E) - E in
  binary_round_aux prec emax false (Zpos P) E loc_Exact = S754_zero false
  \/ exists m2 e2,
       E <= e2
       /\ Zpos m2 * 2 ^ (e2 - E) <= Zpos P + (if 0 <? n then 2 ^ (n - 1) else 0)
       /\ binary_round_aux prec emax false (Zpos P) E loc_Exact
          = if e2 <=? emax - prec then S754_finite false m2 e2 else S754_infinity false.
Proof.
  intros n. unfold binary_round_aux, shr_fexp.
  cbn [Zdigits2 shr_record_of_loc]. fold n.
  pose proof (shr_bound (Zpos P) E n ltac:(lia)) as H1. cbv zeta in H1.
  destruct (shr {| shr_m := Z.pos P; shr_r := false; shr_s := false |} E n) as [rec1 e1].
  cbn [fst snd] in H1. destruct H1 as (M1 & E1 & R1).
  assert (HM1 : 0 <= shr_m rec1).
  { rewrite M1. apply Z.div_pos; [lia | apply Z.pow_pos_nonneg; lia]. }
  pose proof (round_nearest_even_bound rec1 HM1) as Hr.
  set (m1 := round_nearest_even (shr_m rec1) (loc_of_shr_record rec1)) in *.
  set (n2 := fexp prec emax (Zdigits2 m1 + e1) - e1).
  pose proof (shr_bound m1 e1 n2 ltac:(lia)) as H2. cbv zeta in H2.
  destruct (shr {| shr_m := m1; shr_r := false; shr_s := false |} e1 n2) as [rec2 e2].
  cbn [fst snd] in H2. destruct H2 as (M2 & E2 & _).
  destruct (shr_m rec2) as [| m2 | m2] eqn:Em2.
  - left. reflexivity.
  - right. exists m2, e2. split; [lia | ]. split; [ | reflexivity].
    (* m2 * 2^k2 <= m1, and m1 * 2^k1 <= P + half *)
    set (k1 := Z.max n 0) in *. set (k2 := Z.max n2 0) in *.
    assert (Hk1 : 0 <= k1) by lia. assert (Hk2 : 0 <= k2) by lia.
    replace (e2 - E) with (k2 + k1) by lia. rewrite Z.pow_add_r by lia.
    assert (X1 : 0 < 2 ^ k1) by (apply Z.pow_pos_nonneg; lia).
    assert (X2 : 0 < 2 ^ k2) by (apply Z.pow_pos_nonneg; lia).
    assert (A2 : Zpos m2 * 2 ^ k2 <= m1).
    { rewrite M2. rewrite Z.mul_comm. apply Z.mul_div_le. lia. }
    assert (A1 : m1 * 2 ^ k1 <= Zpos P + (if 0 <? n then 2 ^ (n - 1) else 0)).
    { pose proof (Z.div_mod (Zpos P) (2 ^ k1) ltac:(lia)) as D.
      pose proof (Z.mod_pos_bound (Zpos P) (2 ^ k1) X1) as B.
      rewrite <- M1 in D.
      destruct (shr_r rec1) eqn:Er.
      - destruct (R1 eq_refl) as [Hn Hhalf].
        assert (Hk : k1 = n) by lia. rewrite Hk in *.
        destruct (Z.ltb_spec 0 n); [ | lia].
        assert (Hpow : 2 ^ n = 2 * 2 ^ (n - 1))
          by (rewrite <- Z.pow_succ_r by lia; f_equal; lia).
        assert (0 < 2 ^ (n - 1)) by (apply Z.pow_pos_nonneg; lia).
        rewrite Hpow in *. nia.
      - assert (0 <= (if 0 <? n then 2 ^ (n - 1) else 0)).
        { destruct (0 <? n); [apply Z.pow_nonneg | ]; lia. }
        nia. }
    nia.
  - exfalso.
    assert (0 <= m1 / 2 ^ Z.max n2 0)
      by (apply Z.div_pos; [lia | apply Z.pow_pos_nonneg; lia]).
    lia.
Qed.

Lemma ToInteger_lit (q : Z) : 0 <= q < 2 ^ 53 -> ToInteger (lit q) = Some q.
Proof.
  intros Hq. destruct (Z.eq_dec q 0) as [-> | Hne]; [reflexivity | ].
  destruct (lit_normal q ltac:(lia)) as (m & e & El & _ & He & Hm).
  rewrite El. unfold ToInteger. f_equal.
  destruct (Z.leb_spec 0 e).
  - assert (e = 0) by lia. subst e. rewrite Hm. change (2 ^ (- 0)) with 1. change (2 ^ 0) with 1. lia.
  - rewrite Hm. apply Z.div_mul. apply Z.pow_nonzero; lia.
Qed.

Lemma lit_62 : lit (Z.of_nat (String.length possible)) = S754_finite false 8725724278030336 (-47).
Proof. reflexivity. Qed.

(** [Math.floor(Math.random() * possible.length)] is a position in
    [possible]. *)
Lemma position_in_range (r : number) :
  in_unit_interval r = true ->
  exists i, ToInteger (Math_floor (mul r (lit (Z.of_nat (String.length possible))))) = Some i
            /\ 0 <= i < 62.
Proof.
  intros Hr. rewrite lit_62.
  destruct r as [[|] | | | [|] m e]; try discriminate Hr.
  - exists 0. split; [reflexivity | lia].
  - cbn [in_unit_interval] in Hr. apply andb_true_iff in Hr. destruct Hr as [Hb Hlt].
    (* what the float is *)
    unfold bounded, canonical_mantissa in Hb. apply andb_true_iff in Hb.
    destruct Hb as [Hc _]. apply Z.eqb_eq in Hc.
    pose proof (digits2_pos_bounds m) as Bm.
    assert (Hd : Zpos (digits2_pos m) <= 53 /\ -1074 <= e)
      by (unfold fexp, SpecFloat.emin, prec, emax in Hc; lia).
    assert (Hm53 : Zpos m < 2 ^ 53).
    { eapply Z.lt_le_trans; [apply Bm | apply Z.pow_le_mono_r; lia]. }
    assert (He : e < 0 /\ Zpos m < 2 ^ (- e)).
    { unfold cmp_scaled in Hlt.
      destruct (_ ?= _) eqn:C in Hlt; try discriminate Hlt. clear Hlt.
      change (Z.max (- 0) 0) with 0 in C. change (Z.max 0 0) with 0 in C.
      change (10 ^ 0) with 1 in C.
      destruct (Z.le_gt_cases 0 e) as [L | G].
      - exfalso. rewrite (Z.max_l e 0), (Z.max_r (- e) 0) in C by lia.
        change (2 ^ 0) with 1 in C. rewrite Z.compare_lt_iff in C.
        assert (0 < 2 ^ e) by (apply Z.pow_pos_nonneg; lia).
        assert (1 <= Z.pos m * 2 ^ e) by nia. lia.
      - rewrite (Z.max_r e 0), (Z.max_l (- e) 0) in C by lia.
        change (2 ^ 0) with 1 in C. rewrite Z.compare_lt_iff in C. lia. }
    destruct He as [He Hm].
    (* the product and its rounding *)
    unfold mul, SFmul. cbn [xorb].
    set (P := (m * 8725724278030336)%positive).
    set (E := e + -47).
    assert (HP : Zpos P = Zpos m * (31 * 2 ^ 48)) by (unfold P; rewrite Pos2Z.inj_mul; reflexivity).
    pose proof (digits2_pos_bounds P) as BP.
    assert (HdP : Zpos (digits2_pos P) <= 106).
    { destruct (Z.le_gt_cases (Zpos (digits2_pos P)) 106) as [L | G]; [exact L | exfalso].
      assert (2 ^ 106 <= 2 ^ (Zpos (digits2_pos P) - 1)) by (apply Z.pow_le_mono_r; lia).
      assert (Zpos P < 2 ^ 106) by (rewrite HP; change (2 ^ 106) with (2 ^ 53 * 2 ^ 53); nia).
      lia. }
    pose proof (round_aux_bound P E) as R. cbv zeta in R.
    set (n := fexp prec emax (Zpos (digits2_pos P) + E) - E) in R.
    assert (Hn : n <= 53) by (unfold n, fexp, SpecFloat.emin, prec, emax, E; lia).
    assert (Hhalf : (if 0 <? n then 2 ^ (n - 1) else 0) <= 2 ^ 52).
    { destruct (Z.ltb_spec 0 n); [apply Z.pow_le_mono_r; lia | ].
      apply Z.pow_nonneg. lia. }
    destruct R as [R | (m2 & e2 & HE & Hv & R)]; rewrite R.
    + exists 0. split; [reflexivity | lia].
    + (* the value is below 62 *)
      assert (Hpow : 2 ^ (- E) = 2 ^ 47 * 2 ^ (- e))
        by (unfold E; replace (- (e + -47)) with (47 + - e) by lia; apply Z.pow_add_r; lia).
      assert (X : 0 < 2 ^ (- e)) by (apply Z.pow_pos_nonneg; lia).
      assert (Hval : Zpos m2 * 2 ^ (e2 - E) < 62 * 2 ^ (- E)).
      { rewrite Hpow. rewrite HP in Hv.
        change (2 ^ 52) with (16 * 2 ^ 48) in Hhalf.
        change (2 ^ 47) with 140737488355328. change (2 ^ 48) with 281474976710656 in *.
        nia. }
      assert (He2 : e2 < 6).
      { assert (Y : 0 < 2 ^ (e2 - E)) by (apply Z.pow_pos_nonneg; lia).
        assert (2 ^ (e2 - E) < 2 ^ (6 - E)).
        { replace (6 - E) with (6 + - E) by lia. rewrite Z.pow_add_r by (unfold E; lia).
          change (2 ^ 6) with 64.
          assert (0 < 2 ^ (- E)) by (apply Z.pow_pos_nonneg; unfold E; lia). nia. }
        apply Z.pow_lt_mono_r_iff in H; unfold E in *; lia. }
      destruct (Z.leb_spec e2 (emax - prec)); [ | unfold emax, prec in *; lia].
      unfold Math_floor.
      destruct (Z.leb_spec 0 e2) as [Hpos | Hneg].
      * exists (Zpos m2 * 2 ^ e2). unfold ToInteger.
        destruct (Z.leb_spec 0 e2); [ | lia]. split; [reflexivity | ].
        replace (e2 - E) with (e2 + - E) in Hval by lia.
        rewrite Z.pow_add_r in Hval by (unfold E; lia).
        assert (0 < 2 ^ (- E)) by (apply Z.pow_pos_nonneg; unfold E; lia).
        assert (0 < 2 ^ e2) by (apply Z.pow_pos_nonneg; lia).
        nia.
      * set (q := Zpos m2 / 2 ^ (- e2)).
        assert (Z2 : 0 < 2 ^ (- e2)) by (apply Z.pow_pos_nonneg; lia).
        assert (Hq : 0 <= q < 62).
        { split; [apply Z.div_pos; lia | ].
          apply Z.div_lt_upper_bound; [lia | ].
          assert (Hsplit : 2 ^ (- E) = 2 ^ (e2 - E) * 2 ^ (- e2)).
          { rewrite <- Z.pow_add_r by lia. f_equal. lia. }
          rewrite Hsplit in Hval.
          assert (0 < 2 ^ (e2 - E)) by (apply Z.pow_pos_nonneg; lia).
          nia. }
        exists q. split; [ | exact Hq].
        change (binary_normalize prec emax q 0 false) with (lit q).
        apply ToInteger_lit. lia.
Qed.

(** ** The nonce *)

Lemma get_in_range (s : string) (n : nat) :
  (n < String.length s)%nat -> exists c, String.get n s = Some c.
Proof.
  revert n. induction s as [| c s IH]; intros n Hn; cbn [String.length] in Hn; [lia | ].
  destruct n as [| n]; [exists c; reflexivity | ].
  cbn [String.get]. apply IH. lia.
Qed.

Lemma get_alphanumeric (s : string) (n : nat) (c : ascii) :
  all_alphanumeric s = true -> String.get n s = Some c -> alphanumeric c = true.
Proof.
  revert n. induction s as [| a s IH]; intros n Hall Hget; [discriminate Hget | ].
  cbn [all_alphanumeric] in Hall. apply andb_true_iff in Hall. destruct Hall as [Ha Hs].
  destruct n as [| n]; cbn [String.get] in Hget.
  - now injection Hget as <-.
  - eapply IH; eassumption.
Qed.

(** One iteration appends one character of [possible]. *)
Lemma drawn_character (r : number) :
  in_unit_interval r = true ->
  exists c, charAt possible (Math_floor (mul r (lit (Z.of_nat (String.length possible)))))
            = String c ""
            /\ alphanumeric c = true.
Proof.
  intros Hr. destruct (position_in_range r Hr) as (i & Hi & Hrange).
  unfold charAt. rewrite Hi. destruct (Z.ltb_spec i 0); [lia | ].
  destruct (get_in_range possible (Z.to_nat i)) as [c Hc].
  { change (String.length possible) with 62%nat. lia. }
  rewrite Hc. exists c. split; [reflexivity | ].
  exact (get_alphanumeric possible (Z.to_nat i) c eq_refl Hc).
Qed.

Lemma all_alphanumeric_append (a b : string) :
  all_alphanumeric (a ++ b) = all_alphanumeric a && all_alphanumeric b.
Proof.
  induction a as [| c a IH]; cbn [append all_alphanumeric]; [reflexivity | ].
  now rewrite IH, andb_assoc.
Qed.

Lemma getNonce_from_spec (random : nat -> number) (count i : nat) (text : string) :
  (forall j, (i <= j < i + count)%nat -> in_unit_interval (random j) = true) ->
  String.length (getNonce_from random count i text) = (String.length text + count)%nat
  /\ all_alphanumeric (getNonce_from random count i text) = all_alphanumeric text.
Proof.
  revert i text. induction count as [| count IH]; intros i text Hr; cbn [getNonce_from].
  - split; [lia | reflexivity].
  - destruct (drawn_character (random i) (Hr i ltac:(lia))) as (c & Hc & Hal).
    rewrite Hc.
    destruct (IH (S i) (text ++ String c "") ltac:(intros j Hj; apply Hr; lia)) as [L A].
    rewrite L, A, length_append, all_alphanumeric_append.
    cbn [String.length all_alphanumeric]. rewrite Hal, !andb_true_r. split; [lia | reflexivity].
Qed.

(** X1: whatever [Math.random()] returns in its 32 calls, each result
    being at least 0 and less than 1, the nonce has exactly 32 characters
    and each of them is a letter or a digit. *)
Theorem nonce_is_32_alphanumerics (random : nat -> number) :
  (forall j, (j < 32)%nat -> in_unit_interval (random j) = true) ->
  String.length (getNonce random) = 32%nat
  /\ all_alphanumeric (getNonce random) = true.
Proof.
  intros Hr. unfold getNonce.
  destruct (getNonce_from_spec random 32 0 "" ltac:(intros j Hj; apply Hr; lia)) as [L A].
  rewrite L, A. split; reflexivity.
Qed.

Lemma nonce_is_32_alphanumerics_witness :
  (forall j, (j < 32)%nat -> in_unit_interval (div (lit (Z.of_nat j)) (lit 32)) = true)
  /\ String.length (getNonce (fun j => div (lit (Z.of_nat j)) (lit 32))) = 32%nat
  /\ all_alphanumeric (getNonce (fun j => div (lit (Z.of_nat j)) (lit 32))) = true.
Proof.
  assert (Hr : forall j, (j < 32)%nat ->
                         in_unit_interval (div (lit (Z.of_nat j)) (lit 32)) = true).
  { intros j Hj. do 32 (destruct j as [| j]; [reflexivity | ]). lia. }
  split; [exact Hr | ].
  exact (nonce_is_32_alphanumerics (fun j => div (lit (Z.of_nat j)) (lit 32)) Hr).
Defined.

(** ** Percentages and sizes *)

Lemma div_self (s : bool) (m : positive) (e : Z) :
  div (S754_finite s m e) (S754_finite s m e) = lit 1.
Proof.
  unfold div, SFdiv, SFdiv_core_binary. cbn [Zdigits2].
  replace (Z.pos (digits2_pos m) + e - (Z.pos (digits2_pos m) + e)) with 0 by lia.
  replace (e - e) with 0 by lia.
  change (Z.min (fexp prec emax 0) 0) with (-53). change (0 - -53) with 53.
  rewrite Z.shiftl_mul_pow2 by lia.
  rewrite (Z.mul_comm (Z.pos m)), div_eucl_exact by lia.
  assert (Hloc : new_location (Z.pos m) 0 = loc_Exact).
  { unfold new_location, new_location_even, new_location_odd.
    destruct (Z.even (Z.pos m)); reflexivity. }
  rewrite Hloc, xorb_nilpotent. reflexivity.
Qed.

(** X3: a quantity that is used in full, whatever its finite size other
    than zero, is printed as 100.00 per cent. *)
Theorem full_usage_prints_100 (s : bool) (m : positive) (e : Z) :
  percent (S754_finite s m e) (S754_finite s m e) = "100.00"
  /\ forall st, fs_used (entry st) = S754_finite s m e ->
                fs_size (entry st) = S754_finite s m e ->
                at_path [3; 1; 0]%nat (storageRow st) = Some (Text "100.00%").
Proof.
  assert (E : percent (S754_finite s m e) (S754_finite s m e) = "100.00").
  { unfold percent, ratio100. rewrite div_self. reflexivity. }
  split; [exact E | ].
  intros st Hu Hs. unfold storageRow. cbn [at_path nth_error]. now rewrite Hu, Hs, E.
Qed.

(** X4: a quantity of which nothing is used, its size being finite and not
    zero, is printed as 0.00 per cent. *)
Theorem no_usage_prints_0 (z s : bool) (m : positive) (e : Z) :
  percent (S754_zero z) (S754_finite s m e) = "0.00"
  /\ forall st, fs_used (entry st) = S754_zero z ->
                fs_size (entry st) = S754_finite s m e ->
                at_path [3; 1; 0]%nat (storageRow st) = Some (Text "0.00%").
Proof.
  assert (E : percent (S754_zero z) (S754_finite s m e) = "0.00")
    by (destruct z, s; reflexivity).
  split; [exact E | ].
  intros st Hu Hs. unfold storageRow. cbn [at_path nth_error]. now rewrite Hu, Hs, E.
Qed.

Lemma mebi_exact (n : Z) :
  0 <= n < 2 ^ 53 ->
  mebi (lit n) = fixed_digits 2 ((200 * n + 2 ^ 20) / 2 ^ 21).
Proof.
  intros Hn. destruct (Z.eq_dec n 0) as [-> | Hpos]; [reflexivity | ].
  destruct (lit_normal n ltac:(lia)) as (m & e & El & Hd & He & Hm).
  unfold mebi. rewrite El.
  rewrite !div_1024 by (try exact Hd; lia).
  replace (e - 10 - 10) with (e - 20) by lia.
  pose proof (digits2_pos_bounds m) as Hb. rewrite Hd in Hb. unfold prec in Hb.
  unfold toFixed.
  assert (Hlt : cmp_scaled (Z.pos m) (e - 20) 1 21 = Lt).
  { unfold cmp_scaled.
    rewrite (Z.max_r (e - 20) 0), (Z.max_l (- (e - 20)) 0) by lia.
    change (Z.max (- (21)) 0) with 0. change (Z.max 21 0) with 21.
    apply Z.compare_lt_iff.
    assert (1 <= 2 ^ (- (e - 20))) by (apply Z.pow_le_mono_r with (b := 0) (c := - (e - 20)); lia).
    change (2 ^ 0) with 1. change (10 ^ 0) with 1.
    assert (2 ^ 53 < 10 ^ 21) by reflexivity. nia. }
  rewrite Hlt. cbn [append]. f_equal.
  unfold nearest_scaled.
  destruct (Z.leb_spec 0 (e - 20)); [lia | ].
  rewrite Hm.
  replace (- (e - 20)) with (20 + - e) by lia.
  rewrite Z.pow_add_r by lia.
  change (10 ^ Z.of_nat 2) with 100.
  replace (2 * (n * 2 ^ (- e) * 100) + 2 ^ 20 * 2 ^ (- e))
    with ((200 * n + 2 ^ 20) * 2 ^ (- e)) by ring.
  replace (2 * (2 ^ 20 * 2 ^ (- e))) with (2 ^ 21 * 2 ^ (- e)) by (change (2 ^ 21) with (2 * 2 ^ 20); ring).
  apply Z.div_mul_cancel_r.
  - discriminate.
  - assert (0 < 2 ^ (- e)) by (apply Z.pow_pos_nonneg; lia). lia.
Qed.

(** X2: a cache of [n] bytes, [n] an integer below [2^53], is printed as
    [n / 1024^2] rounded to the nearest hundredth with exactly two decimal
    digits, and then " MB"; so a cache smaller than 5243 bytes is printed
    as "0.00 MB". *)
Theorem cache_sizes_print_in_megabytes (n : Z) :
  0 <= n < 2 ^ 53 ->
  mebi (lit n) = fixed_digits 2 ((200 * n + 2 ^ 20) / 2 ^ 21)
  /\ (exists ip d1 d2,
        mebi (lit n) ++ " MB" = ip ++ "." ++ String d1 (String d2 " MB")
        /\ ip <> "" /\ all_digits ip = true
        /\ is_digit d1 = true /\ is_digit d2 = true)
  /\ (n < 5243 -> mebi (lit n) ++ " MB" = "0.00 MB")
  /\ (forall c, l1d c = lit n ->
        at_path [0; 0]%nat (cacheTable c) = Some (row "L1D" (mebi (lit n) ++ " MB"))).
Proof.
  intros Hn. pose proof (mebi_exact n Hn) as E. split; [exact E | ]. split; [ | split].
  - destruct (fixed_digits_two_decimals ((200 * n + 2 ^ 20) / 2 ^ 21))
      as (ip & d1 & d2 & Hfd & Hne & Hip & H1 & H2).
    exists ip, d1, d2. rewrite E, Hfd, !append_assoc. repeat split; assumption.
  - intros Hsmall. rewrite E, Z.div_small by lia. reflexivity.
  - intros c Hc. unfold cacheTable. cbn [at_path nth_error table el tbody]. now rewrite Hc.
Qed.

Lemma cache_sizes_print_in_megabytes_witness :
  0 <= 32768 < 2 ^ 53
  /\ mebi (lit 32768) ++ " MB" = "0.03 MB"
  /\ at_path [0; 0]%nat (cacheTable (cpu_cache Sample.theCpu))
     = Some (row "L1D" (mebi (lit 32768) ++ " MB")).
Proof.
  assert (Hn : 0 <= 32768 < 2 ^ 53) by (split; [discriminate | reflexivity]).
  split; [exact Hn | ].
  pose proof (cache_sizes_print_in_megabytes 32768 Hn) as W.
  split.
  - rewrite (proj1 W). reflexivity.
  - exact (proj2 (proj2 (proj2 W)) (cpu_cache Sample.theCpu) eq_refl).
Defined.

Lemma full_usage_prints_100_witness :
  fs_used Sample.rootFs = lit (100 * Sample.GiB)
  /\ percent (lit (100 * Sample.GiB)) (lit (100 * Sample.GiB)) = "100.00".
Proof.
  split; [reflexivity | ].
  exact (proj1 (full_usage_prints_100 false 7036874417766400 (-16))).
Defined.

Lemma no_usage_prints_0_witness :
  percent (lit 0) (lit (100 * Sample.GiB)) = "0.00".
Proof. exact (proj1 (no_usage_prints_0 false false 7036874417766400 (-16))). Defined.

(** X12: the load of a core is printed with [toFixed(2)] and a per cent
    sign.  A load that is finite and below [10^21] in magnitude gives an
    optional minus sign, an integer part, a point and exactly two decimal
    digits; a load that is not a number or infinite gives the name of the
    value. *)
Theorem load_prints_two_decimals (input : Input) (cpu : CurrentLoadCpuData) (i : nat) :
  at_path [1; 1; 0]%nat (coreRow input cpu i) = Some (Text (toFixed 2 (load cpu) ++ "%"))
  /\ match load cpu with
     | S754_nan => toFixed 2 (load cpu) = "NaN"
     | S754_infinity s => toFixed 2 (load cpu) = if s then "-Infinity" else "Infinity"
     | S754_zero _ => toFixed 2 (load cpu) = "0.00"
     | S754_finite s m e =>
         cmp_scaled (Zpos m) e 1 21 = Lt ->
         exists ip d1 d2,
           toFixed 2 (load cpu)
           = (if s then "-" else "") ++ ip ++ "." ++ String d1 (String d2 "")
           /\ ip <> "" /\ all_digits ip = true
           /\ is_digit d1 = true /\ is_digit d2 = true
     end.
Proof.
  split; [reflexivity | ].
  destruct (load cpu) as [z | s | | s m e]; try reflexivity.
  intros Hlt. unfold toFixed. rewrite Hlt.
  destruct (fixed_digits_two_decimals (nearest_scaled 2 (Zpos m) e))
    as (ip & d1 & d2 & Hfd & Hne & Hip & H1 & H2).
  exists ip, d1, d2. rewrite Hfd. repeat split; assumption.
Qed.

Lemma load_prints_two_decimals_witness :
  cmp_scaled 7036874417766400 (-49) 1 21 = Lt
  /\ exists ip d1 d2,
       toFixed 2 (load {| load := div (lit 125) (lit 10) |})
       = ip ++ "." ++ String d1 (String d2 "")
       /\ ip <> "" /\ all_digits ip = true /\ is_digit d1 = true /\ is_digit d2 = true.
Proof.
  split; [reflexivity | ].
  exact (proj2 (load_prints_two_decimals Sample.healthy_input
                  {| load := div (lit 125) (lit 10) |} 0) eq_refl).
Defined.

End FurtherNumbers.

(* ===================================================================== *)
(** * Further properties of the document *)
(* ===================================================================== *)

Section FurtherRendering.

Import JS Data Html Render Aggregator Panel Layout.
Context `{Packages}.

Lemma count_text_join (sep : string) (rows : list html) :
  sep <> "" ->
  forallb is_row rows = true ->
  count_text sep (join sep rows) = Nat.pred (List.length rows).
Proof.
  intros Hsep. unfold count_text.
  assert (Hne : String.eqb sep "" = false) by (now apply String.eqb_neq).
  induction rows as [| r rows IH]; intros Hrows; [reflexivity | ].
  cbn [forallb] in Hrows. apply andb_true_iff in Hrows. destruct Hrows as [Hr Hrows].
  assert (Hnot : is_text sep r = false) by (destruct r; [discriminate Hr | reflexivity]).
  destruct rows as [| r' rows'].
  - cbn [join filter]. now rewrite Hnot.
  - change (join sep (r :: r' :: rows'))
      with (r :: ((if String.eqb sep "" then [] else [Text sep]) ++ join sep (r' :: rows'))%list).
    rewrite Hne. cbn [filter app is_text]. rewrite Hnot, String.eqb_refl.
    cbn [List.length]. rewrite (IH Hrows). reflexivity.
Qed.

Lemma count_text_join_empty (t : string) (rows : list html) :
  forallb is_row rows = true -> count_text t (join "" rows) = 0%nat.
Proof.
  unfold count_text. induction rows as [| r rows IH]; intros Hrows; [reflexivity | ].
  cbn [forallb] in Hrows. apply andb_true_iff in Hrows. destruct Hrows as [Hr Hrows].
  assert (Hnot : is_text t r = false) by (destruct r; [discriminate Hr | reflexivity]).
  destruct rows as [| r' rows'].
  - cbn [join filter]. now rewrite Hnot.
  - change (join "" (r :: r' :: rows')) with (r :: join "" (r' :: rows')).
    cbn [filter]. rewrite Hnot. apply IH, Hrows.
Qed.



(** X6: the Storage Usage table does not depend on the [available] and
    [use] figures of the probe: the free space it shows is computed from
    the size and the used space. *)
Theorem storage_ignores_available (l l' : list FsSizeData) :
  Forall2 same_but_available l l' ->
  storageRows (Some (map storage_of l)) = storageRows (Some (map storage_of l')).
Proof.
  intros Hsame. unfold storageRows. f_equal.
  induction Hsame as [| x y l l' (Hfs & Hty & Hsz & Hus & Hmo) _ IH]; [reflexivity | ].
  cbn [map]. rewrite IH. f_equal.
  unfold storageRow, storage_of. cbn [entry prettySize prettyUsed prettyFree].
  now rewrite Hfs, Hty, Hsz, Hus, Hmo.
Qed.

(** X11: [_update] replaces the html of the webview exactly when every
    call is fulfilled, and then by the document of the assembled input;
    in every other case the webview keeps what it had. *)
Theorem update_replaces_html_iff_all_fulfilled (h : host) :
  (forallb (fun q => fulfilled (settle h q)) probes = true ->
     exists input, snd (run h getInput) = Done input
                   /\ forall w, _update h w = Some (render input))
  /\ (forallb (fun q => fulfilled (settle h q)) probes = false ->
        forall w, _update h w = w).
Proof.
  split.
  - intros Hall.
    assert (Hall' : forall q, fulfilled (settle h q) = true).
    { intros q. rewrite forallb_forall in Hall. apply Hall. destruct q; simpl; tauto. }
    destruct (all_fulfilled_run h Hall')
      as (sd & lo & ip & t & cl & sp & te & pr & me & fsz & E).
    do 10 apply proj2 in E.
    exists (assembled h sd lo ip t cl sp te pr me fsz). split; [now rewrite E | ].
    intros w. unfold _update. now rewrite run_getHtml, E.
  - intros Hnot w.
    destruct (run_cases h) as [Hall | [p [Hbefore Hbad]]].
    + exfalso.
      assert (forallb (fun q => fulfilled (settle h q)) probes = true)
        by (apply forallb_forall; intros q _; apply Hall).
      congruence.
    + unfold _update. rewrite run_getHtml.
      destruct Hbad as [[reason Hrej] | Hpen].
      * now rewrite (rejected_ends_run h p reason Hrej Hbefore).
      * now rewrite (pending_ends_run h p Hpen Hbefore).
Qed.


End FurtherRendering.

Section FurtherRenderingRuns.

Import JS Data Html Render Aggregator Panel Layout Sample.


Lemma storage_ignores_available_witness :
  Forall2 same_but_available [Sample.rootFs]
    [ {| fs_fs := fs_fs Sample.rootFs; fs_type := fs_type Sample.rootFs;
         fs_size := fs_size Sample.rootFs; fs_used := fs_used Sample.rootFs;
         fs_available := JNull; fs_use := JUndefined;
         fs_mount := fs_mount Sample.rootFs |} ]
  /\ storageRows (Some (map storage_of [Sample.rootFs]))
     = storageRows
         (Some (map storage_of
                  [ {| fs_fs := fs_fs Sample.rootFs; fs_type := fs_type Sample.rootFs;
                       fs_size := fs_size Sample.rootFs; fs_used := fs_used Sample.rootFs;
                       fs_available := JNull; fs_use := JUndefined;
                       fs_mount := fs_mount Sample.rootFs |} ])).
Proof.
  assert (Hsame : Forall2 same_but_available [Sample.rootFs]
                    [ {| fs_fs := fs_fs Sample.rootFs; fs_type := fs_type Sample.rootFs;
                         fs_size := fs_size Sample.rootFs; fs_used := fs_used Sample.rootFs;
                         fs_available := JNull; fs_use := JUndefined;
                         fs_mount := fs_mount Sample.rootFs |} ]).
  { constructor; [repeat split | constructor]. }
  split; [exact Hsame | ].
  exact (@storage_ignores_available Sample.packages _ _ Hsame).
Defined.

Lemma update_replaces_html_iff_all_fulfilled_witness :
  forallb (fun q => fulfilled (settle Sample.ip_hangs q)) probes = false
  /\ forall w, _update Sample.ip_hangs w = w.
Proof.
  split; [reflexivity | ].
  exact (proj2 (@update_replaces_html_iff_all_fulfilled Sample.packages Sample.ip_hangs)
           eq_refl).
Defined.

End FurtherRenderingRuns.

(* ===================================================================== *)
(** * Further properties of the panel and of the extension *)
(* ===================================================================== *)

Section FurtherLifecycle.

Import Panel Lifecycle Extension.

Lemma pop_snoc {A : Type} (a : list A) (x : A) : pop (a ++ [x]) = (Some x, a).
Proof. unfold pop. now rewrite rev_unit, removelast_last. Qed.

(** X9: the loop of [dispose] ends; it leaves [_disposables] empty and has
    called [dispose] on each of its elements once, the last one first. *)
Theorem dispose_loop_empties (fuel : nat) (_disposables log : list nat) :
  (List.length _disposables < fuel)%nat ->
  dispose_loop fuel _disposables log = Some ([], (log ++ rev _disposables)%list).
Proof.
  revert fuel log.
  induction _disposables as [| x a IH] using rev_ind; intros fuel log Hfuel.
  - destruct fuel as [| fuel]; [cbn [List.length] in Hfuel; lia | ].
    cbn [dispose_loop List.length Nat.eqb rev]. now rewrite app_nil_r.
  - rewrite length_app in Hfuel. cbn [List.length] in Hfuel.
    destruct fuel as [| fuel]; [lia | ]. cbn [dispose_loop].
    rewrite length_app. cbn [List.length].
    replace (List.length a + 1 =? 0)%nat with false by (symmetry; apply Nat.eqb_neq; lia).
    rewrite pop_snoc, IH by lia.
    now rewrite rev_unit, <- app_assoc.
Qed.

Lemma dispose_loop_empties_witness :
  (List.length [0; 1; 2] < 4)%nat
  /\ dispose_loop 4 [0; 1; 2]%nat [] = Some ([], [2; 1; 0]%nat).
Proof.
  assert (Hf : (List.length [0; 1; 2] < 4)%nat) by (cbn; lia).
  split; [exact Hf | ]. exact (dispose_loop_empties 4 [0; 1; 2]%nat [] Hf).
Defined.

Lemma filter_filter {A : Type} (f g : A -> bool) (l : list A) :
  filter f (filter g l) = filter (fun x => g x && f x) l.
Proof.
  induction l as [| x l IH]; [reflexivity | ].
  cbn [filter]. destruct (g x); cbn [filter andb]; [destruct (f x) | ]; now rewrite IH.
Qed.

Lemma not_disposed (st : state) (i : nat) :
  (forall j, In j (disposed st) -> (j < constructed st)%nat) ->
  (constructed st <= i)%nat ->
  existsb (Nat.eqb i) (disposed st) = false.
Proof.
  intros Hd Hi. destruct (existsb (Nat.eqb i) (disposed st)) eqn:E; [ | reflexivity].
  apply existsb_exists in E. destruct E as (j & Hj & Heq).
  apply Nat.eqb_eq in Heq. subst j. specialize (Hd i Hj). lia.
Qed.

Lemma tidy_construct (st : state) :
  tidy st -> currentPanel st = None -> tidy (construct st).
Proof.
  intros [Hopen Hd] Hnone. split.
  - unfold open_instances, tracked in *. rewrite Hnone in Hopen.
    cbn [construct constructed currentPanel]. rewrite seq_S, filter_app.
    rewrite (filter_ext_in (is_open (construct st)) (is_open st)).
    + rewrite Hopen. cbn [app filter Nat.add]. unfold is_open.
      cbn [construct constructed disposed].
      rewrite (not_disposed st (constructed st) Hd (le_n _)).
      now replace (constructed st <? S (constructed st))%nat with true
        by (symmetry; apply Nat.ltb_lt; lia).
    + intros i Hi. apply in_seq in Hi. unfold is_open.
      cbn [construct constructed disposed].
      replace (i <? S (constructed st))%nat with true by (symmetry; apply Nat.ltb_lt; lia).
      now replace (i <? constructed st)%nat with true by (symmetry; apply Nat.ltb_lt; lia).
  - intros i Hi. cbn [construct constructed disposed] in *. specialize (Hd i Hi). lia.
Qed.

Lemma tidy_step (st : state) (c : call) :
  tidy st ->
  match c with
  | CreateOrShow => True
  | Revive => False
  | Dispose this => is_open st this = true
  end ->
  tidy (step st c).
Proof.
  intros Htidy Hc. destruct c as [ | | this]; [ | destruct Hc | ]; cbn [step].
  - unfold createOrShow. destruct (currentPanel st) as [p | ] eqn:Hp.
    + destruct Htidy as [Hopen Hd]. split; [ | exact Hd].
      unfold open_instances, tracked in *. cbn [currentPanel constructed]. now rewrite Hp in *.
    + apply tidy_construct; assumption.
  - destruct Htidy as [Hopen Hd].
    assert (Hlt : (this <? constructed st)%nat = true)
      by (unfold is_open in Hc; apply andb_true_iff in Hc; tauto).
    rewrite Hlt. split.
    + unfold open_instances, tracked. cbn [dispose constructed currentPanel].
      rewrite (filter_ext (is_open (dispose this st))
                 (fun i => is_open st i && negb (Nat.eqb i this))).
      * rewrite <- filter_filter. fold (open_instances st). rewrite Hopen.
        assert (Hin : In this (open_instances st)).
        { apply filter_In. split; [ | exact Hc].
          apply in_seq. apply Nat.ltb_lt in Hlt. lia. }
        rewrite Hopen in Hin. unfold tracked in *.
        destruct (currentPanel st) as [p | ]; [ | destruct Hin].
        destruct Hin as [-> | []]. cbn [filter]. now rewrite Nat.eqb_refl.
      * intros i. unfold is_open. cbn [dispose constructed disposed existsb].
        destruct (i <? constructed st)%nat, (Nat.eqb i this), (existsb (Nat.eqb i) (disposed st));
          reflexivity.
    + intros i Hi. cbn [dispose constructed disposed] in *.
      destruct Hi as [<- | Hi]; [now apply Nat.ltb_lt | apply Hd, Hi].
Qed.

Lemma tidy_orderly (calls : list call) (st : state) :
  tidy st -> orderly st calls = true -> tidy (fold_left step calls st).
Proof.
  revert st. induction calls as [| c calls IH]; intros st Htidy Hord; [exact Htidy | ].
  cbn [orderly] in Hord. apply andb_true_iff in Hord. destruct Hord as [Hc Hord].
  cbn [fold_left]. apply IH; [ | exact Hord].
  apply tidy_step; [exact Htidy | ].
  destruct c; [exact I | discriminate Hc | exact Hc].
Qed.

(** X7: as long as [revive] is not called and [dispose] is called on open
    instances only, the open instances are exactly the tracked one: there
    is never more than one open panel. *)
Theorem open_panel_is_the_tracked_one (calls : list call) :
  orderly initial calls = true ->
  open_instances (exec calls) = tracked (exec calls)
  /\ (List.length (open_instances (exec calls)) <= 1)%nat.
Proof.
  intros Hord.
  destruct (tidy_orderly calls initial) as [Hopen _]; [ | exact Hord | ].
  - split; [reflexivity | intros i []].
  - fold (exec calls) in Hopen. split; [exact Hopen | ].
    rewrite Hopen. unfold tracked. destruct (currentPanel (exec calls)); cbn; lia.
Qed.

Lemma open_panel_is_the_tracked_one_witness :
  orderly initial [CreateOrShow; CreateOrShow; Dispose 0%nat; CreateOrShow] = true
  /\ open_instances (exec [CreateOrShow; CreateOrShow; Dispose 0%nat; CreateOrShow])
     = tracked (exec [CreateOrShow; CreateOrShow; Dispose 0%nat; CreateOrShow]).
Proof.
  split; [reflexivity | ].
  exact (proj1 (open_panel_is_the_tracked_one
                  [CreateOrShow; CreateOrShow; Dispose 0%nat; CreateOrShow] eq_refl)).
Defined.

Lemma disposed_are_constructed (calls : list call) (i : nat) :
  In i (disposed (exec calls)) -> (i < constructed (exec calls))%nat.
Proof.
  revert i. induction calls as [| c calls IH] using rev_ind; intros i Hi; [destruct Hi | ].
  rewrite exec_snoc in *. destruct c as [ | | this]; cbn [step] in *.
  - unfold createOrShow in *. destruct (currentPanel (exec calls));
      cbn [construct constructed disposed] in *; [apply IH, Hi | specialize (IH i Hi); lia].
  - cbn [revive construct constructed disposed] in *. specialize (IH i Hi). lia.
  - destruct (this <? constructed (exec calls))%nat eqn:Hlt; [ | apply IH, Hi].
    cbn [dispose constructed disposed] in *.
    destruct Hi as [<- | Hi]; [now apply Nat.ltb_lt | apply IH, Hi].
Qed.

(** X8: [revive] does not dispose the instance it replaces.  If an open
    instance is tracked, then after [revive] it is still open, the new
    instance is open and tracked; and disposing the older one clears the
    field while the new one stays open and untracked. *)
Theorem revive_leaves_two_open (calls : list call) (p : nat) :
  currentPanel (exec calls) = Some p ->
  is_open (exec calls) p = true ->
  let fresh := constructed (exec calls) in
  p <> fresh
  /\ is_open (revive (exec calls)) p = true
  /\ is_open (revive (exec calls)) fresh = true
  /\ tracked (revive (exec calls)) = [fresh]
  /\ currentPanel (step (revive (exec calls)) (Dispose p)) = None
  /\ is_open (step (revive (exec calls)) (Dispose p)) fresh = true.
Proof.
  intros Hp Hopen fresh.
  pose proof (tracked_is_constructed calls p Hp) as Hlt.
  assert (Hnd : existsb (Nat.eqb fresh) (disposed (exec calls)) = false)
    by (apply not_disposed; [apply disposed_are_constructed | apply le_n]).
  assert (Hfresh : (fresh <? S fresh)%nat = true) by (apply Nat.ltb_lt; lia).
  assert (HpS : (p <? S fresh)%nat = true) by (apply Nat.ltb_lt; unfold fresh; lia).
  unfold is_open in Hopen. apply andb_true_iff in Hopen. destruct Hopen as [_ Hpd].
  repeat split.
  - unfold fresh. lia.
  - unfold is_open. cbn [revive construct constructed disposed]. fold fresh.
    now rewrite HpS, Hpd.
  - unfold is_open. cbn [revive construct constructed disposed]. fold fresh.
    now rewrite Hfresh, Hnd.
  - cbn [step revive construct constructed]. fold fresh. now rewrite HpS.
  - cbn [step revive construct constructed]. fold fresh. rewrite HpS.
    unfold is_open. cbn [dispose revive construct constructed disposed existsb].
    fold fresh. rewrite Hfresh, Hnd.
    replace (Nat.eqb fresh p) with false by (symmetry; apply Nat.eqb_neq; unfold fresh; lia).
    reflexivity.
Qed.

Lemma revive_leaves_two_open_witness :
  currentPanel (exec [CreateOrShow]) = Some 0%nat
  /\ is_open (exec [CreateOrShow]) 0 = true
  /\ is_open (revive (exec [CreateOrShow])) 0 = true
  /\ is_open (revive (exec [CreateOrShow])) 1 = true.
Proof.
  split; [reflexivity | split; [reflexivity | ] ].
  pose proof (revive_leaves_two_open [CreateOrShow] 0%nat eq_refl eq_refl) as W.
  cbv zeta in W. split.
  - exact (proj1 (proj2 W)).
  - exact (proj1 (proj2 (proj2 W))).
Defined.



End FurtherLifecycle.

(* ===================================================================== *)
(** * The uptime in milliseconds and the free space *)
(* ===================================================================== *)

Section ExactProducts.

Import JS.

(** ** Products and differences that fit in 53 bits are exact *)

Lemma shr_1_even (M : Z) :
  0 <= M -> Z.even M = true ->
  shr_1 {| shr_m := M; shr_r := false; shr_s := false |}
  = {| shr_m := M / 2; shr_r := false; shr_s := false |}.
Proof.
  intros HM Hev. destruct M as [| [p | p | ] | p]; try lia; try discriminate Hev.
  - reflexivity.
  - cbn [shr_1 orb]. f_equal. rewrite Pos2Z.inj_xO. apply Z.div_unique with (r := 0); lia.
Qed.

(** Shifting out [k] bits that are all zero loses nothing. *)
Lemma shr_iter_exact (P : Z) (k : nat) :
  0 <= P -> P mod 2 ^ Z.of_nat k = 0 ->
  Nat.iter k shr_1 {| shr_m := P; shr_r := false; shr_s := false |}
  = {| shr_m := P / 2 ^ Z.of_nat k; shr_r := false; shr_s := false |}.
Proof.
  intros HP. induction k as [| k IH]; intros Hmod.
  - cbn [Nat.iter]. now rewrite Z.div_1_r.
  - rewrite Nat2Z.inj_succ, Z.pow_succ_r in * by lia.
    set (X := 2 ^ Z.of_nat k) in *.
    assert (HX : 0 < X) by (apply Z.pow_pos_nonneg; lia).
    pose proof (Z.div_mod P (2 * X) ltac:(lia)) as E2. rewrite Hmod in E2.
    assert (Hk : P mod X = 0).
    { apply Z.mod_divide; [lia | ]. exists (2 * (P / (2 * X))). lia. }
    rewrite Nat.iter_succ, (IH Hk).
    assert (Hq : P / X = 2 * (P / (2 * X))).
    { symmetry. apply Z.div_unique with (r := 0); lia. }
    rewrite shr_1_even.
    + f_equal. rewrite Z.div_div by lia. f_equal. lia.
    + apply Z.div_pos; lia.
    + rewrite Hq. apply Z.even_mul.
Qed.

Lemma digits2_pos_unique (p : positive) (k : Z) :
  2 ^ (k - 1) <= Zpos p < 2 ^ k -> Zpos (digits2_pos p) = k.
Proof.
  intros Hk. pose proof (digits2_pos_bounds p) as Hb.
  set (d := Zpos (digits2_pos p)) in *.
  assert (Hd : 0 < d) by (unfold d; lia).
  destruct (Z.lt_trichotomy d k) as [L | [Eq | G]]; [exfalso | exact Eq | exfalso].
  - assert (2 ^ d <= 2 ^ (k - 1)) by (apply Z.pow_le_mono_r; lia). lia.
  - assert (0 <= k).
    { destruct (Z.le_gt_cases 0 k); [assumption | ].
      rewrite (Z.pow_neg_r 2 k) in Hk by lia. lia. }
    assert (2 ^ k <= 2 ^ (d - 1)) by (apply Z.pow_le_mono_r; lia). lia.
Qed.

(** A product that fits in 53 bits is computed exactly. *)
Lemma round_exact_product (P : positive) (E v : Z) :
  E <= 0 -> -1000 <= E ->
  0 < v < 2 ^ 53 ->
  Zpos P = v * 2 ^ (- E) ->
  2 ^ 52 <= Zpos P ->
  binary_round_aux prec emax false (Zpos P) E loc_Exact = lit v.
Proof.
  intros HE HE' Hv HP Hbig.
  pose proof (digits2_pos_bounds P) as BP.
  set (d := Zpos (digits2_pos P)) in *.
  assert (Xk : 0 < 2 ^ (- E)) by (apply Z.pow_pos_nonneg; lia).
  assert (Hd53 : 53 <= d).
  { destruct (Z.le_gt_cases 53 d); [assumption | exfalso].
    assert (2 ^ d <= 2 ^ 52) by (apply Z.pow_le_mono_r; lia). lia. }
  assert (Hdk : d <= 53 + - E).
  { destruct (Z.le_gt_cases d (53 + - E)); [assumption | exfalso].
    assert (2 ^ (53 + - E) <= 2 ^ (d - 1)) by (apply Z.pow_le_mono_r; lia).
    rewrite Z.pow_add_r in H0 by lia. nia. }
  set (n := d - 53).
  assert (Hn : 0 <= n <= - E) by (unfold n; lia).
  (* the significand after the shift *)
  assert (Hsplit : 2 ^ (- E) = 2 ^ (- E - n) * 2 ^ n).
  { rewrite <- Z.pow_add_r by lia. f_equal. lia. }
  assert (Xn : 0 < 2 ^ n) by (apply Z.pow_pos_nonneg; lia).
  assert (Xr : 0 < 2 ^ (- E - n)) by (apply Z.pow_pos_nonneg; lia).
  set (M := v * 2 ^ (- E - n)).
  assert (HPM : Zpos P = M * 2 ^ n) by (unfold M; rewrite HP, Hsplit; ring).
  assert (HMpos : 0 < M) by (unfold M; nia).
  destruct M as [| m | m] eqn:EM; try lia.
  assert (Hdm : Zpos (digits2_pos m) = prec).
  { apply digits2_pos_unique. unfold prec.
    assert (Hpd : 2 ^ d = 2 ^ 53 * 2 ^ n)
      by (rewrite <- Z.pow_add_r by lia; f_equal; unfold n; lia).
    assert (Hpd1 : 2 ^ (d - 1) = 2 ^ 52 * 2 ^ n)
      by (rewrite <- Z.pow_add_r by lia; f_equal; unfold n; lia).
    change (53 - 1) with 52. rewrite Hpd, Hpd1, HPM in BP. nia. }
  (* the two shifts *)
  unfold binary_round_aux.
  assert (S1 : shr_fexp prec emax (Zpos P) E loc_Exact
               = ({| shr_m := Zpos m; shr_r := false; shr_s := false |}, E + n)).
  { unfold shr_fexp. cbn [Zdigits2 shr_record_of_loc]. fold d.
    replace (fexp prec emax (d + E) - E) with n
      by (unfold fexp, SpecFloat.emin, prec, emax, n; lia).
    destruct n as [| np | np] eqn:En; try lia.
    - cbn [shr]. change (2 ^ 0) with 1 in HPM. f_equal; [ | lia].
      f_equal. lia.
    - cbn [shr]. rewrite iter_pos_nat.
      rewrite shr_iter_exact; rewrite ?positive_nat_Z; try lia.
      + f_equal. f_equal. rewrite HPM. apply Z.div_mul. lia.
      + rewrite HPM. apply Z.mod_mul. lia. }
  rewrite S1. cbn [shr_m loc_of_shr_record round_nearest_even].
  rewrite (shr_fexp_normal m (E + n) Hdm) by (unfold prec, emax; lia).
  cbn [shr_m].
  destruct (Z.leb_spec (E + n) (emax - prec)); [ | unfold prec, emax in *; lia].
  (* it is the float of [v] *)
  destruct (lit_normal v Hv) as (m' & e' & El & Hd' & He' & Hm').
  rewrite El.
  pose proof (digits2_pos_bounds m) as Bm. rewrite Hdm in Bm.
  pose proof (digits2_pos_bounds m') as Bm'. rewrite Hd' in Bm'. unfold prec in *.
  assert (Xe : 0 < 2 ^ (- e')) by (apply Z.pow_pos_nonneg; lia).
  assert (Hm : Zpos m = v * 2 ^ (- E - n)) by (unfold M in EM; lia).
  assert (Hee : - E - n = - e').
  { destruct (Z.lt_trichotomy (- E - n) (- e')) as [L | [Eq | G]]; [exfalso | exact Eq | exfalso].
    - assert (Hs : 2 ^ (- e') = 2 ^ (- e' - (- E - n)) * 2 ^ (- E - n))
        by (rewrite <- Z.pow_add_r by lia; f_equal; lia).
      assert (2 <= 2 ^ (- e' - (- E - n)))
        by (change 2 with (2 ^ 1) at 1; apply Z.pow_le_mono_r; lia).
      rewrite Hs in Hm'. change (2 ^ (53 - 1)) with (2 ^ 52) in *. nia.
    - assert (Hs : 2 ^ (- E - n) = 2 ^ (- E - n - - e') * 2 ^ (- e'))
        by (rewrite <- Z.pow_add_r by lia; f_equal; lia).
      assert (2 <= 2 ^ (- E - n - - e'))
        by (change 2 with (2 ^ 1) at 1; apply Z.pow_le_mono_r; lia).
      rewrite Hs in Hm. change (2 ^ (53 - 1)) with (2 ^ 52) in *. nia. }
  rewrite Hee in Hm. f_equal; lia.
Qed.

Lemma mul_lit (a b : Z) :
  0 < a -> 0 < b -> a * b < 2 ^ 53 -> mul (lit a) (lit b) = lit (a * b).
Proof.
  intros Ha Hb Hab.
  assert (Ha53 : a < 2 ^ 53) by nia. assert (Hb53 : b < 2 ^ 53) by nia.
  destruct (lit_normal a ltac:(lia)) as (ma & ea & Ea & Hda & Hea & Hma).
  destruct (lit_normal b ltac:(lia)) as (mb & eb & Eb & Hdb & Heb & Hmb).
  rewrite Ea, Eb. unfold mul, SFmul. cbn [xorb].
  pose proof (digits2_pos_bounds ma) as Ba. rewrite Hda in Ba.
  pose proof (digits2_pos_bounds mb) as Bb. rewrite Hdb in Bb.
  unfold prec in Ba, Bb. change (2 ^ (53 - 1)) with (2 ^ 52) in *.
  apply round_exact_product; [lia | lia | nia | | ].
  - rewrite Pos2Z.inj_mul, Hma, Hmb.
    replace (- (ea + eb)) with (- ea + - eb) by lia.
    rewrite Z.pow_add_r by lia. ring.
  - rewrite Pos2Z.inj_mul. nia.
Qed.

Lemma shl_align_value (mx : positive) (ex ez : Z) :
  ez <= ex ->
  Zpos (fst (shl_align mx ex ez)) = Zpos mx * 2 ^ (ex - ez)
  /\ snd (shl_align mx ex ez) = ez.
Proof.
  intros Hle. unfold shl_align. destruct (ez - ex) as [| d | d] eqn:Ed; try lia.
  - cbn [fst snd]. replace (ex - ez) with 0 by lia. change (2 ^ 0) with 1. lia.
  - cbn [fst snd]. destruct (iter_xO_spec mx d) as [Hv _]. rewrite Hv.
    split; [ | reflexivity]. f_equal. f_equal. lia.
Qed.

(** An integer below [2^53], given with a scale, is normalized to its
    float. *)
Lemma binary_round_exact (P : positive) (E v : Z) :
  -200 <= E <= 0 ->
  0 < v < 2 ^ 53 ->
  Zpos P = v * 2 ^ (- E) ->
  binary_round prec emax false P E = lit v.
Proof.
  intros HE Hv HP. unfold binary_round.
  pose proof (digits2_pos_bounds P) as BP.
  set (d := Zpos (digits2_pos P)) in *.
  assert (Hd : 0 < d) by (unfold d; lia).
  assert (Xk : 0 < 2 ^ (- E)) by (apply Z.pow_pos_nonneg; lia).
  assert (Hdk : d <= 53 + - E).
  { destruct (Z.le_gt_cases d (53 + - E)); [assumption | exfalso].
    assert (Hp : 2 ^ (53 + - E) <= 2 ^ (d - 1)) by (apply Z.pow_le_mono_r; lia).
    rewrite Z.pow_add_r in Hp by lia. nia. }
  replace (fexp prec emax (d + E)) with (d + E - 53)
    by (unfold fexp, SpecFloat.emin, prec, emax; lia).
  destruct (Z.le_gt_cases (d + E - 53) E) as [Hle | Hgt].
  - destruct (shl_align_value P E (d + E - 53) Hle) as [Hm He].
    destruct (shl_align P E (d + E - 53)) as [mz ez]. cbn [fst snd] in Hm, He. subst ez.
    assert (Xs : 0 < 2 ^ (E - (d + E - 53))) by (apply Z.pow_pos_nonneg; lia).
    apply round_exact_product; try lia.
    + rewrite Hm, HP, <- Z.mul_assoc, <- Z.pow_add_r by lia. f_equal. f_equal. lia.
    + rewrite Hm.
      assert (Hs : 2 ^ 52 = 2 ^ (d - 1) * 2 ^ (E - (d + E - 53)))
        by (rewrite <- Z.pow_add_r by lia; f_equal; lia).
      rewrite Hs. apply Z.mul_le_mono_nonneg_r; lia.
  - assert (Hal : shl_align P E (d + E - 53) = (P, E)).
    { unfold shl_align. destruct (d + E - 53 - E) eqn:Ed; try reflexivity. lia. }
    rewrite Hal. apply round_exact_product; try lia.
    assert (2 ^ 52 <= 2 ^ (d - 1)) by (apply Z.pow_le_mono_r; lia). lia.
Qed.

(** The difference of two integers below [2^53] is exact. *)
Lemma sub_lit (a b : Z) :
  0 <= b <= a -> a < 2 ^ 53 -> sub (lit a) (lit b) = lit (a - b).
Proof.
  intros Hab Ha.
  destruct (Z.eq_dec b 0) as [-> | Hb].
  { rewrite Z.sub_0_r. destruct (Z.eq_dec a 0) as [-> | Hane]; [reflexivity | ].
    destruct (lit_normal a ltac:(lia)) as (ma & ea & Ea & _). rewrite Ea. reflexivity. }
  destruct (lit_normal a ltac:(lia)) as (ma & ea & Ea & Hda & Hea & Hma).
  destruct (lit_normal b ltac:(lia)) as (mb & eb & Eb & Hdb & Heb & Hmb).
  rewrite Ea, Eb. unfold sub, SFsub. cbn [cond_Zopp].
  set (ez := Z.min ea eb).
  destruct (shl_align_value ma ea ez ltac:(unfold ez; lia)) as [Va _].
  destruct (shl_align_value mb eb ez ltac:(unfold ez; lia)) as [Vb _].
  rewrite Va, Vb, Hma, Hmb.
  assert (Hdiff : a * 2 ^ (- ea) * 2 ^ (ea - ez) - b * 2 ^ (- eb) * 2 ^ (eb - ez)
                  = (a - b) * 2 ^ (- ez)).
  { rewrite <- !Z.mul_assoc, <- !Z.pow_add_r by (unfold ez; lia).
    replace (- ea + (ea - ez)) with (- ez) by lia.
    replace (- eb + (eb - ez)) with (- ez) by lia. ring. }
  rewrite Hdiff.
  assert (Xz : 0 < 2 ^ (- ez)) by (apply Z.pow_pos_nonneg; unfold ez; lia).
  destruct ((a - b) * 2 ^ (- ez)) as [| D | D] eqn:ED.
  - assert (a - b = 0) by nia. replace (a - b) with 0 by lia. reflexivity.
  - cbn [binary_normalize]. apply binary_round_exact; try (unfold ez; lia); nia.
  - exfalso. nia.
Qed.

End ExactProducts.

Section UptimeText.

Import JS Data Aggregator Uptime.
Context `{Packages}.

(** X13: for an uptime that is at least 0 and less than [2^43] seconds,
    [pretty-ms] is called with exactly 1000 times the whole seconds of the
    uptime: the fraction of a second is dropped and nothing is lost in the
    multiplication. *)
Theorem uptime_in_whole_seconds (x : number) :
  plausible x = true ->
  mul (Math_floor (parseFloat x)) (lit 1000) = lit (1000 * whole_seconds x)
  /\ forall h sd lo ip t cl sp te pr me fsz,
       uptime t = x ->
       prettyUptime (assembled h sd lo ip t cl sp te pr me fsz)
       = prettyMs (lit (1000 * whole_seconds x)).
Proof.
  intros Hx.
  assert (E : mul (Math_floor (parseFloat x)) (lit 1000) = lit (1000 * whole_seconds x)).
  { destruct x as [[|] | | | [|] m e]; try discriminate Hx; [reflexivity | ].
    cbn [plausible] in Hx. apply andb_true_iff in Hx. destruct Hx as [Hb Hlt].
    unfold bounded, canonical_mantissa in Hb. apply andb_true_iff in Hb.
    destruct Hb as [Hc _]. apply Z.eqb_eq in Hc.
    pose proof (digits2_pos_bounds m) as Bm.
    unfold cmp_scaled in Hlt.
    destruct (_ ?= _)%Z eqn:C in Hlt; try discriminate Hlt. clear Hlt.
    change (Z.max (- 0) 0) with 0 in C. change (Z.max 0 0) with 0 in C.
    change (10 ^ 0) with 1 in C.
    assert (He : e < 0).
    { destruct (Z.lt_ge_cases e 0) as [L | G]; [exact L | exfalso].
      rewrite (Z.max_l e 0), (Z.max_r (- e) 0) in C by lia.
      change (2 ^ 0) with 1 in C. rewrite Z.compare_lt_iff in C.
      assert (Hd : Zpos (digits2_pos m) = 53)
        by (unfold fexp, SpecFloat.emin, prec, emax in Hc; lia).
      rewrite Hd in Bm. change (2 ^ (53 - 1)) with (2 ^ 52) in Bm.
      assert (1 <= 2 ^ e) by (change 1 with (2 ^ 0); apply Z.pow_le_mono_r; lia).
      assert (2 ^ 43 < 2 ^ 52) by reflexivity. nia. }
    rewrite (Z.max_r e 0), (Z.max_l (- e) 0) in C by lia.
    change (2 ^ 0) with 1 in C. rewrite Z.compare_lt_iff in C.
    assert (X : 0 < 2 ^ (- e)) by (apply Z.pow_pos_nonneg; lia).
    cbn [parseFloat Math_floor whole_seconds].
    destruct (Z.leb_spec 0 e); [lia | ].
    set (q := Zpos m / 2 ^ (- e)).
    assert (Hq : 0 <= q < 2 ^ 43).
    { split; [apply Z.div_pos; lia | ].
      apply Z.div_lt_upper_bound; [lia | ]. lia. }
    change (binary_normalize prec emax q 0 false) with (lit q).
    destruct (Z.eq_dec q 0) as [-> | Hq0]; [reflexivity | ].
    rewrite (Z.mul_comm 1000 q). apply mul_lit; lia. }
  split; [exact E | ].
  intros h sd lo ip t cl sp te pr me fsz Ht.
  unfold assembled. cbn [prettyUptime]. now rewrite Ht, E.
Qed.

(** X14: for a file system whose size and used space are whole numbers of
    bytes, the used space being at most the size and the size less than
    [2^53], the free space handed to [pretty-bytes] and shown in the row is
    exactly the size minus the used space. *)
Theorem free_space_is_size_minus_used (x : FsSizeData) (a b : Z) :
  0 <= b <= a -> a < 2 ^ 53 ->
  fs_size x = lit a -> fs_used x = lit b ->
  prettyFree (storage_of x) = prettyBytes (lit (a - b))
  /\ Render.at_path [4; 0]%nat (Render.storageRow (storage_of x))
     = Some (Html.Text (prettyBytes (lit (a - b)))).
Proof.
  intros Hab Ha Hsize Hused.
  assert (E : prettyFree (storage_of x) = prettyBytes (lit (a - b))).
  { unfold storage_of. cbn [prettyFree]. now rewrite Hsize, Hused, sub_lit. }
  split; [exact E | ].
  unfold Render.storageRow. cbn [Render.at_path nth_error Html.tr Html.td]. now rewrite E.
Qed.

End UptimeText.

Section UptimeRuns.

Import JS Data Aggregator Uptime Sample.

Lemma uptime_in_whole_seconds_witness :
  plausible (uptime Sample.theTime) = true
  /\ whole_seconds (uptime Sample.theTime) = 93721
  /\ prettyUptime Sample.healthy_input = prettyMs (lit 93721000).
Proof.
  split; [reflexivity | split; [reflexivity | ] ].
  exact (proj2 (@uptime_in_whole_seconds Sample.packages (uptime Sample.theTime) eq_refl)
           Sample.healthy Sample.theStatic (JStr "en-US") (JStr "203.0.113.7")
           Sample.theTime Sample.theLoad Sample.theSpeeds Sample.theTemperatures
           Sample.theProcesses Sample.theMem [Sample.rootFs; Sample.bootFs] eq_refl).
Defined.

Lemma free_space_is_size_minus_used_witness :
  0 <= 100 * Sample.GiB <= 400 * Sample.GiB
  /\ 400 * Sample.GiB < 2 ^ 53
  /\ prettyFree (storage_of Sample.rootFs) = prettyBytes (lit (300 * Sample.GiB)).
Proof.
  assert (Hab : 0 <= 100 * Sample.GiB <= 400 * Sample.GiB) by (split; discriminate).
  assert (Ha : 400 * Sample.GiB < 2 ^ 53) by reflexivity.
  split; [exact Hab | split; [exact Ha | ] ].
  exact (proj1 (@free_space_is_size_minus_used Sample.packages Sample.rootFs
                  (400 * Sample.GiB) (100 * Sample.GiB) Hab Ha eq_refl eq_refl)).
Defined.

End UptimeRuns.
